(** * featuretools.utils.entity_utils: semantic typing of tabular columns

    A shallow embedding of [featuretools/utils/entity_utils.py]: the datetime
    detector [col_is_datetime], type inference [infer_variable_types], the
    converter [convert_variable_data], its driver [convert_all_variable_data]
    and the statistics engine [generate_statistics].

    Python floats are idealised as rationals ([Q]), and nothing is stated
    about the order of two computed floats where rounding could change it; a
    frame carries the default row labels 0, ..., n-1 ([default_index]), and
    the two places where the source reads the row labels, [reset_index] and
    [replace_latlong_nan], take them from there; exceptions are values of
    [error] returned through the [result] monad. *)

From Stdlib Require Import List String Ascii Bool Arith ZArith QArith Lia.
Import ListNotations.
Local Open Scope string_scope.
Local Open Scope list_scope.

Set Implicit Arguments.

(** ** Exceptions *)

Inductive error : Type :=
| ValueError (msg : string)
| TypeError (msg : string)
| LookupError (msg : string)
| KeyError (msg : string)
| ZeroDivisionError
| PyException (msg : string).

Inductive result (A : Type) : Type :=
| Ok (a : A)
| Err (e : error).

Arguments Ok {A} a.
Arguments Err {A} e.

Definition bind {A B : Type} (r : result A) (k : A -> result B) : result B :=
  match r with
  | Ok a => k a
  | Err e => Err e
  end.

Notation "x <- c ;; k" := (bind c (fun x => k))
  (at level 61, c at next level, right associativity).

Definition is_ok {A : Type} (r : result A) : bool :=
  match r with Ok _ => true | Err _ => false end.

(** ** The variable-type taxonomy *)

(** Modelled from the spec: the classes of [featuretools.variable_types]
    (the module is imported by the source but is not part of it), as the
    closed taxonomy the specification lists: [Unknown], [Boolean], [Numeric],
    [Datetime], the [Discrete] family with [Categorical] and [Text], and the
    paired-coordinate type [LatLong]. *)
Inductive vtype : Type :=
| Unknown | Boolean | Numeric | Datetime | Discrete | Categorical | Text | LatLong.

Definition vtype_eqb (a b : vtype) : bool :=
  match a, b with
  | Unknown, Unknown | Boolean, Boolean | Numeric, Numeric
  | Datetime, Datetime | Discrete, Discrete | Categorical, Categorical
  | Text, Text | LatLong, LatLong => true
  | _, _ => false
  end.

(** Modelled from the spec: the supertype table, [issubclass(a, b)] on
    classes; [Categorical] and [Text] are the kinds of [Discrete], every
    class is a subclass of itself. *)
Definition issubclass (a b : vtype) : bool :=
  vtype_eqb a b ||
  match a, b with
  | Categorical, Discrete | Text, Discrete => true
  | _, _ => false
  end.

(** Modelled from the spec: the canonical name of a class, its
    [type_string]. *)
Definition type_string (t : vtype) : string :=
  match t with
  | Unknown => "unknown" | Boolean => "boolean" | Numeric => "numeric"
  | Datetime => "datetime" | Discrete => "discrete"
  | Categorical => "categorical" | Text => "text" | LatLong => "latlong"
  end.

(** ** Column storage *)

(** The storage representations (pandas dtypes) the module distinguishes. *)
Inductive dtype : Type :=
| DObject | DBool | DCategory | DInt8 | DInt64 | DFloat64
| DDatetime64 | DTimedelta64 | DString.

(** [dtype.name] *)
Definition dtype_name (d : dtype) : string :=
  match d with
  | DObject => "object" | DBool => "bool" | DCategory => "category"
  | DInt8 => "int8" | DInt64 => "int64" | DFloat64 => "float64"
  | DDatetime64 => "datetime64[ns]" | DTimedelta64 => "timedelta64[ns]"
  | DString => "string"
  end.

(** [pandas.api.types.is_categorical_dtype] *)
Definition is_categorical_dtype (d : dtype) : bool :=
  match d with DCategory => true | _ => false end.

(** [pandas.api.types.is_numeric_dtype]: integers, floats and booleans. *)
Definition is_numeric_dtype (d : dtype) : bool :=
  match d with DInt8 | DInt64 | DFloat64 | DBool => true | _ => false end.

Definition is_datetime_or_timedelta_dtype (d : dtype) : bool :=
  match d with DDatetime64 | DTimedelta64 => true | _ => false end.

(** [s.find(sub) > -1] *)
Fixpoint prefix_of (sub s : string) : bool :=
  match sub, s with
  | EmptyString, _ => true
  | String a sub', String b s' => Ascii.eqb a b && prefix_of sub' s'
  | String _ _, EmptyString => false
  end.

Fixpoint str_contains (sub s : string) : bool :=
  prefix_of sub s ||
  match s with
  | EmptyString => false
  | String _ s' => str_contains sub s'
  end.

(** ** Cell values *)

(** Numbers: Python [int], [float] (a rational here) and the float [nan]. *)
Inductive number : Type :=
| NInt (z : Z)
| NFloat (q : Q)
| NNaN.

(** The objects a cell may hold.  [VNaT] is [pandas.NaT]; [VTime] a native
    timestamp (nanoseconds since the epoch); [VPair] a coordinate pair. *)
Inductive value : Type :=
| VNum (n : number)
| VBool (b : bool)
| VStr (s : string)
| VTime (t : Z)
| VNaT
| VTimedelta (d : Z)
| VPair (a b : number).

Abbreviation VNaN := (VNum NNaN).

(** [pandas.isna] on a scalar: the float [nan] and [NaT] are missing; a
    tuple never is, whatever it contains. *)
Definition isna (v : value) : bool :=
  match v with
  | VNum NNaN | VNaT => true
  | _ => false
  end.

Definition notna (v : value) : bool := negb (isna v).

(** [isinstance(v, datetime)]: [pandas.Timestamp] subclasses
    [datetime.datetime], and so does the type of [pandas.NaT]. *)
Definition isinstance_datetime (v : value) : bool :=
  match v with
  | VTime _ | VNaT => true
  | _ => false
  end.

Definition number_to_Q (n : number) : option Q :=
  match n with
  | NInt z => Some (inject_Z z)
  | NFloat q => Some q
  | NNaN => None
  end.

(** Equality of hashable objects as keys: numbers compare by value across
    [int], [float] and [bool] ([True == 1]); [nan] is found as a key by
    identity. *)
Definition number_eqb (a b : number) : bool :=
  match number_to_Q a, number_to_Q b with
  | Some x, Some y => Qeq_bool x y
  | None, None => true
  | _, _ => false
  end.

Definition bool_number (b : bool) : number := NInt (if b then 1 else 0)%Z.

Definition key_eqb (a b : value) : bool :=
  match a, b with
  | VNum x, VNum y => number_eqb x y
  | VNum x, VBool c => number_eqb x (bool_number c)
  | VBool c, VNum y => number_eqb (bool_number c) y
  | VBool c, VBool d => Bool.eqb c d
  | VStr s, VStr t => String.eqb s t
  | VTime s, VTime t => Z.eqb s t
  | VNaT, VNaT => true
  | VTimedelta s, VTimedelta t => Z.eqb s t
  | VPair a1 b1, VPair a2 b2 => number_eqb a1 a2 && number_eqb b1 b2
  | _, _ => false
  end.

(** ** Series and frames *)

Record Series : Type := mkSeries {
  s_dtype : dtype;
  s_values : list value
}.

Inductive frame_kind : Type := PandasFrame | DaskFrame.

(** A frame: its columns in order, each under its name. *)
Record DataFrame : Type := mkFrame {
  kind : frame_kind;
  columns : list (string * Series)
}.

Definition is_dask (df : DataFrame) : bool :=
  match kind df with DaskFrame => true | PandasFrame => false end.

Fixpoint assoc {A : Type} (k : string) (l : list (string * A)) : option A :=
  match l with
  | [] => None
  | (k', a) :: l' => if String.eqb k k' then Some a else assoc k l'
  end.

(** [d[k] = a]: the binding is replaced in place, or appended. *)
Fixpoint assoc_set {A : Type} (k : string) (a : A) (l : list (string * A))
  : list (string * A) :=
  match l with
  | [] => [(k, a)]
  | (k', a') :: l' =>
      if String.eqb k k' then (k', a) :: l' else (k', a') :: assoc_set k a l'
  end.

Definition has_key {A : Type} (k : string) (l : list (string * A)) : bool :=
  match assoc k l with Some _ => true | None => false end.

(** [df[column_id]] *)
Definition get_column (df : DataFrame) (c : string) : result Series :=
  match assoc c (columns df) with
  | Some s => Ok s
  | None => Err (KeyError c)
  end.

(** [df[column_id] = s] *)
Definition set_column (df : DataFrame) (c : string) (s : Series) : DataFrame :=
  mkFrame (kind df) (assoc_set c s (columns df)).

(** [col.dropna()] *)
Definition dropna (s : Series) : Series :=
  mkSeries (s_dtype s) (filter notna (s_values s)).

(** [col.dropna().shape[0]] *)
Definition count_nonnull (s : Series) : nat :=
  List.length (filter notna (s_values s)).

(** [col.hasnans] *)
Definition hasnans (s : Series) : bool := existsb isna (s_values s).

(** The values a storage representation can hold. *)
Definition fits (d : dtype) (v : value) : bool :=
  match d, v with
  | DObject, _ | DCategory, _ => true
  | DBool, VBool _ => true
  | DInt8, VNum (NInt _) | DInt64, VNum (NInt _) => true
  | DFloat64, VNum (NFloat _) | DFloat64, VNum NNaN => true
  | DDatetime64, VTime _ | DDatetime64, VNaT => true
  | DTimedelta64, VTimedelta _ | DTimedelta64, VNaT => true
  | DString, VStr _ | DString, VNum NNaN => true
  | _, _ => false
  end.

Definition well_typed (s : Series) : bool :=
  forallb (fits (s_dtype s)) (s_values s).

(** A non-empty string of decimal digits. *)
Definition is_digit (a : ascii) : bool :=
  (48 <=? nat_of_ascii a)%nat && (nat_of_ascii a <=? 57)%nat.

Fixpoint all_digits (s : string) : bool :=
  match s with
  | EmptyString => true
  | String a s' => is_digit a && all_digits s'
  end.

Definition digit_string (s : string) : bool :=
  negb (String.eqb s "") && all_digits s.

(** [len(col)] *)
Definition s_len (s : Series) : nat := List.length (s_values s).

(** The row labels of the default index of [n] rows: 0, 1, ..., n-1. *)
Fixpoint range_from (start : Z) (n : nat) : list value :=
  match n with
  | O => []
  | S n' => VNum (NInt start) :: range_from (start + 1) n'
  end.

Definition default_index (n : nat) : list value := range_from 0 n.

(** [len(df)] *)
Definition n_rows (df : DataFrame) : nat :=
  match columns df with
  | [] => O
  | (_, s) :: _ => s_len s
  end.

(** [df.reset_index()] on a frame under the default index: the row labels
    become the first column, named [index], or [level_0] when the frame has
    a column [index] already; a name that is taken is refused. *)
Definition reset_index (df : DataFrame) : result DataFrame :=
  let name := if has_key "index" (columns df) then "level_0" else "index" in
  if has_key name (columns df)
  then Err (ValueError "cannot insert level_0, already exists")
  else Ok (mkFrame (kind df)
             ((name, mkSeries DInt64 (default_index (n_rows df)))
              :: columns df)).

(** ** The pandas routines the module calls

    What pandas does on strings and with its random generator is taken as
    given: the numeric and the timestamp parser of a string, the parser of
    [astype(float)], the rows drawn by [Series.sample], whether the [.str]
    accessor accepts a column, and [Series.mode]. *)

(** What [to_datetime] reads in a string it accepts: a timestamp, or the
    missing timestamp (as for [''], ['NaT'] and ['nan']). *)
Inductive parsed_time : Type :=
| Timestamp (t : Z)
| NotATime.

Class Pandas : Type := {
  (* the number a string parses to under [to_numeric], if any *)
  parse_numeric : string -> option number;
  (* the number a string parses to under [astype(float)], if any *)
  parse_float : string -> option number;
  (* what a string parses to under [to_datetime(format=...)], if accepted *)
  parse_datetime : option value -> string -> option parsed_time;
  (* [Series.sample(n)]: the rows drawn, for [n] within the length *)
  sample_rows : list value -> nat -> list value;
  (* whether [Series.str] accepts the values (else AttributeError) *)
  str_accessor : list value -> bool;
  (* [Series.mode()] *)
  mode : list value -> list value
}.

(** The storage names of [featuretools.variable_types.PandasTypes] that the
    driver reads; the class is not part of the source and is a parameter
    here. *)
Class PandasTypes : Type := {
  _pandas_numerics : list string;
  _categorical : string;
  _pandas_datetimes : list string
}.

Section EntityUtils.

Context {pd : Pandas} {pandas_types : PandasTypes}.

(** *** [pd.to_numeric] *)

(** One object cell read as a number; [None] where pandas cannot. *)
Definition numeric_of (v : value) : option value :=
  match v with
  | VNum n => Some (VNum n)
  | VBool b => Some (VBool b)
  | VStr s => option_map VNum (parse_numeric s)
  | VTime _ | VNaT | VTimedelta _ | VPair _ _ => None
  end.

(** Whether an integer fits a signed 64-bit cell. *)
Definition fits_int64 (z : Z) : bool :=
  (- 2 ^ 63 <=? z)%Z && (z <? 2 ^ 63)%Z.

(** A cell that makes the array one of floats: a float, or an integer that
    a signed 64-bit cell cannot hold (the unsigned 64-bit storage is not
    told apart from the floats). *)
Definition is_floating (v : value) : bool :=
  match v with
  | VNum (NFloat _) | VNum NNaN => true
  | VNum (NInt z) => negb (fits_int64 z)
  | _ => false
  end.

Definition is_integer (v : value) : bool :=
  match v with VNum (NInt _) => true | _ => false end.

(** The dtype of the array the converted cells are stored in. *)
Definition numeric_result_dtype (vs : list value) : dtype :=
  if existsb is_floating vs then DFloat64
  else if existsb is_integer vs then DInt64
  else match vs with [] => DInt64 | _ :: _ => DBool end.

(** Storing a converted cell in an array of dtype [d]. *)
Definition widen (d : dtype) (v : value) : value :=
  match d, v with
  | DFloat64, VNum (NInt z) => VNum (NFloat (inject_Z z))
  | DFloat64, VBool b => VNum (NFloat (if b then 1 else 0))
  | DInt64, VBool b => VNum (bool_number b)
  | _, _ => v
  end.

Definition store_numeric (vs : list value) : Series :=
  let d := numeric_result_dtype vs in mkSeries d (map (widen d) vs).

(** A datetime or timedelta column viewed as 64-bit integers. *)
Definition int_view (v : value) : value :=
  match v with
  | VTime t => VNum (NInt t)
  | VTimedelta t => VNum (NInt t)
  | VNaT => VNum (NInt (- 2 ^ 63))
  | _ => v
  end.

Fixpoint map_result {A B : Type} (f : A -> result B) (l : list A)
  : result (list B) :=
  match l with
  | [] => Ok []
  | a :: l' => b <- f a ;; bs <- map_result f l' ;; Ok (b :: bs)
  end.

Definition numeric_of_raise (v : value) : result value :=
  match numeric_of v, v with
  | Some n, _ => Ok n
  | None, VStr _ => Err (ValueError "Unable to parse string")
  | None, _ => Err (TypeError "Invalid object type")
  end.

(** [pd.to_numeric(col, errors='raise')] *)
Definition to_numeric_raise (s : Series) : result Series :=
  if is_numeric_dtype (s_dtype s) then Ok s
  else if is_datetime_or_timedelta_dtype (s_dtype s)
  then Ok (mkSeries DInt64 (map int_view (s_values s)))
  else vs <- map_result numeric_of_raise (s_values s) ;;
       Ok (store_numeric vs).

Definition or_nan (o : option value) : value :=
  match o with Some v => v | None => VNaN end.

(** [pd.to_numeric(col, errors='coerce')] (and [dd.to_numeric]) *)
Definition to_numeric_coerce (s : Series) : Series :=
  if is_numeric_dtype (s_dtype s) then s
  else if is_datetime_or_timedelta_dtype (s_dtype s)
  then mkSeries DInt64 (map int_view (s_values s))
  else store_numeric (map (fun v => or_nan (numeric_of v)) (s_values s)).

(** *** [pd.to_datetime] *)

Definition floor_Q (q : Q) : Z := (Qnum q / Zpos (Qden q))%Z.

(** A float cast to an integer: the fraction is dropped, toward zero. *)
Definition trunc_Q (q : Q) : Z := Z.quot (Qnum q) (Zpos (Qden q)).

(** One cell read as a timestamp ([errors='raise']); a number counts
    nanoseconds since the epoch. *)
Definition datetime_of (format : option value) (v : value) : result value :=
  match v with
  | VTime t => Ok (VTime t)
  | VNaT | VNum NNaN => Ok VNaT
  | VNum (NInt z) => Ok (VTime z)
  | VNum (NFloat q) => Ok (VTime (trunc_Q q))
  | VStr s => match parse_datetime format s with
              | Some (Timestamp t) => Ok (VTime t)
              | Some NotATime => Ok VNaT
              | None => Err (ValueError "Unknown string format")
              end
  | VBool _ | VTimedelta _ | VPair _ _ =>
      Err (TypeError "not convertible to datetime")
  end.

(** [pd.to_datetime(col, format=format)] *)
Definition to_datetime (format : option value) (s : Series) : result Series :=
  vs <- map_result (datetime_of format) (s_values s) ;;
  Ok (mkSeries DDatetime64 vs).

(** ** The datetime detector *)

Definition col_is_datetime (col : Series) : bool :=
  if str_contains "datetime" (dtype_name (s_dtype col))
     || (negb (s_len col =? 0)%nat
         && match s_values col with
            | v :: _ => isinstance_datetime v
            | [] => false
            end)
  then true
  else
    (* if it can be casted to numeric, it's not a datetime *)
    let dropped_na := dropna col in
    match to_numeric_raise dropped_na with
    | Ok _ => false
    | Err _ =>
        (* finally, try to cast to datetime *)
        if str_contains "str" (dtype_name (s_dtype col))
           || str_contains "object" (dtype_name (s_dtype col))
        then match to_datetime None dropped_na with
             | Err _ => false
             | Ok _ => true
             end
        else false
    end.

(** ** Type assignment maps *)

(** Keyword arguments: [kwargs.get(k, default)]. *)
Definition kwargs : Type := list (string * value).

Definition kwargs_get (kw : kwargs) (k : string) : option value := assoc k kw.

(** An entry of [variable_types]: a type, or a tuple of a type and its
    keyword arguments. *)
Inductive type_entry : Type :=
| Bare (t : vtype)
| WithArgs (t : vtype) (args : kwargs).

(** [desired_type[0]] of a tuple, the entry itself otherwise. *)
Definition entry_type (e : type_entry) : vtype :=
  match e with
  | Bare t => t
  | WithArgs t _ => t
  end.

(** [desired_type[1]] of a tuple, no argument otherwise. *)
Definition entry_args (e : type_entry) : kwargs :=
  match e with
  | Bare _ => []
  | WithArgs _ args => args
  end.

(** ** Sampling and distinct values *)

(** [col.sample(n)]: pandas refuses a sample larger than the column. *)
Definition series_sample (col : Series) (n : nat) : result Series :=
  if (n <=? s_len col)%nat
  then Ok (mkSeries (s_dtype col) (sample_rows (s_values col) n))
  else Err (ValueError "Cannot take a larger sample than population")
.

Definition seen (v : value) (acc : list value) : bool :=
  existsb (key_eqb v) acc.

(** [col.unique()]: the distinct values, missing ones included, in order of
    first appearance. *)
Fixpoint unique_from (acc : list value) (vs : list value) : list value :=
  match vs with
  | [] => []
  | v :: vs' =>
      if seen v acc then unique_from acc vs'
      else v :: unique_from (v :: acc) vs'
  end.

Definition unique (col : Series) : list value := unique_from [] (s_values col).

(** [col.nunique(dropna=False)] *)
Definition nunique_keepna (col : Series) : nat := List.length (unique col).

(** [col.nunique()] *)
Definition nunique (col : Series) : nat := List.length (unique (dropna col)).

(** [col.str.len()]: the length of a string or of a tuple; [None] (nan)
    for other objects. *)
Definition str_len (v : value) : option Q :=
  match v with
  | VStr s => Some (inject_Z (Z.of_nat (String.length s)))
  | VPair _ _ => Some 2
  | _ => None
  end.

Fixpoint somes {A : Type} (l : list (option A)) : list A :=
  match l with
  | [] => []
  | Some a :: l' => a :: somes l'
  | None :: l' => somes l'
  end.

Definition Qsum (l : list Q) : Q := fold_right Qplus 0 l.

(** The mean of the non-missing entries; [None] (nan) when there is none. *)
Definition mean (l : list (option Q)) : option Q :=
  match somes l with
  | [] => None
  | x :: xs => Some (Qsum (x :: xs) / inject_Z (Z.of_nat (List.length (x :: xs))))
  end.

Definition Qlt_bool (x y : Q) : bool := negb (Qle_bool y x).

(** [x > bound] where [x] may be nan: a comparison with nan is false. *)
Definition gt_bound (x : option Q) (bound : Q) : bool :=
  match x with
  | Some q => Qlt_bool bound q
  | None => false
  end.

(** ** Type inference *)

Definition name_in (variable : string) (names : list string) : bool :=
  existsb (String.eqb variable) names.

(** [vids_to_assume_datetime]: the time index (which may be [None]) and the
    first key of the secondary time index. *)
Definition vids_to_assume_datetime (time_index : option string)
    (secondary_time_index : list (string * list string)) : list (option string) :=
  [time_index] ++
  match map fst secondary_time_index with
  | [] => []
  | k :: _ => [Some k]
  end.

Definition vid_in (variable : string) (vids : list (option string)) : bool :=
  existsb (fun o => match o with
                    | Some v => String.eqb variable v
                    | None => false
                    end) vids.

(** The body of the loop for a column that has no explicit type, on a
    pandas frame: the chain of rules.  [inferred_type] is the variable of
    that name as the previous iteration left it. *)
Definition infer_rules (link_vars : list string) (vids : list (option string))
    (inferred_type : vtype) (variable : string) (col : Series) : result vtype :=
  if vid_in variable vids then
    if col_is_datetime col then Ok Datetime else Ok Numeric
  else if name_in variable link_vars then Ok Categorical
  else if String.eqb (dtype_name (s_dtype col)) "object" then
    if (s_len col =? 0)%nat then Ok Categorical
    else if col_is_datetime col then Ok Datetime
    else
      (* heuristics to predict this some other than categorical *)
      sample <- series_sample col (Nat.min 10000 (s_len col)) ;;
      (* catch cases where object dtype cannot be interpreted as a string *)
      if str_accessor (s_values sample) then
        let avg_length := mean (map str_len (s_values sample)) in
        if gt_bound avg_length 50 then Ok Text else Ok Categorical
      else Ok Categorical
  else if String.eqb (dtype_name (s_dtype col)) "bool" then Ok Boolean
  else if is_categorical_dtype (s_dtype col) then Ok Categorical
  else if is_numeric_dtype (s_dtype col) then Ok Numeric
  else if col_is_datetime col then Ok Datetime
  else if negb (s_len col =? 0)%nat then
    sample <- series_sample col (Nat.min 10000 (nunique_keepna col)) ;;
    let unique := unique sample in
    if (List.length unique =? 0)%nat then Err ZeroDivisionError
    else
      let percent_unique :=
        inject_Z (Z.of_nat (s_len sample)) / inject_Z (Z.of_nat (List.length unique)) in
      if Qlt_bool percent_unique (5 # 100) then Ok Categorical else Ok Numeric
  else Ok inferred_type.

(** The loop over [df.columns], threading the dictionary [inferred_types]
    and the variable [inferred_type], which is assigned once before the
    loop and then only by the rules. *)
Fixpoint infer_loop (dask : bool) (link_vars : list string)
    (variable_types : list (string * type_entry)) (vids : list (option string))
    (cols : list (string * Series))
    (inferred_types : list (string * vtype)) (inferred_type : vtype)
  : result (list (string * vtype)) :=
  match cols with
  | [] => Ok inferred_types
  | (variable, col) :: rest =>
      if has_key variable variable_types then
        infer_loop dask link_vars variable_types vids rest
                   inferred_types inferred_type
      else if dask then
        Err (ValueError "Variable types cannot be inferred from Dask DataFrames, use variable_types to provide type metadata for entity")
      else
        t <- infer_rules link_vars vids inferred_type variable col ;;
        infer_loop dask link_vars variable_types vids rest
                   (assoc_set variable t inferred_types) t
  end.

Definition infer_variable_types (df : DataFrame) (link_vars : list string)
    (variable_types : list (string * type_entry)) (time_index : option string)
    (secondary_time_index : list (string * list string))
  : result (list (string * vtype)) :=
  let inferred_types := [] in
  let vids := vids_to_assume_datetime time_index secondary_time_index in
  let inferred_type := Unknown in
  infer_loop (is_dask df) link_vars variable_types vids (columns df)
             inferred_types inferred_type.

(** ** The type converter *)

(** [bool(v)]: what [astype(bool)] stores for a cell.  A missing value is
    truthy: a boolean array cannot hold a missing value. *)
Definition truthy (v : value) : bool :=
  match v with
  | VNum (NInt z) => negb (z =? 0)%Z
  | VNum (NFloat q) => negb (Qeq_bool q 0)
  | VNum NNaN => true
  | VBool b => b
  | VStr s => negb (String.eqb s "")
  | VTime _ | VNaT => true
  | VTimedelta d => negb (d =? 0)%Z
  | VPair _ _ => true
  end.

(** [col.astype(bool)] *)
Definition astype_bool (s : Series) : Series :=
  mkSeries DBool (map (fun v => VBool (truthy v)) (s_values s)).

(** A dictionary with boolean entries: [d[k] = b] keeps the first key that
    equals [k] and replaces its entry. *)
Fixpoint dict_set (k : value) (b : bool) (d : list (value * bool))
  : list (value * bool) :=
  match d with
  | [] => [(k, b)]
  | (k', b') :: d' =>
      if key_eqb k' k then (k', b) :: d' else (k', b') :: dict_set k b d'
  end.

Fixpoint dict_get (d : list (value * bool)) (k : value) : option bool :=
  match d with
  | [] => None
  | (k', b) :: d' => if key_eqb k' k then Some b else dict_get d' k
  end.

(** The dictionary literal of the Boolean branch, its four items in order. *)
Definition map_dict (kw : kwargs) : list (value * bool) :=
  let true_val := match kwargs_get kw "true_val" with
                  | Some v => v | None => VBool true end in
  let false_val := match kwargs_get kw "false_val" with
                   | Some v => v | None => VBool false end in
  dict_set (VBool false) false
    (dict_set (VBool true) true
       (dict_set false_val false
          (dict_set true_val true []))).

Definition is_number (v : value) : bool :=
  match v with VNum _ => true | _ => false end.

Definition is_boolean (v : value) : bool :=
  match v with VBool _ => true | _ => false end.

(** [col.map(d)] looks the cells up in the index made of the keys of [d]
    ([Index.get_indexer]).  pandas does not compare an index whose labels
    are all booleans with cells that are all numbers, nor an index whose
    labels are all numbers with cells that are all booleans: no cell is
    found then, although [True == 1] as dictionary keys.  So the column
    [1, 0, 2] finds nothing among the keys [True, False], and a column of
    booleans nothing among the keys [1, 0]; among keys of several kinds, as
    ['Y', 'N', True, False], a cell is found where it equals a key. *)
Definition comparable (keys cells : list value) : bool :=
  negb ((forallb is_boolean keys && forallb is_number cells)
        || (forallb is_number keys && forallb is_boolean cells)).

(** The entry found for the cell [v] of a column holding [cells]. *)
Definition index_lookup (d : list (value * bool)) (cells : list value)
    (v : value) : option bool :=
  if comparable (map fst d) cells then dict_get d v else None.

(** One cell under [col.map(d)]: a value that is not found becomes nan. *)
Definition map_cell (d : list (value * bool)) (cells : list value)
    (v : value) : value :=
  match index_lookup d cells v with
  | Some b => VBool b
  | None => VNaN
  end.

(** [col.map(d)] *)
Definition series_map (d : list (value * bool)) (s : Series) : Series :=
  let vs := map (map_cell d (s_values s)) (s_values s) in
  mkSeries (if existsb isna vs then DObject else DBool) vs.

Definition convert_variable_data (df : DataFrame) (column_id : string)
    (new_type : vtype) (kw : kwargs) : result DataFrame :=
  empty <- (if is_dask df then Ok false
            else col <- get_column df column_id ;; Ok (s_len col =? 0)%nat) ;;
  if (empty : bool) then Ok df
  else if vtype_eqb new_type Numeric then
    col <- get_column df column_id ;;
    if is_dask df then
      Ok (set_column df column_id (to_numeric_coerce col))
    else
      let orig_nonnull := count_nonnull col in
      let converted := to_numeric_coerce col in
      (* This will convert strings to nans *)
      let nonnull := count_nonnull converted in
      if (nonnull =? 0)%nat && negb (orig_nonnull =? 0)%nat
      then Err (TypeError "Attempted to convert all string column to numeric")
      else Ok (set_column df column_id converted)
  else if issubclass new_type Datetime then
    let format := kwargs_get kw "format" in
    col <- get_column df column_id ;;
    converted <- to_datetime format col ;;
    Ok (set_column df column_id converted)
  else if vtype_eqb new_type Boolean then
    col <- get_column df column_id ;;
    Ok (set_column df column_id (astype_bool (series_map (map_dict kw) col)))
  else if negb (issubclass new_type Discrete) then
    Err (PyException "Cannot convert column")
  else Ok df.

(** ** The conversion driver *)

(** Whether a row label is one of 0, ..., n-1, the labels of a fresh
    Series of [n] rows. *)
Definition in_fresh_index (n : nat) (label : value) : bool :=
  match label with
  | VNum x =>
      match number_to_Q x with
      | Some q => Qeq_bool q (inject_Z (floor_Q q))
                  && (0 <=? floor_Q q)%Z && (floor_Q q <? Z.of_nat n)%Z
      | None => false
      end
  | _ => false
  end.

(** [values.where(values.notnull(), other)] with [other] a fresh Series of
    [n] pairs [(nan, nan)]: [other] is aligned with the row labels of
    [values], so a missing cell takes the pair where its label is a label
    of [other], and nan where it is not. *)
Fixpoint where_notnull (n : nat) (index cells : list value) : list value :=
  match cells with
  | [] => []
  | v :: cells' =>
      (if notna v then v
       else match index with
            | label :: _ =>
                if in_fresh_index n label then VPair NNaN NNaN else VNaN
            | [] => VNaN
            end)
      :: where_notnull n (tl index) cells'
  end.

(** [replace_latlong_nan] on the Series with the row labels [index] and
    the cells [values]. *)
Definition replace_latlong_nan (index : list value) (values : Series) : Series :=
  mkSeries (if hasnans values then DObject else s_dtype values)
           (where_notnull (s_len values) index (s_values values)).

(** What the driver does besides changing the frame: the calls of the
    converter and the warnings. *)
Inductive event : Type :=
| Converted (column_id : string) (new_type : vtype)
| Warned (column_id : string).

Definition driver_state : Type := (DataFrame * list event)%type.

Definition call_converter (st : driver_state) (var_id : string)
    (desired_type : vtype) (type_args : kwargs) : result driver_state :=
  df <- convert_variable_data (fst st) var_id desired_type type_args ;;
  Ok (df, snd st ++ [Converted var_id desired_type]).

(** The body of the loop for one item of [variable_types]. *)
Definition convert_item (st : driver_state) (item : string * type_entry)
  : result driver_state :=
  let var_id := fst item in
  (* grab args before assigning type *)
  let type_args := entry_args (snd item) in
  let desired_type := entry_type (snd item) in
  if negb (has_key var_id (columns (fst st))) then
    Err (LookupError "Variable ID not in DataFrame")
  else
    col <- get_column (fst st) var_id ;;
    let current_type := dtype_name (s_dtype col) in
    st <- (if issubclass desired_type Numeric
              && negb (name_in current_type _pandas_numerics)
           then call_converter st var_id desired_type type_args
           else Ok st) ;;
    st <- (if issubclass desired_type Discrete
              && negb (name_in current_type [_categorical])
           then call_converter st var_id desired_type type_args
           else Ok st) ;;
    st <- (if issubclass desired_type Datetime
              && negb (name_in current_type _pandas_datetimes)
           then call_converter st var_id desired_type type_args
           else Ok st) ;;
    (* Fill in any single `NaN` values in LatLong variables with a tuple *)
    if issubclass desired_type LatLong then
      col <- get_column (fst st) var_id ;;
      if negb (is_dask (fst st)) && hasnans col then
        Ok (set_column (fst st) var_id
                       (replace_latlong_nan (default_index (s_len col)) col),
            snd st ++ [Warned var_id])
      else Ok st
    else Ok st.

Fixpoint convert_items (st : driver_state) (items : list (string * type_entry))
  : result driver_state :=
  match items with
  | [] => Ok st
  | item :: rest => st' <- convert_item st item ;; convert_items st' rest
  end.

Definition convert_all_variable_data (df : DataFrame)
    (variable_types : list (string * type_entry)) : result driver_state :=
  convert_items (df, []) variable_types.

(** ** The statistics engine *)

(** A statistic: a number, the square root of a rational (a standard
    deviation), a cell value, or a string. *)
Inductive stat : Type :=
| SNumber (n : number)
| SRoot (radicand : Q)
| SValue (v : value)
| SString (s : string).

Definition float_or_nan (o : option Q) : number :=
  match o with Some q => NFloat (Qred q) | None => NNaN end.

(** One cell under [astype(float)]. *)
Definition float_of (v : value) : result value :=
  match v with
  | VNum (NInt z) => Ok (VNum (NFloat (inject_Z z)))
  | VNum n => Ok (VNum n)
  | VBool b => Ok (VNum (NFloat (if b then 1 else 0)))
  | VStr s => match parse_float s with
              | Some n => Ok (VNum (float_or_nan (number_to_Q n)))
              | None => Err (ValueError "could not convert string to float")
              end
  | VTime _ | VNaT | VTimedelta _ | VPair _ _ =>
      Err (TypeError "float() argument must be a string or a number")
  end.

(** [column.astype(float)] *)
Definition astype_float (s : Series) : result Series :=
  vs <- map_result float_of (s_values s) ;; Ok (mkSeries DFloat64 vs).

(** [column.astype("category")] *)
Definition astype_category (s : Series) : Series :=
  mkSeries DCategory (s_values s).

(** The non-missing numbers of a column. *)
Definition numbers_of (s : Series) : list Q :=
  somes (map (fun v => match v with
                       | VNum n => number_to_Q n
                       | _ => None
                       end) (s_values s)).

Definition Qmax (x y : Q) : Q := if Qle_bool x y then y else x.
Definition Qmin (x y : Q) : Q := if Qle_bool x y then x else y.

Definition reduce (f : Q -> Q -> Q) (l : list Q) : option Q :=
  match l with
  | [] => None
  | x :: xs => Some (fold_left f xs x)
  end.

(** The sample variance (one degree of freedom removed). *)
Definition variance (l : list Q) : option Q :=
  match l with
  | [] | [_] => None
  | _ =>
      let n := inject_Z (Z.of_nat (List.length l)) in
      let m := Qsum l / n in
      Some (Qsum (map (fun x => (x - m) * (x - m)) l) / (n - 1))
  end.

Fixpoint insert_sorted (x : Q) (l : list Q) : list Q :=
  match l with
  | [] => [x]
  | y :: l' => if Qle_bool x y then x :: y :: l' else y :: insert_sorted x l'
  end.

Definition sort (l : list Q) : list Q := fold_right insert_sorted [] l.

(** [column.quantile(p)], by linear interpolation between the two order
    statistics around position [(n - 1) * p]; nan on no data. *)
Definition quantile (col : Series) (p : Q) : number :=
  match sort (numbers_of col) with
  | [] => NNaN
  | x0 :: xs =>
      let sorted := x0 :: xs in
      let pos := inject_Z (Z.of_nat (List.length sorted - 1)) * p in
      let lo := Z.to_nat (floor_Q pos) in
      let frac := pos - inject_Z (floor_Q pos) in
      let a := nth lo sorted x0 in
      let b := nth (S lo) sorted a in
      NFloat (Qred (a + (b - a) * frac))
  end.

(** [column.agg(name)] on a float column. *)
Definition numeric_agg (name : string) (col : Series) : stat :=
  let xs := numbers_of col in
  if String.eqb name "max" then SNumber (float_or_nan (reduce Qmax xs))
  else if String.eqb name "min" then SNumber (float_or_nan (reduce Qmin xs))
  else if String.eqb name "mean" then SNumber (float_or_nan (mean (map Some xs)))
  else match variance xs with
       | Some v => SRoot (Qred v)
       | None => SNumber NNaN
       end.

(** The non-missing timestamps of a column. *)
Definition times_of (s : Series) : list Z :=
  somes (map (fun v => match v with VTime t => Some t | _ => None end)
             (s_values s)).

Definition time_or_nat (o : option Z) : stat :=
  match o with Some t => SValue (VTime t) | None => SValue VNaT end.

Definition reduceZ (f : Z -> Z -> Z) (l : list Z) : option Z :=
  match l with
  | [] => None
  | x :: xs => Some (fold_left f xs x)
  end.

(** [column.agg(name)] on a timestamp column; the mean of the nanosecond
    counts is cut to an integer toward zero. *)
Definition datetime_agg (name : string) (col : Series) : stat :=
  let ts := times_of col in
  if String.eqb name "max" then time_or_nat (reduceZ Z.max ts)
  else if String.eqb name "min" then time_or_nat (reduceZ Z.min ts)
  else match ts with
       | [] => SValue VNaT
       | _ => SValue (VTime (Z.quot (fold_right Z.add 0%Z ts)
                                    (Z.of_nat (List.length ts))))
       end.

Definition count_of (s : Series) : stat :=
  SNumber (NInt (Z.of_nat (count_nonnull s))).

(** [column.agg(name)] for the common statistics. *)
Definition common_agg (name : string) (col : Series) : stat :=
  if String.eqb name "count" then count_of col
  else SNumber (NInt (Z.of_nat (nunique col))).

(** [column.agg(names).to_dict()] *)
Definition agg (f : string -> Series -> stat) (names : list string)
    (col : Series) : list (string * stat) :=
  map (fun name => (name, f name col)) names.

(** [values.update(d)] *)
Definition update (values d : list (string * stat)) : list (string * stat) :=
  fold_left (fun acc kv => assoc_set (fst kv) (snd kv) acc) d values.

(** [column.value_counts().get(b, 0)] on a boolean column. *)
Definition value_count (b : bool) (col : Series) : stat :=
  SNumber (NInt (Z.of_nat (List.length
    (filter (fun v => match v with VBool c => Bool.eqb b c | _ => false end)
            (s_values col))))).

(** [l.remove(x)]: the first occurrence is taken out; ValueError if there
    is none. *)
Fixpoint list_remove (x : string) (l : list string) : result (list string) :=
  match l with
  | [] => Err (ValueError "list.remove(x): x not in list")
  | y :: l' =>
      if String.eqb x y then Ok l'
      else l'' <- list_remove x l' ;; Ok (y :: l'')
  end.

(** [isinstance(v_type, cls)] where [v_type] is a class, as every entry of
    the converted [variable_types] is: a class object is an instance of
    [type], and of no variable class. *)
Definition isinstance_of_class (v_type cls : vtype) : bool := false.

Definition DATETIME_STATISTICS : list string := ["max"; "min"; "mean"].
Definition NUMERIC_STATISTICS : list string := ["max"; "min"; "mean"; "std"].

(** The body of the loop for one column.  [COMMON_STATISTICS] is the list
    object of that name in its current state: [applicable] is an alias of
    it, so a removal changes it for the columns that follow, while
    [applicable] itself receives the [None] that [remove] returns. *)
Definition column_statistics (data : DataFrame)
    (COMMON_STATISTICS : list string) (column_name : string) (v_type : vtype)
  : result (list (string * stat) * list string) :=
  let values := [] in
  reset <- reset_index data ;;
  column <- get_column reset column_name ;;
  cv <- (if vtype_eqb v_type Boolean then
           let column := astype_bool column in
           let values := assoc_set "num_false" (value_count false column) values in
           let values := assoc_set "num_true" (value_count true column) values in
           Ok (column, values)
         else if vtype_eqb v_type Numeric then
           column <- astype_float column ;;
           let values := update values (agg numeric_agg NUMERIC_STATISTICS column) in
           let quant_values := map (quantile column) [1 # 4; 1 # 2; 3 # 4] in
           let values := assoc_set "first_quartile"
                           (SNumber (nth 0 quant_values NNaN)) values in
           let values := assoc_set "second_quartile"
                           (SNumber (nth 2 quant_values NNaN)) values in
           let values := assoc_set "third_quartile"
                           (SNumber (nth 2 quant_values NNaN)) values in
           Ok (column, values)
         else if vtype_eqb v_type Discrete || issubclass v_type Discrete then
           Ok (astype_category column, values)
         else if vtype_eqb v_type Datetime then
           column <- to_datetime None column ;;
           Ok (column, update values (agg datetime_agg DATETIME_STATISTICS column))
         else Ok (column, values)) ;;
  let column := fst cv in
  let values := snd cv in
  ac <- (if isinstance_of_class v_type LatLong then
           removed <- list_remove "nunique" COMMON_STATISTICS ;;
           Ok (None, removed)
         else Ok (Some COMMON_STATISTICS, COMMON_STATISTICS)) ;;
  let applicable := fst ac in
  let COMMON_STATISTICS := snd ac in
  common <- match applicable with
            | Some names => Ok (agg common_agg names column)
            | None => Err (TypeError "Must provide 'func'")
            end ;;
  let values := update values common in
  let values := assoc_set "nan_count"
                  (SNumber (NInt (Z.of_nat (List.length (filter isna (s_values column))))))
                  values in
  let mode_values := mode (s_values column) in
  let values := match mode_values with
                | m :: _ => assoc_set "mode" (SValue m) values
                | [] => values
                end in
  let values := assoc_set "variable_type" (SString (type_string v_type)) values in
  Ok (values, COMMON_STATISTICS).

Fixpoint statistics_loop (data : DataFrame) (COMMON_STATISTICS : list string)
    (variable_types : list (string * vtype))
    (statistics : list (string * list (string * stat)))
  : result (list (string * list (string * stat))) :=
  match variable_types with
  | [] => Ok statistics
  | (column_name, v_type) :: rest =>
      r <- column_statistics data COMMON_STATISTICS column_name v_type ;;
      statistics_loop data (snd r) rest
                      (assoc_set column_name (fst r) statistics)
  end.

(** [data.compute()]: a partitioned frame realised in memory. *)
Definition compute (df : DataFrame) : DataFrame :=
  mkFrame PandasFrame (columns df).

(** What [generate_statistics] may be given. *)
Inductive stats_input : Type :=
| AnEntitySet
| AnEntity (df : DataFrame)
| AFrame (df : DataFrame).

(** [generate_statistics] with [return_dataframe=False]; [variable_types]
    is the map as [convert_vtypes] returns it, every entry a class, and
    [reset_index] only renumbers the rows of a frame under the default
    index. *)
Definition generate_statistics (data : stats_input)
    (variable_types : list (string * vtype))
  : result (list (string * list (string * stat))) :=
  match data with
  | AnEntitySet =>
      Err (TypeError "Invalid data type. Please specify the specific entity.")
  | AnEntity df | AFrame df =>
      let data := match data with
                  | AFrame df => if is_dask df then compute df else df
                  | _ => df
                  end in
      let COMMON_STATISTICS := ["count"; "nunique"] in
      statistics_loop data COMMON_STATISTICS variable_types []
  end.

End EntityUtils.

(** ** Linked variables *)

(** What [get_linked_vars] reads of a variable: [v.id] and [v.entity.id]. *)
Record variable_ref : Type := mkVariable {
  v_id : string;
  v_entity_id : string
}.

(** What it reads of a relationship: [r.parent_entity.id],
    [r.child_entity.id], [r.parent_variable] and [r.child_variable]. *)
Record Relationship : Type := mkRelationship {
  parent_entity_id : string;
  child_entity_id : string;
  parent_variable : variable_ref;
  child_variable : variable_ref
}.

(** What it reads of an entity: [entity.id] and
    [entity.entityset.relationships]. *)
Record Entity : Type := mkEntity {
  e_id : string;
  entityset_relationships : list Relationship
}.

Definition get_linked_vars (entity : Entity) : list string :=
  let link_relationships :=
    filter (fun r => String.eqb (parent_entity_id r) (e_id entity)
                     || String.eqb (child_entity_id r) (e_id entity))
           (entityset_relationships entity) in
  let link_vars :=
    flat_map (fun rel =>
                map v_id
                    (filter (fun v => String.eqb (v_entity_id v) (e_id entity))
                            [parent_variable rel; child_variable rel]))
             link_relationships in
  link_vars.

(** ** A small instance of the pandas routines, for the examples *)

Module Toy.

Fixpoint digits_value (acc : Z) (s : string) : Z :=
  match s with
  | EmptyString => acc
  | String a s' => digits_value (10 * acc + Z.of_nat (nat_of_ascii a - 48)) s'
  end.

(** Decimal integers only. *)
Definition parse_digits (s : string) : option number :=
  if digit_string s then Some (NInt (digits_value 0 s)) else None.

Definition dash (a : ascii) : bool := Ascii.eqb a "-"%char.

(** The strings read as the missing timestamp. *)
Definition names_no_time (s : string) : bool :=
  String.eqb s "" || String.eqb s "NaT" || String.eqb s "nan".

(** Dates written [YYYY-MM-DD] only, read as the number [YYYYMMDD]. *)
Definition parse_iso_date (format : option value) (s : string)
  : option parsed_time :=
  if names_no_time s then Some NotATime else
  match s with
  | String y1 (String y2 (String y3 (String y4 (String d1
      (String m1 (String m2 (String d2 (String a1 (String a2 EmptyString))))))))) =>
      let digits := String y1 (String y2 (String y3 (String y4
                      (String m1 (String m2 (String a1 (String a2 EmptyString))))))) in
      if dash d1 && dash d2 && all_digits digits
      then Some (Timestamp (digits_value 0 digits)) else None
  | _ => None
  end.

(** The first [n] rows. *)
Definition first_rows (l : list value) (n : nat) : list value := firstn n l.

Definition is_str (v : value) : bool :=
  match v with VStr _ => true | _ => false end.

Definition accepts_str (l : list value) : bool :=
  existsb is_str l || forallb isna l.

Definition occurrences (v : value) (l : list value) : nat :=
  List.length (filter (key_eqb v) l).

(** The most frequent non-missing value, the earliest on a tie. *)
Definition most_frequent (l : list value) : list value :=
  match filter notna l with
  | [] => []
  | x :: xs =>
      [fold_left (fun best v =>
                    if (occurrences best (x :: xs) <? occurrences v (x :: xs))%nat
                    then v else best) xs x]
  end.

Definition pandas : Pandas :=
  {| parse_numeric := parse_digits;
     parse_float := parse_digits;
     parse_datetime := parse_iso_date;
     sample_rows := first_rows;
     str_accessor := accepts_str;
     mode := most_frequent |}.

(** The storage names as featuretools lists them. *)
Definition pandas_types : PandasTypes :=
  {| _pandas_numerics := ["int16"; "int32"; "int64"; "float16"; "float32"; "float64"];
     _categorical := "category";
     _pandas_datetimes := ["datetime64[ns]"; "datetime64[ns, tz]"] |}.

(** Example data. *)

Definition flags : Series :=
  mkSeries DObject [VStr "Y"; VStr "N"; VStr "maybe"].

Definition flags_frame : DataFrame := mkFrame PandasFrame [("flag", flags)].

Definition flags_labels : kwargs :=
  [("true_val", VStr "Y"); ("false_val", VStr "N")].

Definition words : Series := mkSeries DObject [VStr "abc"; VStr "de"].

Definition words_frame : DataFrame := mkFrame PandasFrame [("x", words)].

Definition mixed : Series := mkSeries DObject [VStr "abc"; VStr "12"].

Definition mixed_frame : DataFrame := mkFrame PandasFrame [("x", mixed)].

Definition quarters : Series :=
  mkSeries DFloat64 [VNum (NFloat 1); VNum (NFloat 2);
                     VNum (NFloat 3); VNum (NFloat 4)].

Definition quarters_frame : DataFrame := mkFrame PandasFrame [("x", quarters)].

Definition zip_codes : Series := mkSeries DObject [VStr "90210"; VStr "10001"].

Definition zip_codes_after_nat : Series :=
  mkSeries DObject [VNaT; VStr "90210"].

Definition lazy_frame : DataFrame :=
  mkFrame DaskFrame [("id", mkSeries DInt64 [VNum (NInt 1)]);
                     ("name", mkSeries DObject [VStr "a"])].

Definition labels : Series := mkSeries DString [VStr "abc"; VStr "abd"].

Definition typed_frame : DataFrame :=
  mkFrame PandasFrame
    [("n", mkSeries DObject [VStr "1"; VStr "2"; VStr "x"]);
     ("c", mkSeries DObject [VStr "a"; VStr "b"; VStr "a"]);
     ("ok", mkSeries DBool [VBool true; VBool false; VBool true]);
     ("f", mkSeries DFloat64 [VNum (NFloat 1); VNaN; VNum (NFloat 3)])].

Definition typed_assignment : list (string * type_entry) :=
  [("n", Bare Numeric); ("c", Bare Categorical); ("ok", Bare Boolean);
   ("f", Bare Numeric)].

(** [typed_frame] after the driver has run with [typed_assignment]. *)
Definition typed_frame_converted : DataFrame :=
  mkFrame PandasFrame
    [("n", mkSeries DFloat64 [VNum (NFloat 1); VNum (NFloat 2); VNaN]);
     ("c", mkSeries DObject [VStr "a"; VStr "b"; VStr "a"]);
     ("ok", mkSeries DBool [VBool true; VBool false; VBool true]);
     ("f", mkSeries DFloat64 [VNum (NFloat 1); VNaN; VNum (NFloat 3)])].

(** A frame of events, with its time index [when] and the linked column
    [user_id]. *)
Definition dates : Series :=
  mkSeries DObject [VStr "2020-01-02"; VNaN; VStr "2020-01-03"].

Definition events_frame : DataFrame :=
  mkFrame PandasFrame
    [("when", dates);
     ("user_id", mkSeries DInt64 [VNum (NInt 1); VNum (NInt 2); VNum (NInt 1)]);
     ("zip", mkSeries DObject [VStr "90210"; VStr "10001"; VStr "90210"]);
     ("flag", mkSeries DBool [VBool true; VBool false; VBool true]);
     ("amount", mkSeries DFloat64 [VNum (NFloat 1); VNaN; VNum (NFloat 3)])].

(** What inference returns for [events_frame] when [amount] has an explicit
    type. *)
Definition events_types : list (string * vtype) :=
  [("when", Datetime); ("user_id", Categorical); ("zip", Categorical);
   ("flag", Boolean)].


Definition no_rows : Series := mkSeries DObject [].

Definition no_rows_frame : DataFrame := mkFrame PandasFrame [("x", no_rows)].

Definition lazy_words_frame : DataFrame := mkFrame DaskFrame [("x", words)].

Definition places : Series :=
  mkSeries DObject [VPair (NInt 1) (NInt 2); VNaN].

Definition places_frame : DataFrame := mkFrame PandasFrame [("loc", places)].



(** An entity [users] linked to [events] and to an unrelated pair. *)
Definition users : Entity :=
  mkEntity "users"
    [mkRelationship "users" "events"
       (mkVariable "user_id" "users") (mkVariable "user" "events");
     mkRelationship "shops" "events"
       (mkVariable "shop_id" "shops") (mkVariable "shop" "events")].

Definition users_frame : DataFrame :=
  mkFrame PandasFrame
    [("user_id", mkSeries DInt64 [VNum (NInt 1); VNum (NInt 2)]);
     ("name", mkSeries DObject [VStr "ann"; VStr "bob"])].

End Toy.

(** ** Predicates used in the statements *)

Section Predicates.

Context {pd : Pandas} {pandas_types : PandasTypes}.

(** The column gets past every rule of [infer_rules] that precedes the
    sampling rule, and is not empty. *)
Definition reaches_sampling_rule (link_vars : list string)
    (vids : list (option string)) (variable : string) (col : Series) : bool :=
  negb (vid_in variable vids)
  && negb (name_in variable link_vars)
  && negb (String.eqb (dtype_name (s_dtype col)) "object")
  && negb (String.eqb (dtype_name (s_dtype col)) "bool")
  && negb (is_categorical_dtype (s_dtype col))
  && negb (is_numeric_dtype (s_dtype col))
  && negb (col_is_datetime col)
  && negb (s_len col =? 0)%nat.

(** The column gets past every rule of [infer_rules] and is empty. *)
Definition matches_no_rule (link_vars : list string)
    (vids : list (option string)) (variable : string) (col : Series) : bool :=
  negb (vid_in variable vids)
  && negb (name_in variable link_vars)
  && negb (String.eqb (dtype_name (s_dtype col)) "object")
  && negb (String.eqb (dtype_name (s_dtype col)) "bool")
  && negb (is_categorical_dtype (s_dtype col))
  && negb (is_numeric_dtype (s_dtype col))
  && negb (col_is_datetime col)
  && (s_len col =? 0)%nat.

(** [Series.sample(n)] returns [n] rows when the column has that many. *)
Definition sampler_sized : Prop :=
  forall (l : list value) (n : nat),
    (n <= List.length l)%nat -> List.length (sample_rows l n) = n.

(** Every cell is a string of decimal digits. *)
Definition digit_strings (col : Series) : Prop :=
  Forall (fun v => exists s, v = VStr s /\ digit_string s = true) (s_values col).

(** The numeric parser accepts every string of decimal digits. *)
Definition parser_reads_digits : Prop :=
  forall s, digit_string s = true -> parse_numeric s <> None.

(** Every cell is a string that the numeric parser rejects. *)
Definition non_numeric_strings (col : Series) : Prop :=
  Forall (fun v => exists s, v = VStr s /\ parse_numeric s = None) (s_values col).

(** The cell [v] of a column stored as [d] is a number after
    [to_numeric_coerce], not a missing value. *)
Definition coercible (d : dtype) (v : value) : bool :=
  if is_numeric_dtype d then notna v
  else if is_datetime_or_timedelta_dtype d then notna (int_view v)
  else notna (or_nan (numeric_of v)).

(** The lookup as the specification words it: the native booleans, and the
    labels given as [false_val] and [true_val] (the native literals when not
    given); the later items of the dictionary literal win.  These are the
    entries of the dictionary; [index_lookup] finds them for the cells of a
    column that pandas compares with the keys. *)
Definition boolean_lookup (kw : kwargs) (v : value) : option bool :=
  let true_val := match kwargs_get kw "true_val" with
                  | Some t => t | None => VBool true end in
  let false_val := match kwargs_get kw "false_val" with
                   | Some f => f | None => VBool false end in
  if key_eqb (VBool false) v then Some false
  else if key_eqb (VBool true) v then Some true
  else if key_eqb false_val v then Some false
  else if key_eqb true_val v then Some true
  else None.

(** The statement that a value outside the lookup ends as a missing value
    in the converted column. *)
Definition unmapped_end_missing (df : DataFrame) (column_id : string)
    (kw : kwargs) : Prop :=
  forall df' col col' i v r,
    convert_variable_data df column_id Boolean kw = Ok df' ->
    get_column df column_id = Ok col ->
    get_column df' column_id = Ok col' ->
    nth_error (s_values col) i = Some v ->
    index_lookup (map_dict kw) (s_values col) v = None ->
    nth_error (s_values col') i = Some r ->
    isna r = true.

(** The frame [generate_statistics] works on. *)
Definition frame_of (data : stats_input) : option DataFrame :=
  match data with
  | AnEntitySet => None
  | AnEntity df => Some df
  | AFrame df => Some (if is_dask df then compute df else df)
  end.

(** The statement on the quartiles of the numeric column [column_name]: the
    first is the 0.25 quantile, the second the 0.5 quantile, and the third
    is read from the same quantile as the second, the median. *)
Definition quartiles_from_median (data : stats_input)
    (variable_types : list (string * vtype)) (column_name : string) : Prop :=
  forall statistics values df column floats,
    generate_statistics data variable_types = Ok statistics ->
    assoc column_name statistics = Some values ->
    frame_of data = Some df ->
    reset <- reset_index df ;; get_column reset column_name = Ok column ->
    astype_float column = Ok floats ->
    assoc "first_quartile" values = Some (SNumber (quantile floats (1 # 4)))
    /\ assoc "second_quartile" values = Some (SNumber (quantile floats (1 # 2)))
    /\ assoc "third_quartile" values = Some (SNumber (quantile floats (1 # 2))).


(** The column an event is about. *)
Definition event_column (e : event) : string :=
  match e with
  | Converted column_id _ => column_id
  | Warned column_id => column_id
  end.

(** The step from [st] to [st'] leaves every column but [c] as it was and
    adds only events about [c]. *)
Definition touches_only (c : string) (st st' : driver_state) : Prop :=
  is_dask (fst st') = is_dask (fst st)
  /\ map fst (columns (fst st')) = map fst (columns (fst st))
  /\ (forall c', c' <> c -> get_column (fst st') c' = get_column (fst st) c')
  /\ exists evs, snd st' = snd st ++ evs
                 /\ Forall (fun e => event_column e = c) evs.

(** The three conditionals and the LatLong step of [convert_item], by the
    class of the desired type. *)
Definition item_body (st : driver_state) (var_id : string)
    (desired_type : vtype) (type_args : kwargs) (current_type : string)
  : result driver_state :=
  match desired_type with
  | Numeric =>
      if negb (name_in current_type _pandas_numerics)
      then call_converter st var_id desired_type type_args else Ok st
  | Discrete | Categorical | Text =>
      if negb (name_in current_type [_categorical])
      then call_converter st var_id desired_type type_args else Ok st
  | Datetime =>
      if negb (name_in current_type _pandas_datetimes)
      then call_converter st var_id desired_type type_args else Ok st
  | LatLong =>
      col <- get_column (fst st) var_id ;;
      if negb (is_dask (fst st)) && hasnans col then
        Ok (set_column (fst st) var_id
                       (replace_latlong_nan (default_index (s_len col)) col),
            snd st ++ [Warned var_id])
      else Ok st
  | Boolean | Unknown => Ok st
  end.


(** The types inference can produce: every class but [LatLong] and the
    bare [Discrete]. *)
Definition inferable (t : vtype) : bool :=
  match t with
  | LatLong | Discrete => false
  | _ => true
  end.

(** The columns of [df] that have no explicit type, in order. *)
Definition untyped_columns (df : DataFrame)
    (variable_types : list (string * type_entry)) : list string :=
  filter (fun c => negb (has_key c variable_types)) (map fst (columns df)).

(** The type a storage representation stands for by itself. *)
Definition storage_type (d : dtype) : option vtype :=
  match d with
  | DBool => Some Boolean
  | DCategory => Some Categorical
  | DInt8 | DInt64 | DFloat64 => Some Numeric
  | DDatetime64 => Some Datetime
  | DObject | DTimedelta64 | DString => None
  end.

(** Every non-missing cell is a string that the timestamp parser reads
    without a format. *)
Definition date_strings (col : Series) : Prop :=
  Forall (fun v => isna v = true
                   \/ exists s, v = VStr s /\ parse_datetime None s <> None)
         (s_values col).

(** Some cell is a string that the numeric parser rejects. *)
Definition has_non_numeric_string (col : Series) : Prop :=
  Exists (fun v => exists s, v = VStr s /\ parse_numeric s = None)
         (s_values col).

(** A cell that holds a number or a boolean. *)
Definition numeric_cell (v : value) : bool :=
  match v with
  | VNum _ | VBool _ => true
  | _ => false
  end.


(** The events about column [c], in order. *)
Definition about (c : string) (evs : list event) : list event :=
  filter (fun ev => String.eqb (event_column ev) c) evs.

(** The column that the statistics of type [t] are computed on, from the
    column [col] of the frame. *)
Definition prepared (t : vtype) (col column : Series) : Prop :=
  match t with
  | Boolean => column = astype_bool col
  | Numeric => astype_float col = Ok column
  | Discrete | Categorical | Text => column = astype_category col
  | Datetime => to_datetime None col = Ok column
  | Unknown | LatLong => column = col
  end.

(** Each relationship names as its parent and child entity the entities of
    its parent and child variable. *)
Definition consistent_relationships (entity : Entity) : Prop :=
  Forall (fun r => v_entity_id (parent_variable r) = parent_entity_id r
                   /\ v_entity_id (child_variable r) = child_entity_id r)
         (entityset_relationships entity).

(** The variables that the relationships of the entity set mention, parent
    before child. *)
Definition related_variables (entity : Entity) : list variable_ref :=
  flat_map (fun r => [parent_variable r; child_variable r])
           (entityset_relationships entity).


End Predicates.

(** ** Properties *)

Unset Implicit Arguments.

Section Properties.

Context {pd : Pandas} {pandas_types : PandasTypes}.

Lemma assoc_set_same {A : Type} (k : string) (a : A) (l : list (string * A)) :
  assoc k (assoc_set k a l) = Some a.
Proof.
  induction l as [|[k' a'] l IH]; simpl.
  - now rewrite String.eqb_refl.
  - destruct (String.eqb k k') eqn:E; simpl; rewrite E; auto.
Qed.

Lemma assoc_set_other {A : Type} (k k' : string) (a : A) (l : list (string * A)) :
  k <> k' -> assoc k (assoc_set k' a l) = assoc k l.
Proof.
  intros Hne. induction l as [|[k0 a0] l IH]; simpl.
  - destruct (String.eqb k k') eqn:E; auto.
    apply String.eqb_eq in E. contradiction.
  - destruct (String.eqb k' k0) eqn:E; simpl.
    + apply String.eqb_eq in E. subst k0.
      destruct (String.eqb k k') eqn:E'; auto.
      apply String.eqb_eq in E'. contradiction.
    + now rewrite IH.
Qed.

Lemma assoc_set_keys {A : Type} (k : string) (a : A) (l : list (string * A)) :
  has_key k l = true -> map fst (assoc_set k a l) = map fst l.
Proof.
  unfold has_key. induction l as [|[k' a'] l IH]; simpl; [discriminate|].
  destruct (String.eqb k k') eqn:E; simpl; auto.
  intros H. now rewrite IH.
Qed.

Lemma has_key_In {A : Type} (k : string) (l : list (string * A)) :
  has_key k l = true <-> In k (map fst l).
Proof.
  unfold has_key. induction l as [|[k' a'] l IH]; simpl.
  - split; [discriminate | tauto].
  - destruct (String.eqb k k') eqn:E.
    + apply String.eqb_eq in E. subst. tauto.
    + rewrite IH. split; [tauto|]. intros [->|H]; auto.
      rewrite String.eqb_refl in E. discriminate.
Qed.

(** *** Inference on partitioned frames *)

Lemma infer_loop_dask link_vars variable_types vids cols acc t :
  (Exists (fun c => has_key c variable_types = false) (map fst cols) ->
   exists msg,
     infer_loop true link_vars variable_types vids cols acc t
     = Err (ValueError msg))
  /\ (Forall (fun c => has_key c variable_types = true) (map fst cols) ->
      infer_loop true link_vars variable_types vids cols acc t = Ok acc).
Proof.
  induction cols as [|[variable col] rest IH]; simpl.
  - split; [intros H; inversion H | reflexivity].
  - destruct IH as [IHe IHf].
    destruct (has_key variable variable_types) eqn:E.
    + split.
      * intros H. inversion H as [? ? H1|? ? H1]; subst; [congruence|auto].
      * intros H. inversion H; subst. auto.
    + split.
      * intros _. eexists. reflexivity.
      * intros H. inversion H; subst. congruence.
Qed.

Lemma infer_loop_dask_names link_vars variable_types vids cols cols' acc t :
  map fst cols = map fst cols' ->
  infer_loop true link_vars variable_types vids cols acc t
  = infer_loop true link_vars variable_types vids cols' acc t.
Proof.
  revert cols'.
  induction cols as [|[variable col] rest IH]; intros [|[variable' col'] rest'];
    simpl; try discriminate; auto.
  intros H. injection H as -> Hrest.
  destruct (has_key variable' variable_types); auto.
Qed.

(** C8: on a partitioned (Dask) frame, [infer_variable_types] raises the
    ValueError as soon as some column has no explicit type, and returns the
    empty assignment when every column has one; neither outcome looks at what
    the columns hold, since two partitioned frames with the same column names
    give the same result. *)
Theorem infer_dask_unsupported (df : DataFrame) (link_vars : list string)
    (variable_types : list (string * type_entry)) (time_index : option string)
    (secondary_time_index : list (string * list string)) :
  is_dask df = true ->
  ((exists c, In c (map fst (columns df)) /\ has_key c variable_types = false) ->
   exists msg,
     infer_variable_types df link_vars variable_types time_index
                          secondary_time_index = Err (ValueError msg))
  /\ ((forall c, In c (map fst (columns df)) -> has_key c variable_types = true) ->
      infer_variable_types df link_vars variable_types time_index
                           secondary_time_index = Ok [])
  /\ (forall df', is_dask df' = true ->
        map fst (columns df') = map fst (columns df) ->
        infer_variable_types df' link_vars variable_types time_index
                             secondary_time_index
        = infer_variable_types df link_vars variable_types time_index
                               secondary_time_index).
Proof.
  intros Hdask. unfold infer_variable_types. rewrite Hdask.
  split; [|split].
  - intros Hex. apply infer_loop_dask. apply Exists_exists. exact Hex.
  - intros Hall. apply infer_loop_dask. apply Forall_forall. exact Hall.
  - intros df' Hdask' Hnames. rewrite Hdask'.
    apply infer_loop_dask_names. exact Hnames.
Qed.

(** C5: on the frame of two empty columns [a] (64-bit integers) and [b]
    (timedeltas), column [b] matches no rule and yet is assigned [Numeric],
    the type of the column before it: [inferred_type] keeps its value from
    one iteration to the next.  Alone in a frame, the same column is
    assigned [Unknown]. *)
Theorem infer_unmatched_column_inherits :
  let a := mkSeries DInt64 [] in
  let b := mkSeries DTimedelta64 [] in
  matches_no_rule [] (vids_to_assume_datetime None []) "b" b = true
  /\ infer_variable_types (mkFrame PandasFrame [("a", a); ("b", b)])
                          [] [] None []
     = Ok [("a", Numeric); ("b", Numeric)]
  /\ infer_variable_types (mkFrame PandasFrame [("b", b)]) [] [] None []
     = Ok [("b", Unknown)].
Proof.
  repeat split; reflexivity.
Qed.

Lemma infer_rules_unmatched link_vars vids inferred_type variable col :
  matches_no_rule link_vars vids variable col = true ->
  infer_rules link_vars vids inferred_type variable col = Ok inferred_type.
Proof.
  unfold matches_no_rule, infer_rules. intros H.
  repeat (apply andb_prop in H; destruct H as [H ?]).
  repeat match goal with
         | Hn : negb ?b = true |- _ => apply negb_true_iff in Hn; rewrite Hn
         end.
  match goal with Hl : (_ =? 0)%nat = true |- _ => rewrite Hl end.
  reflexivity.
Qed.

(** *** The sampling rule *)

Lemma unique_from_length acc vs :
  (List.length (unique_from acc vs) <= List.length vs)%nat.
Proof.
  revert acc. induction vs as [|v vs IH]; intros acc; simpl; auto.
  destruct (seen v acc); simpl.
  - specialize (IH acc). lia.
  - specialize (IH (v :: acc)). lia.
Qed.

Lemma unique_nonempty (s : Series) :
  s_values s <> [] -> (0 < List.length (unique s))%nat.
Proof.
  unfold unique. destruct (s_values s) as [|v vs]; [congruence|].
  intros _. simpl. lia.
Qed.

Lemma unique_le_len (s : Series) : (List.length (unique s) <= s_len s)%nat.
Proof. apply unique_from_length. Qed.

Lemma ratio_at_least_one (size distinct : nat) :
  (0 < distinct)%nat -> (distinct <= size)%nat ->
  1 <= inject_Z (Z.of_nat size) / inject_Z (Z.of_nat distinct).
Proof.
  intros Hpos Hle.
  apply Qle_shift_div_l.
  - replace 0 with (inject_Z 0) by reflexivity. rewrite <- Zlt_Qlt. lia.
  - rewrite Qmult_1_l. rewrite <- Zle_Qle. lia.
Qed.

Lemma not_below_threshold (q : Q) : 1 <= q -> Qlt_bool q (5 # 100) = false.
Proof.
  intros H. unfold Qlt_bool. apply negb_false_iff. apply Qle_bool_iff.
  apply Qle_trans with 1; [|exact H]. unfold Qle; simpl. lia.
Qed.

(** C9: a non-empty column that reaches the sampling rule is sampled
    without error, the sample has at least one distinct value and at least
    as many rows as distinct values, so the ratio [sample.size / len(unique)]
    is at least 1 and the rule assigns [Numeric]: its [Categorical] outcome
    is never taken. *)
Theorem sampling_rule_assigns_numeric (link_vars : list string)
    (vids : list (option string)) (inferred_type : vtype) (variable : string)
    (col : Series) :
  sampler_sized ->
  reaches_sampling_rule link_vars vids variable col = true ->
  exists sample,
    series_sample col (Nat.min 10000 (nunique_keepna col)) = Ok sample
    /\ (0 < List.length (unique sample))%nat
    /\ 1 <= inject_Z (Z.of_nat (s_len sample))
            / inject_Z (Z.of_nat (List.length (unique sample)))
    /\ infer_rules link_vars vids inferred_type variable col = Ok Numeric.
Proof.
  intros Hsize H. unfold reaches_sampling_rule in H.
  repeat (apply andb_prop in H; destruct H as [H ?]).
  repeat match goal with
         | Hn : negb ?b = true |- _ => apply negb_true_iff in Hn
         end.
  assert (Hne : s_values col <> []).
  { match goal with Hl : (s_len col =? 0)%nat = false |- _ =>
      apply Nat.eqb_neq in Hl; unfold s_len in Hl end.
    intros E. rewrite E in *. simpl in *. congruence. }
  set (n := Nat.min 10000 (nunique_keepna col)).
  assert (Hn1 : (1 <= n)%nat).
  { apply Nat.min_glb; [apply Nat.leb_le; reflexivity|].
    apply (unique_nonempty col Hne). }
  assert (Hn2 : (n <= s_len col)%nat).
  { etransitivity; [apply Nat.le_min_r|apply unique_le_len]. }
  assert (Hs : series_sample col n
               = Ok (mkSeries (s_dtype col) (sample_rows (s_values col) n))).
  { unfold series_sample. apply Nat.leb_le in Hn2. now rewrite Hn2. }
  set (sample := mkSeries (s_dtype col) (sample_rows (s_values col) n)) in *.
  assert (Hlen : s_len sample = n) by (apply Hsize; exact Hn2).
  assert (Hsne : s_values sample <> []).
  { intros E. unfold s_len in Hlen. rewrite E in Hlen. simpl in Hlen. lia. }
  pose proof (unique_nonempty sample Hsne) as Hpos.
  pose proof (unique_le_len sample) as Hle.
  pose proof (ratio_at_least_one _ _ Hpos Hle) as Hratio.
  exists sample. repeat split; auto.
  unfold infer_rules.
  repeat match goal with Hb : _ = false |- _ => rewrite Hb; clear Hb end.
  simpl negb. cbv iota. fold n. rewrite Hs. simpl bind.
  destruct (List.length (unique sample) =? 0)%nat eqn:E.
  - apply Nat.eqb_eq in E. lia.
  - now rewrite (not_below_threshold _ Hratio).
Qed.

(** *** The datetime detector *)

Lemma digit_strings_notna (vs : list value) :
  Forall (fun v => exists s, v = VStr s /\ digit_string s = true) vs ->
  filter notna vs = vs.
Proof.
  induction 1 as [|v vs [s [-> _]] _ IH]; simpl; [reflexivity|].
  now rewrite IH.
Qed.

Lemma digit_strings_parse (vs : list value) :
  parser_reads_digits ->
  Forall (fun v => exists s, v = VStr s /\ digit_string s = true) vs ->
  exists ns, map_result numeric_of_raise vs = Ok ns.
Proof.
  intros Hp. induction 1 as [|v vs [s [-> Hs]] _ [ns IH]]; simpl.
  - eexists. reflexivity.
  - unfold numeric_of_raise at 1. simpl.
    specialize (Hp s Hs). destruct (parse_numeric s); [|congruence].
    simpl. rewrite IH. simpl. eexists. reflexivity.
Qed.

Lemma digit_strings_numeric (col : Series) :
  parser_reads_digits -> digit_strings col ->
  is_ok (to_numeric_raise (dropna col)) = true.
Proof.
  intros Hp Hd. unfold to_numeric_raise, dropna. simpl.
  destruct (is_numeric_dtype (s_dtype col)); [reflexivity|].
  destruct (is_datetime_or_timedelta_dtype (s_dtype col)); [reflexivity|].
  rewrite (digit_strings_notna _ Hd).
  destruct (digit_strings_parse _ Hp Hd) as [ns ->]. reflexivity.
Qed.

Lemma col_is_datetime_cases (col : Series) :
  col_is_datetime col = true <->
  (str_contains "datetime" (dtype_name (s_dtype col)) = true
   \/ (exists v, hd_error (s_values col) = Some v /\ isinstance_datetime v = true))
  \/ (is_ok (to_numeric_raise (dropna col)) = false
      /\ (str_contains "str" (dtype_name (s_dtype col))
          || str_contains "object" (dtype_name (s_dtype col))) = true
      /\ is_ok (to_datetime None (dropna col)) = true).
Proof.
  unfold col_is_datetime, s_len.
  destruct (str_contains "datetime" (dtype_name (s_dtype col))) eqn:Ed; simpl.
  { split; auto. }
  destruct (s_values col) as [|v vs] eqn:Ev; simpl.
  - destruct (to_numeric_raise (dropna col)) eqn:En; simpl.
    + split; [discriminate|].
      intros [[H|[v [H _]]]|[H _]]; discriminate.
    + destruct (str_contains "str" (dtype_name (s_dtype col))
                || str_contains "object" (dtype_name (s_dtype col))) eqn:Es.
      * destruct (to_datetime None (dropna col)) eqn:Et; simpl.
        -- split; auto.
        -- split; [discriminate|].
           intros [[H|[v [H _]]]|[_ [_ H]]]; discriminate.
      * split; [discriminate|].
        intros [[H|[v [H _]]]|[_ [H _]]]; discriminate.
  - destruct (isinstance_datetime v) eqn:Ei; simpl.
    { split; auto. intros _. left. right. exists v. auto. }
    destruct (to_numeric_raise (dropna col)) eqn:En; simpl.
    + split; [discriminate|].
      intros [[H|[v' [H H']]]|[H _]]; try discriminate.
      injection H as <-. congruence.
    + destruct (str_contains "str" (dtype_name (s_dtype col))
                || str_contains "object" (dtype_name (s_dtype col))) eqn:Es.
      * destruct (to_datetime None (dropna col)) eqn:Et; simpl.
        -- split; auto.
        -- split; [discriminate|].
           intros [[H|[v' [H H']]]|[_ [_ H]]]; try discriminate.
           injection H as <-. congruence.
      * split; [discriminate|].
        intros [[H|[v' [H H']]]|[_ [H _]]]; try discriminate.
        injection H as <-. congruence.
Qed.

(** C7 (amended): [col_is_datetime] returns false for every column whose
    storage name does not mention a timestamp, whose first value (if there
    is one) is not a native timestamp object, and whose non-missing values
    all parse strictly as numeric; so it does for every column of digit
    strings not stored as timestamps.  It returns true exactly when the
    storage or the first value is a timestamp, or when the strict numeric
    parse fails, the storage is string- or object-like and the timestamp
    parse succeeds. *)
Theorem numeric_column_is_not_datetime (col : Series) :
  (str_contains "datetime" (dtype_name (s_dtype col)) = false ->
   (forall v, hd_error (s_values col) = Some v -> isinstance_datetime v = false) ->
   is_ok (to_numeric_raise (dropna col)) = true ->
   col_is_datetime col = false)
  /\ (parser_reads_digits ->
      str_contains "datetime" (dtype_name (s_dtype col)) = false ->
      digit_strings col ->
      col_is_datetime col = false)
  /\ (col_is_datetime col = true <->
      (str_contains "datetime" (dtype_name (s_dtype col)) = true
       \/ (exists v, hd_error (s_values col) = Some v
                     /\ isinstance_datetime v = true))
      \/ (is_ok (to_numeric_raise (dropna col)) = false
          /\ (str_contains "str" (dtype_name (s_dtype col))
              || str_contains "object" (dtype_name (s_dtype col))) = true
          /\ is_ok (to_datetime None (dropna col)) = true)).
Proof.
  assert (Hfirst :
    str_contains "datetime" (dtype_name (s_dtype col)) = false ->
    (forall v, hd_error (s_values col) = Some v -> isinstance_datetime v = false) ->
    is_ok (to_numeric_raise (dropna col)) = true ->
    col_is_datetime col = false).
  { intros Hd Hhd Hnum.
    destruct (col_is_datetime col) eqn:E; [|reflexivity].
    apply col_is_datetime_cases in E.
    destruct E as [[E|[v [Hv Hi]]]|[E _]]; try congruence.
    rewrite (Hhd v Hv) in Hi. discriminate. }
  split; [exact Hfirst|split].
  - intros Hp Hd Hdigits. apply Hfirst; auto.
    + intros v Hv. unfold digit_strings in Hdigits.
      destruct (s_values col) as [|v0 vs]; [discriminate|].
      simpl in Hv. injection Hv as ->.
      inversion Hdigits as [|? ? [s [-> _]] _]. reflexivity.
    + apply digit_strings_numeric; assumption.
  - apply col_is_datetime_cases.
Qed.

(** *** Conversion to Numeric *)

Lemma widen_isna (d : dtype) (v : value) : isna (widen d v) = isna v.
Proof.
  destruct d, v as [[| |]| | | | | |]; try reflexivity; destruct b; reflexivity.
Qed.

Lemma filter_notna_widen (d : dtype) (vs : list value) :
  List.length (filter notna (map (widen d) vs)) = List.length (filter notna vs).
Proof.
  induction vs as [|v vs IH]; simpl; [reflexivity|].
  assert (E : notna (widen d v) = notna v)
    by (unfold notna; now rewrite widen_isna).
  rewrite E. destruct (notna v); simpl; auto.
Qed.

Lemma count_nonnull_store (vs : list value) :
  count_nonnull (store_numeric vs) = List.length (filter notna vs).
Proof. unfold count_nonnull, store_numeric. simpl. apply filter_notna_widen. Qed.

Lemma filter_none {A : Type} (f : A -> bool) (l : list A) :
  Forall (fun a => f a = false) l -> filter f l = [].
Proof.
  induction 1 as [|a l Ha _ IH]; simpl; [reflexivity|]. now rewrite Ha.
Qed.

Lemma filter_some {A : Type} (f : A -> bool) (l : list A) (a : A) :
  In a l -> f a = true -> List.length (filter f l) <> 0%nat.
Proof.
  intros Hin Ha E. apply length_zero_iff_nil in E.
  assert (Hf : In a (filter f l)) by (apply filter_In; auto).
  rewrite E in Hf. exact Hf.
Qed.

Lemma strings_storage (col : Series) :
  well_typed col = true -> s_values col <> [] ->
  Forall (fun v => exists s, v = VStr s) (s_values col) ->
  is_numeric_dtype (s_dtype col) = false
  /\ is_datetime_or_timedelta_dtype (s_dtype col) = false.
Proof.
  unfold well_typed. destruct (s_values col) as [|v vs]; [congruence|].
  intros Hwt _ Hs. inversion Hs as [|? ? [s ->] _]; subst.
  simpl in Hwt. apply andb_prop in Hwt. destruct Hwt as [Hfit _].
  destruct (s_dtype col); simpl in *; auto; discriminate.
Qed.

Lemma coerced_nonnull (col : Series) (v : value) :
  In v (s_values col) -> coercible (s_dtype col) v = true ->
  count_nonnull (to_numeric_coerce col) <> 0%nat.
Proof.
  unfold coercible, to_numeric_coerce. intros Hin Hc.
  destruct (is_numeric_dtype (s_dtype col)).
  - unfold count_nonnull. eapply filter_some; eauto.
  - destruct (is_datetime_or_timedelta_dtype (s_dtype col)).
    + unfold count_nonnull. simpl.
      eapply filter_some; [apply in_map; exact Hin|exact Hc].
    + rewrite count_nonnull_store.
      eapply filter_some; [|exact Hc].
      apply (in_map (fun v => or_nan (numeric_of v))). exact Hin.
Qed.

Lemma non_numeric_coerced (col : Series) :
  is_numeric_dtype (s_dtype col) = false ->
  is_datetime_or_timedelta_dtype (s_dtype col) = false ->
  non_numeric_strings col ->
  count_nonnull (to_numeric_coerce col) = 0%nat
  /\ count_nonnull col = s_len col.
Proof.
  unfold non_numeric_strings, to_numeric_coerce. intros -> -> Hs. split.
  - rewrite count_nonnull_store. rewrite filter_none; [reflexivity|].
    apply Forall_map. eapply Forall_impl; [|exact Hs].
    intros v [s [-> Hp]]. simpl. now rewrite Hp.
  - unfold count_nonnull, s_len. f_equal.
    induction Hs as [|v vs [s [-> _]] _ IH]; simpl; [reflexivity|].
    now rewrite IH.
Qed.

(** C2: on a non-empty column of a frame held in memory, conversion to
    [Numeric] raises if and only if the column had a non-missing value and
    has none after the numeric coercion; a column of strings that are all
    non-numeric raises the lossy-conversion TypeError, and a column with a
    value that coerces to a number is converted without error. *)
Theorem convert_numeric_raises_iff (df : DataFrame) (column_id : string)
    (kw : kwargs) (col : Series) :
  is_dask df = false ->
  get_column df column_id = Ok col ->
  s_values col <> [] ->
  ((exists e, convert_variable_data df column_id Numeric kw = Err e)
   <-> (count_nonnull col <> 0%nat
        /\ count_nonnull (to_numeric_coerce col) = 0%nat))
  /\ (well_typed col = true -> non_numeric_strings col ->
      convert_variable_data df column_id Numeric kw
      = Err (TypeError "Attempted to convert all string column to numeric"))
  /\ ((exists v, In v (s_values col) /\ coercible (s_dtype col) v = true) ->
      convert_variable_data df column_id Numeric kw
      = Ok (set_column df column_id (to_numeric_coerce col))).
Proof.
  intros Hdask Hcol Hne.
  assert (Hlen : (s_len col =? 0)%nat = false).
  { apply Nat.eqb_neq. unfold s_len. intros E.
    apply length_zero_iff_nil in E. contradiction. }
  assert (Hconv :
    convert_variable_data df column_id Numeric kw
    = if (count_nonnull (to_numeric_coerce col) =? 0)%nat
         && negb (count_nonnull col =? 0)%nat
      then Err (TypeError "Attempted to convert all string column to numeric")
      else Ok (set_column df column_id (to_numeric_coerce col))).
  { unfold convert_variable_data. rewrite Hdask, Hcol. simpl.
    rewrite Hlen. reflexivity. }
  rewrite Hconv. split; [|split].
  - split.
    + destruct (Nat.eqb_spec (count_nonnull (to_numeric_coerce col)) 0) as [E1|E1];
        destruct (Nat.eqb_spec (count_nonnull col) 0) as [E2|E2]; simpl;
        intros [e He]; try discriminate.
      split; assumption.
    + intros [H1 H2]. rewrite H2. apply Nat.eqb_neq in H1. rewrite H1.
      simpl. eexists. reflexivity.
  - intros Hwt Hs.
    assert (Hstr : Forall (fun v => exists s, v = VStr s) (s_values col)).
    { eapply Forall_impl; [|exact Hs]. intros v [s [-> _]]. eauto. }
    destruct (strings_storage col Hwt Hne Hstr) as [Hn Hd].
    destruct (non_numeric_coerced col Hn Hd Hs) as [-> ->].
    rewrite Hlen. reflexivity.
  - intros [v [Hin Hc]].
    pose proof (coerced_nonnull col v Hin Hc) as Hnz.
    apply Nat.eqb_neq in Hnz. rewrite Hnz. reflexivity.
Qed.

(** *** Conversion to Boolean *)

Lemma number_eqb_sym (a b : number) : number_eqb a b = number_eqb b a.
Proof.
  unfold number_eqb.
  destruct (number_to_Q a) as [x|], (number_to_Q b) as [y|]; auto.
  destruct (Qeq_bool x y) eqn:E, (Qeq_bool y x) eqn:E'; auto.
  - apply Qeq_bool_iff in E. symmetry in E. apply Qeq_bool_iff in E. congruence.
  - apply Qeq_bool_iff in E'. symmetry in E'. apply Qeq_bool_iff in E'. congruence.
Qed.

Lemma number_eqb_trans (a b c : number) :
  number_eqb a b = true -> number_eqb b c = true -> number_eqb a c = true.
Proof.
  unfold number_eqb.
  destruct (number_to_Q a) as [x|], (number_to_Q b) as [y|],
           (number_to_Q c) as [z|]; auto; try discriminate.
  intros H1 H2. apply Qeq_bool_iff in H1, H2. apply Qeq_bool_iff.
  now rewrite H1.
Qed.

Lemma bool_eqb_number (c d : bool) :
  Bool.eqb c d = number_eqb (bool_number c) (bool_number d).
Proof. destruct c, d; reflexivity. Qed.

Lemma key_eqb_sym (a b : value) : key_eqb a b = key_eqb b a.
Proof.
  destruct a as [x| c | s | t | | t | x1 x2], b as [y| d | s' | t' | | t' | y1 y2];
    simpl; auto using number_eqb_sym, String.eqb_sym, Z.eqb_sym.
  - destruct c, d; reflexivity.
  - now rewrite (number_eqb_sym x1 y1), (number_eqb_sym x2 y2).
Qed.

Lemma key_eqb_trans (a b c : value) :
  key_eqb a b = true -> key_eqb b c = true -> key_eqb a c = true.
Proof.
  destruct a, b, c; simpl; try discriminate;
    rewrite ?bool_eqb_number; eauto using number_eqb_trans.
  - intros H1 H2. apply String.eqb_eq in H1, H2. apply String.eqb_eq. congruence.
  - intros H1 H2. apply Z.eqb_eq in H1, H2. apply Z.eqb_eq. congruence.
  - intros H1 H2. apply Z.eqb_eq in H1, H2. apply Z.eqb_eq. congruence.
  - intros H1 H2. apply andb_prop in H1, H2. destruct H1, H2.
    apply andb_true_intro. split; eauto using number_eqb_trans.
Qed.

Lemma key_eqb_apart (a b c : value) :
  key_eqb a b = true -> key_eqb a c = false -> key_eqb b c = false.
Proof.
  intros H1 H2. destruct (key_eqb b c) eqn:E; [|reflexivity].
  rewrite (key_eqb_trans a b c H1 E) in H2. discriminate.
Qed.

Lemma dict_get_set (k : value) (b : bool) (d : list (value * bool)) (v : value) :
  dict_get (dict_set k b d) v
  = if key_eqb k v then Some b else dict_get d v.
Proof.
  induction d as [|[k' b'] d IH]; simpl; [reflexivity|].
  destruct (key_eqb k' k) eqn:E; simpl.
  - destruct (key_eqb k v) eqn:Ekv.
    + now rewrite (key_eqb_trans k' k v E Ekv).
    + rewrite key_eqb_sym in E. now rewrite (key_eqb_apart k k' v E Ekv).
  - rewrite IH. destruct (key_eqb k' v) eqn:Ek'v; [|reflexivity].
    destruct (key_eqb k v) eqn:Ekv; [|reflexivity].
    rewrite (key_eqb_sym k v) in Ekv.
    rewrite (key_eqb_trans k' v k Ek'v Ekv) in E. discriminate.
Qed.

Lemma map_dict_lookup (kw : kwargs) (v : value) :
  dict_get (map_dict kw) v = boolean_lookup kw v.
Proof.
  unfold map_dict, boolean_lookup. rewrite !dict_get_set. reflexivity.
Qed.

(** C1 (amended): conversion to [Boolean] maps every cell through the
    lookup built from [true_val] and [false_val] (the native literals by
    default) and the native booleans; the lookup finds these entries for
    the cells of a column that pandas compares with the keys, and nothing
    for a column of numbers when every key is a boolean or a column of
    booleans when every key is a number.  A cell whose value is found holds
    the boolean it is mapped to; a cell whose value is not found is missing
    after the mapping step, and the cast to boolean storage that follows
    stores it as true, so the converted column holds no missing value. *)
Theorem convert_boolean_cells (df : DataFrame) (column_id : string)
    (kw : kwargs) (col : Series) :
  get_column df column_id = Ok col ->
  is_dask df = true \/ s_values col <> [] ->
  let mapped := series_map (map_dict kw) col in
  let converted := astype_bool mapped in
  convert_variable_data df column_id Boolean kw
  = Ok (set_column df column_id converted)
  /\ (forall v, index_lookup (map_dict kw) (s_values col) v
                = if comparable (map fst (map_dict kw)) (s_values col)
                  then boolean_lookup kw v else None)
  /\ (forall i v, nth_error (s_values col) i = Some v ->
        match index_lookup (map_dict kw) (s_values col) v with
        | Some b =>
            nth_error (s_values mapped) i = Some (VBool b)
            /\ nth_error (s_values converted) i = Some (VBool b)
        | None =>
            nth_error (s_values mapped) i = Some VNaN
            /\ nth_error (s_values converted) i = Some (VBool true)
        end)
  /\ Forall (fun r => isna r = false) (s_values converted).
Proof.
  intros Hcol Hne mapped converted. split; [|split; [|split]].
  - unfold convert_variable_data. rewrite Hcol.
    destruct (is_dask df) eqn:Hd; simpl; [reflexivity|].
    destruct Hne as [Hne|Hne]; [discriminate|].
    unfold s_len. destruct (s_values col); [congruence|]. reflexivity.
  - intros v. unfold index_lookup. now rewrite map_dict_lookup.
  - intros i v Hv. subst converted mapped. unfold astype_bool, series_map.
    cbn [s_values].
    assert (Hm : nth_error (map (map_cell (map_dict kw) (s_values col))
                              (s_values col)) i
                 = Some (map_cell (map_dict kw) (s_values col) v))
      by (rewrite nth_error_map, Hv; reflexivity).
    unfold map_cell in Hm at 2.
    destruct (index_lookup (map_dict kw) (s_values col) v);
      (split; [exact Hm|]); rewrite nth_error_map, Hm; reflexivity.
  - subst converted. unfold astype_bool. cbn [s_values].
    apply Forall_map. apply Forall_forall. reflexivity.
Qed.

(** *** Statistics *)

Ltac through_assoc_set :=
  repeat (rewrite assoc_set_other by discriminate);
  try rewrite assoc_set_same.

Lemma column_statistics_common data common column_name v_type values common' :
  column_statistics data common column_name v_type = Ok (values, common') ->
  common' = common.
Proof.
  unfold column_statistics.
  destruct (reset_index data) as [reset|]; simpl; [|discriminate].
  destruct (get_column reset column_name) as [column|]; simpl; [|discriminate].
  match goal with
  | |- context [bind ?c _] => destruct c as [[column' values']|]
  end; simpl; [|discriminate].
  intros H. injection H as _ H. congruence.
Qed.

Lemma column_statistics_keys data column_name v_type values common' :
  column_statistics data ["count"; "nunique"] column_name v_type
  = Ok (values, common') ->
  has_key "count" values = true /\ has_key "nunique" values = true.
Proof.
  unfold column_statistics.
  destruct (reset_index data) as [reset|]; simpl; [|discriminate].
  destruct (get_column reset column_name) as [column|]; simpl; [|discriminate].
  match goal with
  | |- context [bind ?c _] => destruct c as [[column' values']|]
  end; simpl; [|discriminate].
  intros H. injection H as <- _. unfold has_key.
  destruct (mode (s_values column')); through_assoc_set;
    unfold update, agg; cbn [map fold_left fst snd]; through_assoc_set; auto.
Qed.

Lemma statistics_loop_frame data common variable_types acc statistics c :
  statistics_loop data common variable_types acc = Ok statistics ->
  ~ In c (map fst variable_types) ->
  assoc c statistics = assoc c acc.
Proof.
  revert common acc.
  induction variable_types as [|[column_name v_type] rest IH];
    intros common acc; simpl.
  - intros H _. injection H as <-. reflexivity.
  - destruct (column_statistics data common column_name v_type)
      as [[values common']|]; simpl; [|discriminate].
    intros H Hnot. rewrite (IH _ _ H) by tauto.
    apply assoc_set_other. intros ->. tauto.
Qed.

Lemma statistics_loop_entry data common variable_types acc statistics c t :
  NoDup (map fst variable_types) ->
  In (c, t) variable_types ->
  statistics_loop data common variable_types acc = Ok statistics ->
  exists values,
    column_statistics data common c t = Ok (values, common)
    /\ assoc c statistics = Some values.
Proof.
  revert acc.
  induction variable_types as [|[column_name v_type] rest IH];
    intros acc Hnd Hin; simpl; [contradiction|].
  simpl in Hnd. inversion Hnd as [|? ? Hnotin Hnd']; subst.
  destruct (column_statistics data common column_name v_type)
    as [[values common']|] eqn:E; simpl; [|discriminate].
  pose proof (column_statistics_common _ _ _ _ _ _ E) as ->.
  intros H. destruct Hin as [Heq|Hin].
  - injection Heq as -> ->. exists values. split; [exact E|].
    rewrite (statistics_loop_frame _ _ _ _ _ c H Hnotin).
    apply assoc_set_same.
  - eapply IH; eauto.
Qed.

Lemma generate_statistics_entry data variable_types statistics c t :
  NoDup (map fst variable_types) ->
  In (c, t) variable_types ->
  generate_statistics data variable_types = Ok statistics ->
  exists df values,
    frame_of data = Some df
    /\ column_statistics df ["count"; "nunique"] c t
       = Ok (values, ["count"; "nunique"])
    /\ assoc c statistics = Some values.
Proof.
  intros Hnd Hin. unfold generate_statistics.
  destruct data as [|df|df]; [discriminate| |]; intros H;
    destruct (statistics_loop_entry _ _ _ _ _ _ _ Hnd Hin H) as [values [H1 H2]];
    eexists; exists values; (split; [reflexivity|split; assumption]).
Qed.

(** C3: on a [LatLong] column of two coordinate pairs, the statistics hold
    the key [nunique] (and [count]): the test [isinstance(v_type, LatLong)]
    is made on a class, is false, and nothing is removed from the common
    statistics. *)
Theorem latlong_statistics_keep_nunique :
  let loc := mkSeries DObject [VPair (NInt 1) (NInt 2); VPair NNaN NNaN] in
  exists values,
    generate_statistics (AFrame (mkFrame PandasFrame [("loc", loc)]))
                        [("loc", LatLong)]
    = Ok [("loc", values)]
    /\ assoc "count" values = Some (SNumber (NInt 2))
    /\ assoc "nunique" values = Some (SNumber (NInt 2)).
Proof.
  intros loc. unfold generate_statistics, statistics_loop, column_statistics.
  cbn -[mode]. destruct (mode _); eexists; repeat split; reflexivity.
Qed.

(** C4 (amended): for a column typed [Numeric], [first_quartile] is the
    0.25 quantile of the column read as floats and [third_quartile] is its
    0.75 quantile.  The column is read from the frame after [reset_index]:
    it is a column of the data, or the row labels under the name
    [reset_index] gives them. *)
Theorem numeric_quartiles (data : stats_input)
    (variable_types : list (string * vtype))
    (statistics : list (string * list (string * stat)))
    (column_name : string) :
  NoDup (map fst variable_types) ->
  In (column_name, Numeric) variable_types ->
  generate_statistics data variable_types = Ok statistics ->
  exists df reset column floats values,
    frame_of data = Some df
    /\ reset_index df = Ok reset
    /\ get_column reset column_name = Ok column
    /\ astype_float column = Ok floats
    /\ assoc column_name statistics = Some values
    /\ assoc "first_quartile" values = Some (SNumber (quantile floats (1 # 4)))
    /\ assoc "third_quartile" values = Some (SNumber (quantile floats (3 # 4))).
Proof.
  intros Hnd Hin Hgen.
  destruct (generate_statistics_entry _ _ _ _ _ Hnd Hin Hgen)
    as [df [values [Hdf [Hcol Hst]]]].
  unfold column_statistics in Hcol.
  destruct (reset_index df) as [reset|] eqn:Ereset;
    simpl in Hcol; [|discriminate].
  destruct (get_column reset column_name) as [column|] eqn:Ecol;
    simpl in Hcol; [|discriminate].
  destruct (astype_float column) as [floats|] eqn:Efl;
    simpl in Hcol; [|discriminate].
  exists df, reset, column, floats, values.
  repeat (split; [assumption|]).
  injection Hcol as <-.
  destruct (mode (s_values floats)); through_assoc_set;
    unfold update, agg; cbn [map fold_left fst snd nth]; through_assoc_set;
    auto.
Qed.

(** *** The conversion driver: what a step touches *)


Lemma get_column_assoc df c col :
  get_column df c = Ok col <-> assoc c (columns df) = Some col.
Proof.
  unfold get_column. destruct (assoc c (columns df)); split; congruence.
Qed.

Lemma get_column_has_key df c col :
  get_column df c = Ok col -> has_key c (columns df) = true.
Proof.
  intros H. apply get_column_assoc in H. unfold has_key. now rewrite H.
Qed.

Lemma has_key_get_column df c :
  has_key c (columns df) = true -> exists col, get_column df c = Ok col.
Proof.
  unfold has_key, get_column. destruct (assoc c (columns df)); [eauto|discriminate].
Qed.


Lemma get_set_same df c s : get_column (set_column df c s) c = Ok s.
Proof. unfold get_column, set_column. simpl. now rewrite assoc_set_same. Qed.

Lemma get_set_other df c c' s :
  c' <> c -> get_column (set_column df c s) c' = get_column df c'.
Proof.
  intros H. unfold get_column, set_column. simpl.
  now rewrite (assoc_set_other _ _ _ _ H).
Qed.

Lemma set_column_keys df c s :
  has_key c (columns df) = true ->
  map fst (columns (set_column df c s)) = map fst (columns df).
Proof. intros H. unfold set_column. simpl. now apply assoc_set_keys. Qed.

Lemma touches_only_refl c st : touches_only c st st.
Proof.
  repeat split; auto. exists []. split; [now rewrite app_nil_r|constructor].
Qed.

Lemma touches_only_trans c st1 st2 st3 :
  touches_only c st1 st2 -> touches_only c st2 st3 -> touches_only c st1 st3.
Proof.
  intros (D1 & K1 & G1 & evs1 & E1 & F1) (D2 & K2 & G2 & evs2 & E2 & F2).
  repeat split; try congruence.
  - intros c' Hc. rewrite (G2 c' Hc). auto.
  - exists (evs1 ++ evs2). split.
    + rewrite E2, E1. now rewrite app_assoc.
    + apply Forall_app. auto.
Qed.

Lemma touches_only_set st c s ev :
  has_key c (columns (fst st)) = true -> event_column ev = c ->
  touches_only c st (set_column (fst st) c s, snd st ++ [ev]).
Proof.
  intros Hk Hev. repeat split; simpl.
  - now apply set_column_keys.
  - intros c' Hc. now apply get_set_other.
  - exists [ev]. split; [reflexivity|]. constructor; auto.
Qed.

Lemma convert_variable_data_frame df c t kw df' :
  convert_variable_data df c t kw = Ok df' ->
  df' = df \/ exists col s, get_column df c = Ok col /\ df' = set_column df c s.
Proof.
  unfold convert_variable_data.
  destruct (get_column df c) as [col|] eqn:Ecol.
  - assert (Hempty : exists b,
              (if is_dask df then Ok false else Ok (s_len col =? 0)%nat)
              = @Ok bool b) by (destruct (is_dask df); eauto).
    destruct Hempty as [b Hb].
    replace (if is_dask df then Ok false
             else col0 <- Ok col;; Ok (s_len col0 =? 0)%nat)
      with (@Ok bool b) by (rewrite <- Hb; destruct (is_dask df); reflexivity).
    simpl. destruct b; [intros H; injection H as <-; auto|].
    destruct (vtype_eqb t Numeric).
    { destruct (is_dask df).
      - intros H. injection H as <-. right. eauto.
      - destruct (_ && _); [discriminate|].
        intros H. injection H as <-. right. eauto. }
    destruct (issubclass t Datetime).
    { destruct (to_datetime (kwargs_get kw "format") col); simpl; [|discriminate].
      intros H. injection H as <-. right. eauto. }
    destruct (vtype_eqb t Boolean).
    { intros H. injection H as <-. right. eauto. }
    destruct (negb (issubclass t Discrete)); [discriminate|].
    intros H. injection H as <-. auto.
  - destruct (is_dask df); simpl; [|discriminate].
    destruct (vtype_eqb t Numeric); [discriminate|].
    destruct (issubclass t Datetime); [discriminate|].
    destruct (vtype_eqb t Boolean); [discriminate|].
    destruct (negb (issubclass t Discrete)); [discriminate|].
    intros H. injection H as <-. auto.
Qed.

Lemma call_converter_touches st c t kw st' :
  call_converter st c t kw = Ok st' -> touches_only c st st'.
Proof.
  unfold call_converter.
  destruct (convert_variable_data (fst st) c t kw) as [df'|] eqn:E;
    simpl; [|discriminate].
  intros H. injection H as <-.
  destruct (convert_variable_data_frame _ _ _ _ _ E) as [->|[col [s [Hcol ->]]]].
  - repeat split; simpl; auto.
    exists [Converted c t]. split; [reflexivity|]. constructor; auto.
  - apply touches_only_set; [eapply get_column_has_key; eauto|reflexivity].
Qed.

Lemma bind_ok {A : Type} (r : result A) : bind r (fun a => Ok a) = r.
Proof. now destruct r. Qed.

Lemma convert_item_dispatch st c e :
  convert_item st (c, e)
  = if negb (has_key c (columns (fst st)))
    then Err (LookupError "Variable ID not in DataFrame")
    else col <- get_column (fst st) c ;;
         item_body st c (entry_type e) (entry_args e) (dtype_name (s_dtype col)).
Proof.
  unfold convert_item, item_body. cbn [fst snd].
  destruct (negb (has_key c (columns (fst st)))); [reflexivity|].
  destruct (get_column (fst st) c) as [col|] eqn:Ecol; [|reflexivity].
  cbn [bind].
  destruct (entry_type e); cbn [issubclass vtype_eqb orb andb bind];
    try rewrite Ecol; cbn [bind]; try reflexivity.
  all: match goal with
       | |- context [if negb ?b then _ else _] => destruct b; cbn [negb bind]
       end; try reflexivity.
  all: destruct (call_converter _ _ _ _); reflexivity.
Qed.

Lemma convert_item_touches st c e st' :
  convert_item st (c, e) = Ok st' ->
  touches_only c st st' /\ has_key c (columns (fst st)) = true.
Proof.
  rewrite convert_item_dispatch.
  destruct (has_key c (columns (fst st))) eqn:Hk; simpl; [|discriminate].
  destruct (get_column (fst st) c) as [col|] eqn:Ecol; simpl; [|discriminate].
  intros H. split; [|reflexivity].
  unfold item_body in H.
  destruct (entry_type e);
    try (injection H as <-; apply touches_only_refl);
    try (destruct (negb _);
         [eapply call_converter_touches; eauto
         |injection H as <-; apply touches_only_refl]).
  rewrite Ecol in H. simpl in H.
  destruct (negb (is_dask (fst st)) && hasnans col); injection H as <-.
  - now apply touches_only_set.
  - apply touches_only_refl.
Qed.

Lemma convert_items_frame items st st' c :
  convert_items st items = Ok st' ->
  ~ In c (map fst items) ->
  is_dask (fst st') = is_dask (fst st)
  /\ get_column (fst st') c = get_column (fst st) c
  /\ (forall t, In (Converted c t) (snd st') -> In (Converted c t) (snd st)).
Proof.
  revert st. induction items as [|[c0 e0] rest IH]; intros st; simpl.
  - intros H _. injection H as <-. auto.
  - destruct (convert_item st (c0, e0)) as [st1|] eqn:E; simpl; [|discriminate].
    intros H Hnot.
    destruct (IH st1 H) as (D & G & L); [tauto|].
    destruct (convert_item_touches _ _ _ _ E) as [(D1 & _ & G1 & evs & E1 & F1) _].
    split; [congruence|]. split.
    + rewrite G. apply G1. intros ->. tauto.
    + intros t Ht. specialize (L t Ht). rewrite E1 in L.
      apply in_app_or in L. destruct L as [L|L]; [exact L|].
      rewrite Forall_forall in F1. specialize (F1 _ L). simpl in F1.
      subst c0. tauto.
Qed.

Lemma convert_items_keys items st st' :
  convert_items st items = Ok st' ->
  map fst (columns (fst st')) = map fst (columns (fst st))
  /\ forall c, In c (map fst items) -> has_key c (columns (fst st)) = true.
Proof.
  revert st. induction items as [|[c0 e0] rest IH]; intros st; simpl.
  - intros H. injection H as <-. split; [reflexivity|tauto].
  - destruct (convert_item st (c0, e0)) as [st1|] eqn:E; simpl; [|discriminate].
    intros H. destruct (IH st1 H) as [K Hk].
    destruct (convert_item_touches _ _ _ _ E) as [(_ & K1 & _) Hk1].
    split; [congruence|].
    intros c [<-|Hin]; [exact Hk1|].
    specialize (Hk c Hin). apply has_key_In. rewrite <- K1.
    now apply has_key_In.
Qed.

(** A step that is the identity on every state holding [col] under
    [var_id] leaves that column and the converter alone through the whole
    loop. *)
Lemma convert_items_skip items st st' var_id entry col :
  NoDup (map fst items) ->
  In (var_id, entry) items ->
  get_column (fst st) var_id = Ok col ->
  (forall st0, get_column (fst st0) var_id = Ok col ->
               convert_item st0 (var_id, entry) = Ok st0) ->
  convert_items st items = Ok st' ->
  get_column (fst st') var_id = Ok col
  /\ (forall t, In (Converted var_id t) (snd st') ->
                In (Converted var_id t) (snd st)).
Proof.
  intros Hnd Hin Hcol Hid. revert st Hcol.
  induction items as [|[c0 e0] rest IH]; intros st Hcol; simpl; [contradiction|].
  simpl in Hnd. inversion Hnd as [|? ? Hnotin Hnd']; subst.
  destruct Hin as [Heq|Hin].
  - injection Heq as -> ->. rewrite (Hid st Hcol). simpl. intros H.
    destruct (convert_items_frame _ _ _ var_id H Hnotin) as (_ & G & L).
    split; [congruence|exact L].
  - destruct (convert_item st (c0, e0)) as [st1|] eqn:E; simpl; [|discriminate].
    intros H.
    assert (Hne : var_id <> c0).
    { intros ->. apply Hnotin. apply (in_map fst) in Hin. exact Hin. }
    destruct (convert_item_touches _ _ _ _ E) as [(_ & _ & G1 & evs & E1 & F1) _].
    destruct (IH Hnd' Hin st1) as [G L]; [rewrite (G1 _ Hne); exact Hcol|exact H|].
    split; [exact G|].
    intros t Ht. specialize (L t Ht). rewrite E1 in L.
    apply in_app_or in L. destruct L as [L|L]; [exact L|].
    rewrite Forall_forall in F1. specialize (F1 _ L). simpl in F1.
    congruence.
Qed.

Lemma boolean_item_identity st c e :
  entry_type e = Boolean ->
  has_key c (columns (fst st)) = true ->
  convert_item st (c, e) = Ok st.
Proof.
  intros Ht Hk. rewrite convert_item_dispatch, Hk. simpl.
  destruct (has_key_get_column _ _ Hk) as [col ->]. simpl.
  now rewrite Ht.
Qed.

(** C10: an item that assigns [Boolean] fires no branch of the driver
    ([Boolean] is no kind of [Numeric], [Discrete] or [Datetime]): its step
    returns the state it was given, and after the whole driver the converter
    has not been called for that column, whose storage is what it was. *)
Theorem boolean_entry_left_alone (df : DataFrame)
    (variable_types : list (string * type_entry)) (var_id : string)
    (entry : type_entry) (st' : driver_state) :
  NoDup (map fst variable_types) ->
  In (var_id, entry) variable_types ->
  entry_type entry = Boolean ->
  convert_all_variable_data df variable_types = Ok st' ->
  (issubclass Boolean Numeric = false
   /\ issubclass Boolean Discrete = false
   /\ issubclass Boolean Datetime = false)
  /\ (forall st, has_key var_id (columns (fst st)) = true ->
                 convert_item st (var_id, entry) = Ok st)
  /\ (forall t, ~ In (Converted var_id t) (snd st'))
  /\ get_column (fst st') var_id = get_column df var_id.
Proof.
  intros Hnd Hin Ht Hrun. unfold convert_all_variable_data in Hrun.
  split; [repeat split|]. split.
  { intros st Hk. now apply boolean_item_identity. }
  destruct (convert_items_keys _ _ _ Hrun) as [_ Hk].
  assert (Hkey : has_key var_id (columns df) = true).
  { apply (Hk var_id). apply (in_map fst) in Hin. exact Hin. }
  destruct (has_key_get_column _ _ Hkey) as [col Hcol].
  assert (Hid : forall st0, get_column (fst st0) var_id = Ok col ->
                            convert_item st0 (var_id, entry) = Ok st0).
  { intros st0 H0. apply boolean_item_identity; [exact Ht|].
    eapply get_column_has_key; eauto. }
  destruct (convert_items_skip variable_types (df, []) st' var_id entry col
              Hnd Hin Hcol Hid Hrun) as [G L].
  split; [intros t Hc; exact (L t Hc)|].
  congruence.
Qed.

(** *** The conversion driver: a second run *)

Lemma to_numeric_coerce_numeric s :
  is_numeric_dtype (s_dtype (to_numeric_coerce s)) = true.
Proof.
  unfold to_numeric_coerce.
  destruct (is_numeric_dtype (s_dtype s)) eqn:E; [exact E|].
  destruct (is_datetime_or_timedelta_dtype (s_dtype s)); [reflexivity|].
  unfold store_numeric, numeric_result_dtype. simpl.
  destruct (existsb is_floating _); [reflexivity|].
  destruct (existsb is_integer _); [reflexivity|].
  destruct (map _ _); reflexivity.
Qed.






Lemma in_fresh_index_int (n : nat) (k : Z) :
  in_fresh_index n (VNum (NInt k)) = ((0 <=? k)%Z && (k <? Z.of_nat n)%Z).
Proof.
  unfold in_fresh_index. cbn [number_to_Q].
  assert (F : floor_Q (inject_Z k) = k)
    by (unfold floor_Q; simpl; apply Z.div_1_r).
  rewrite F.
  assert (E : Qeq_bool (inject_Z k) (inject_Z k) = true)
    by (apply Qeq_bool_iff; reflexivity).
  rewrite E. reflexivity.
Qed.

Lemma where_notnull_length (n : nat) (cells index : list value) :
  List.length (where_notnull n index cells) = List.length cells.
Proof.
  revert index. induction cells as [|v vs IH]; intros index; simpl;
    [reflexivity|]. now rewrite IH.
Qed.

(** Under labels that are all labels of the fresh Series, the replacement
    is positional. *)
Lemma where_notnull_fresh (n : nat) (cells index : list value) :
  List.length index = List.length cells ->
  Forall (fun l => in_fresh_index n l = true) index ->
  where_notnull n index cells
  = map (fun v => if notna v then v else VPair NNaN NNaN) cells.
Proof.
  revert index. induction cells as [|v vs IH]; intros index Hlen Hall;
    [reflexivity|].
  destruct index as [|l ls]; [discriminate|].
  inversion Hall as [|? ? Hl Hls]; subst.
  cbn [where_notnull map tl]. rewrite Hl, (IH ls); [reflexivity| |exact Hls].
  simpl in Hlen. lia.
Qed.

Lemma range_from_length (k : Z) (n : nat) : List.length (range_from k n) = n.
Proof. revert k. induction n as [|n IH]; intros k; simpl; [reflexivity|]. now rewrite IH. Qed.

Lemma range_from_fresh (m : nat) (k : Z) (n : nat) :
  (0 <= k)%Z -> (k + Z.of_nat n <= Z.of_nat m)%Z ->
  Forall (fun l => in_fresh_index m l = true) (range_from k n).
Proof.
  revert k. induction n as [|n IH]; intros k Hk Hm; simpl; constructor.
  - rewrite in_fresh_index_int. apply andb_true_iff. split.
    + apply Z.leb_le. exact Hk.
    + apply Z.ltb_lt. lia.
  - apply IH; lia.
Qed.

Lemma replace_latlong_nan_default (col : Series) :
  replace_latlong_nan (default_index (s_len col)) col
  = mkSeries (if hasnans col then DObject else s_dtype col)
             (map (fun v => if notna v then v else VPair NNaN NNaN)
                  (s_values col)).
Proof.
  unfold replace_latlong_nan, default_index. f_equal.
  apply where_notnull_fresh.
  - apply range_from_length.
  - apply range_from_fresh; lia.
Qed.

Lemma hasnans_replace col :
  hasnans (replace_latlong_nan (default_index (s_len col)) col) = false.
Proof.
  rewrite replace_latlong_nan_default. unfold hasnans. simpl.
  induction (s_values col) as [|v vs IH]; simpl; [reflexivity|].
  rewrite IH. unfold notna. destruct (isna v) eqn:E; simpl; [reflexivity|].
  now rewrite E.
Qed.

Lemma convert_numeric_result df c kw col df' :
  get_column df c = Ok col ->
  convert_variable_data df c Numeric kw = Ok df' ->
  (is_dask df = false /\ (s_len col =? 0)%nat = true /\ df' = df)
  \/ df' = set_column df c (to_numeric_coerce col).
Proof.
  intros Hcol. unfold convert_variable_data. rewrite Hcol.
  destruct (is_dask df); simpl.
  - intros H. injection H as <-. auto.
  - destruct (s_len col =? 0)%nat; simpl.
    + intros H. injection H as <-. auto.
    + destruct (_ && _); [discriminate|].
      intros H. injection H as <-. auto.
Qed.





















End Properties.

(** ** The statements at concrete inputs *)

(** C1 as the specification states it fails on the column [Y, N, maybe]
    with the labels [Y] and [N]: the cell for [maybe], a value outside the
    lookup, ends as the boolean true, not as a missing value. *)
Lemma boolean_unmapped_cell_is_true :
  ~ unmapped_end_missing (pd := Toy.pandas) Toy.flags_frame "flag" Toy.flags_labels.
Proof.
  intros H.
  specialize (H _ Toy.flags _ 2%nat (VStr "maybe") (VBool true)
                eq_refl eq_refl eq_refl eq_refl eq_refl eq_refl).
  discriminate H.
Qed.

Lemma convert_boolean_cells_witness :
  (get_column Toy.flags_frame "flag" = Ok Toy.flags
   /\ (is_dask Toy.flags_frame = true \/ s_values Toy.flags <> []))
  /\ convert_variable_data (pd := Toy.pandas) Toy.flags_frame "flag" Boolean
                           Toy.flags_labels
     = Ok (mkFrame PandasFrame
             [("flag", mkSeries DBool [VBool true; VBool false; VBool true])]).
Proof.
  assert (Hne : is_dask Toy.flags_frame = true \/ s_values Toy.flags <> [])
    by (right; discriminate).
  split; [split; [reflexivity|exact Hne]|].
  destruct (convert_boolean_cells (pd := Toy.pandas) Toy.flags_frame "flag"
              Toy.flags_labels Toy.flags eq_refl Hne) as [H _].
  exact H.
Defined.

(** The lookup at work.  Under the default labels the keys are the two
    booleans, and no cell of a column of integers is found: every cell ends
    as true. *)
Lemma boolean_integers_not_found :
  convert_variable_data (pd := Toy.pandas)
    (mkFrame PandasFrame
       [("x", mkSeries DInt64 [VNum (NInt 1); VNum (NInt 0); VNum (NInt 2)])])
    "x" Boolean []
  = Ok (mkFrame PandasFrame
          [("x", mkSeries DBool [VBool true; VBool true; VBool true])]).
Proof. reflexivity. Qed.

(** Under the labels 1 and 0 the keys are the two numbers, which absorb the
    native booleans: the integers are found, and the booleans of the
    converted column are not, so a second conversion makes every cell
    true. *)
Lemma boolean_numeric_labels_not_idempotent :
  let labels := [("true_val", VNum (NInt 1)); ("false_val", VNum (NInt 0))] in
  map fst (map_dict labels) = [VNum (NInt 1); VNum (NInt 0)]
  /\ convert_variable_data (pd := Toy.pandas)
       (mkFrame PandasFrame
          [("x", mkSeries DInt64 [VNum (NInt 1); VNum (NInt 0); VNum (NInt 2)])])
       "x" Boolean labels
     = Ok (mkFrame PandasFrame
             [("x", mkSeries DBool [VBool true; VBool false; VBool true])])
  /\ convert_variable_data (pd := Toy.pandas)
       (mkFrame PandasFrame
          [("x", mkSeries DBool [VBool true; VBool false; VBool true])])
       "x" Boolean labels
     = Ok (mkFrame PandasFrame
             [("x", mkSeries DBool [VBool true; VBool true; VBool true])]).
Proof. repeat split; reflexivity. Qed.

Lemma convert_numeric_raises_iff_witness :
  (is_dask Toy.words_frame = false
   /\ get_column Toy.words_frame "x" = Ok Toy.words
   /\ s_values Toy.words <> [])
  /\ convert_variable_data (pd := Toy.pandas) Toy.words_frame "x" Numeric []
     = Err (TypeError "Attempted to convert all string column to numeric")
  /\ convert_variable_data (pd := Toy.pandas) Toy.mixed_frame "x" Numeric []
     = Ok (set_column Toy.mixed_frame "x"
                      (to_numeric_coerce (pd := Toy.pandas) Toy.mixed)).
Proof.
  assert (Hne : s_values Toy.words <> []) by discriminate.
  assert (Hne' : s_values Toy.mixed <> []) by discriminate.
  split; [split; [reflexivity|split; [reflexivity|exact Hne]]|].
  destruct (convert_numeric_raises_iff (pd := Toy.pandas) Toy.words_frame "x" []
              Toy.words eq_refl eq_refl Hne) as (_ & Hlossy & _).
  destruct (convert_numeric_raises_iff (pd := Toy.pandas) Toy.mixed_frame "x" []
              Toy.mixed eq_refl eq_refl Hne') as (_ & _ & Hok).
  split.
  - apply Hlossy; [reflexivity|].
    unfold non_numeric_strings. simpl.
    repeat constructor; eexists; split; reflexivity.
  - apply Hok. exists (VStr "12"). split; [simpl; auto|reflexivity].
Defined.

(** C4 as the specification states it fails on the column [1, 2, 3, 4]:
    [second_quartile] holds 13/4, the 0.75 quantile, where the median is
    5/2. *)
Lemma second_quartile_is_not_median :
  ~ quartiles_from_median (pd := Toy.pandas) (AFrame Toy.quarters_frame)
                          [("x", Numeric)] "x".
Proof.
  intros H.
  edestruct H as (_ & H2 & _);
    [vm_compute; reflexivity | vm_compute; reflexivity | reflexivity
    | reflexivity | reflexivity |].
  vm_compute in H2. discriminate H2.
Qed.

Lemma numeric_quartiles_witness :
  exists values,
    generate_statistics (pd := Toy.pandas) (AFrame Toy.quarters_frame)
                        [("x", Numeric)] = Ok [("x", values)]
    /\ assoc "first_quartile" values = Some (SNumber (NFloat (7 # 4)))
    /\ assoc "third_quartile" values = Some (SNumber (NFloat (13 # 4))).
Proof.
  assert (Hnd : NoDup (map fst [("x", Numeric)]))
    by (repeat constructor; simpl; tauto).
  assert (Hin : In ("x", Numeric) [("x", Numeric)]) by (left; reflexivity).
  destruct (numeric_quartiles (pd := Toy.pandas) (AFrame Toy.quarters_frame)
              [("x", Numeric)] _ "x" Hnd Hin eq_refl)
    as (df & reset & column & floats & values
        & Hdf & Hreset & Hcol & Hfl & Hst & H1 & H3).
  injection Hdf as <-. injection Hreset as <-. injection Hcol as <-.
  injection Hfl as <-.
  injection Hst as <-.
  eexists. split; [reflexivity|]. split; [exact H1|exact H3].
Defined.


(** C7 as the specification states it fails on the object column
    [NaT, "90210"]: its storage is no timestamp storage and its only
    non-missing value parses as a number, yet the detector answers true,
    because the first value, [NaT], is an instance of [datetime]. *)
Lemma nat_first_column_is_datetime :
  ~ (str_contains "datetime" (dtype_name (s_dtype Toy.zip_codes_after_nat)) = false ->
     is_ok (to_numeric_raise (pd := Toy.pandas) (dropna Toy.zip_codes_after_nat))
     = true ->
     col_is_datetime (pd := Toy.pandas) Toy.zip_codes_after_nat = false).
Proof.
  intros H. specialize (H eq_refl eq_refl). discriminate H.
Qed.

Lemma toy_parser_reads_digits : parser_reads_digits (pd := Toy.pandas).
Proof.
  intros s Hs. simpl. unfold Toy.parse_digits. rewrite Hs. discriminate.
Defined.

Lemma numeric_column_is_not_datetime_witness :
  (str_contains "datetime" (dtype_name (s_dtype Toy.zip_codes)) = false
   /\ digit_strings Toy.zip_codes)
  /\ col_is_datetime (pd := Toy.pandas) Toy.zip_codes = false.
Proof.
  assert (Hd : digit_strings Toy.zip_codes).
  { unfold digit_strings. simpl.
    repeat constructor; eexists; split; reflexivity. }
  split; [split; [reflexivity|exact Hd]|].
  destruct (numeric_column_is_not_datetime (pd := Toy.pandas) Toy.zip_codes)
    as (_ & Hdigits & _).
  apply Hdigits; [exact toy_parser_reads_digits|reflexivity|exact Hd].
Defined.

Lemma infer_dask_unsupported_witness :
  is_dask Toy.lazy_frame = true
  /\ (exists msg,
        infer_variable_types (pd := Toy.pandas) Toy.lazy_frame []
          [("id", Bare Numeric)] None [] = Err (ValueError msg))
  /\ infer_variable_types (pd := Toy.pandas) Toy.lazy_frame []
       [("id", Bare Numeric); ("name", Bare Categorical)] None [] = Ok [].
Proof.
  split; [reflexivity|].
  destruct (infer_dask_unsupported (pd := Toy.pandas) Toy.lazy_frame []
              [("id", Bare Numeric)] None [] eq_refl) as (Hraise & _ & _).
  destruct (infer_dask_unsupported (pd := Toy.pandas) Toy.lazy_frame []
              [("id", Bare Numeric); ("name", Bare Categorical)] None []
              eq_refl) as (_ & Hnone & _).
  split.
  - apply Hraise. exists "name". split; [simpl; tauto|reflexivity].
  - apply Hnone. intros c [<-|[<-|[]]]; reflexivity.
Defined.

Lemma toy_sampler_sized : sampler_sized (pd := Toy.pandas).
Proof.
  intros l n Hn. simpl. unfold Toy.first_rows.
  rewrite length_firstn. apply Nat.min_l. exact Hn.
Defined.

Lemma sampling_rule_assigns_numeric_witness :
  reaches_sampling_rule (pd := Toy.pandas) [] [None] "x" Toy.labels = true
  /\ infer_rules (pd := Toy.pandas) [] [None] Unknown "x" Toy.labels = Ok Numeric.
Proof.
  split; [reflexivity|].
  destruct (sampling_rule_assigns_numeric (pd := Toy.pandas) [] [None] Unknown
              "x" Toy.labels toy_sampler_sized eq_refl)
    as (sample & _ & _ & _ & H).
  exact H.
Defined.

Lemma boolean_entry_left_alone_witness :
  (NoDup (map fst Toy.typed_assignment)
   /\ In ("ok", Bare Boolean) Toy.typed_assignment)
  /\ (forall t, ~ In (Converted "ok" t)
                     [Converted "n" Numeric; Converted "c" Categorical])
  /\ get_column Toy.typed_frame_converted "ok" = get_column Toy.typed_frame "ok".
Proof.
  assert (Hnd : NoDup (map fst Toy.typed_assignment))
    by (repeat constructor; simpl; intuition discriminate).
  assert (Hin : In ("ok", Bare Boolean) Toy.typed_assignment)
    by (simpl; tauto).
  split; [split; assumption|].
  destruct (boolean_entry_left_alone (pd := Toy.pandas)
              (pandas_types := Toy.pandas_types) Toy.typed_frame
              Toy.typed_assignment "ok" (Bare Boolean)
              (Toy.typed_frame_converted,
               [Converted "n" Numeric; Converted "c" Categorical])
              Hnd Hin eq_refl eq_refl) as (_ & _ & Hlog & Hcol).
  split; [exact Hlog|exact Hcol].
Defined.

(** ** Further properties of inference *)

Section InferenceProperties.

Context {pd : Pandas}.

Lemma assoc_set_fresh {A : Type} (k : string) (a : A) (l : list (string * A)) :
  has_key k l = false -> assoc_set k a l = l ++ [(k, a)].
Proof.
  unfold has_key. induction l as [|[k' a'] l IH]; simpl; [reflexivity|].
  destruct (String.eqb k k'); [discriminate|].
  intros H. now rewrite IH.
Qed.

Lemma infer_loop_frame link_vars variable_types vids cols acc prev res c :
  infer_loop false link_vars variable_types vids cols acc prev = Ok res ->
  ~ In c (map fst cols) ->
  assoc c res = assoc c acc.
Proof.
  revert acc prev. induction cols as [|[variable col] rest IH];
    intros acc prev; simpl.
  - intros H _. now injection H as <-.
  - intros H Hnot. destruct (has_key variable variable_types).
    + apply (IH _ _ H). tauto.
    + destruct (infer_rules link_vars vids prev variable col) as [t|];
        simpl in H; [|discriminate].
      rewrite (IH _ _ H) by tauto.
      apply assoc_set_other. intros ->. tauto.
Qed.

(** The entry of a column without explicit type is what the rules give for
    it, from the value [inferred_type] has when its turn comes. *)
Lemma infer_loop_entry link_vars variable_types vids cols acc prev res c col :
  NoDup (map fst cols) ->
  In (c, col) cols ->
  has_key c variable_types = false ->
  infer_loop false link_vars variable_types vids cols acc prev = Ok res ->
  exists prev' t,
    infer_rules link_vars vids prev' c col = Ok t /\ assoc c res = Some t.
Proof.
  revert acc prev. induction cols as [|[variable col0] rest IH];
    intros acc prev Hnd Hin Hk; simpl; [contradiction|].
  simpl in Hnd. inversion Hnd as [|? ? Hnotin Hnd']; subst.
  destruct Hin as [Heq|Hin].
  - injection Heq as -> ->. rewrite Hk.
    destruct (infer_rules link_vars vids prev c col) as [t|] eqn:E;
      simpl; [|discriminate].
    intros H. exists prev, t. split; [exact E|].
    rewrite (infer_loop_frame _ _ _ _ _ _ _ c H Hnotin).
    apply assoc_set_same.
  - destruct (has_key variable variable_types); [now apply IH|].
    destruct (infer_rules link_vars vids prev variable col0) as [t|];
      simpl; [|discriminate].
    now apply IH.
Qed.

Lemma infer_entry df link_vars variable_types time_index secondary res c col :
  is_dask df = false ->
  NoDup (map fst (columns df)) ->
  In (c, col) (columns df) ->
  has_key c variable_types = false ->
  infer_variable_types df link_vars variable_types time_index secondary = Ok res ->
  exists prev t,
    infer_rules link_vars (vids_to_assume_datetime time_index secondary)
                prev c col = Ok t
    /\ assoc c res = Some t.
Proof.
  intros Hd Hnd Hin Hk. unfold infer_variable_types. rewrite Hd.
  now apply infer_loop_entry.
Qed.

(** X1: on a frame held in memory, a column that is named as the time
    index, or as the first key of the secondary time index, and has no
    explicit type is assigned [Datetime] when the detector accepts it and
    [Numeric] otherwise, whether or not it is also a linked column and
    whatever its storage. *)
Theorem infer_time_index_first (df : DataFrame) (link_vars : list string)
    (variable_types : list (string * type_entry)) (time_index : option string)
    (secondary : list (string * list string))
    (res : list (string * vtype)) (c : string) (col : Series) :
  is_dask df = false ->
  NoDup (map fst (columns df)) ->
  In (c, col) (columns df) ->
  has_key c variable_types = false ->
  vid_in c (vids_to_assume_datetime time_index secondary) = true ->
  infer_variable_types df link_vars variable_types time_index secondary = Ok res ->
  assoc c res = Some (if col_is_datetime col then Datetime else Numeric).
Proof.
  intros Hd Hnd Hin Hk Hv Hres.
  destruct (infer_entry _ _ _ _ _ _ _ _ Hd Hnd Hin Hk Hres) as (prev & t & Hr & Ha).
  unfold infer_rules in Hr. rewrite Hv in Hr.
  rewrite Ha. destruct (col_is_datetime col); now injection Hr as <-.
Qed.

(** X2: a linked column that is not assumed to be a time index and has no
    explicit type is assigned [Categorical], whatever it holds and however it
    is stored. *)
Theorem infer_linked_categorical (df : DataFrame) (link_vars : list string)
    (variable_types : list (string * type_entry)) (time_index : option string)
    (secondary : list (string * list string))
    (res : list (string * vtype)) (c : string) (col : Series) :
  is_dask df = false ->
  NoDup (map fst (columns df)) ->
  In (c, col) (columns df) ->
  has_key c variable_types = false ->
  vid_in c (vids_to_assume_datetime time_index secondary) = false ->
  name_in c link_vars = true ->
  infer_variable_types df link_vars variable_types time_index secondary = Ok res ->
  assoc c res = Some Categorical.
Proof.
  intros Hd Hnd Hin Hk Hv Hl Hres.
  destruct (infer_entry _ _ _ _ _ _ _ _ Hd Hnd Hin Hk Hres) as (prev & t & Hr & Ha).
  unfold infer_rules in Hr. rewrite Hv, Hl in Hr.
  rewrite Ha. now injection Hr as <-.
Qed.

(** X3: a column that is neither a time index nor linked and has no
    explicit type is typed by its storage when that is boolean, categorical,
    integer, float or timestamp: [Boolean], [Categorical], [Numeric],
    [Numeric] and [Datetime], whatever the columns before it were given. *)
Theorem infer_by_storage (df : DataFrame) (link_vars : list string)
    (variable_types : list (string * type_entry)) (time_index : option string)
    (secondary : list (string * list string))
    (res : list (string * vtype)) (c : string) (col : Series) :
  is_dask df = false ->
  NoDup (map fst (columns df)) ->
  In (c, col) (columns df) ->
  has_key c variable_types = false ->
  vid_in c (vids_to_assume_datetime time_index secondary) = false ->
  name_in c link_vars = false ->
  infer_variable_types df link_vars variable_types time_index secondary = Ok res ->
  forall t, storage_type (s_dtype col) = Some t -> assoc c res = Some t.
Proof.
  intros Hd Hnd Hin Hk Hv Hl Hres t Ht.
  destruct (infer_entry _ _ _ _ _ _ _ _ Hd Hnd Hin Hk Hres) as (prev & t' & Hr & Ha).
  unfold infer_rules, col_is_datetime in Hr. rewrite Hv, Hl in Hr.
  rewrite Ha.
  destruct (s_dtype col); simpl in Hr, Ht; try discriminate;
    injection Ht as <-; now injection Hr as <-.
Qed.

Ltac break_rules H :=
  repeat match type of H with
         | context [if ?b then _ else _] => destruct b eqn:?
         | context [bind ?r _] => destruct r eqn:?; cbn [bind] in H
         end.

Lemma infer_rules_inferable link_vars vids prev variable col t :
  inferable prev = true ->
  infer_rules link_vars vids prev variable col = Ok t ->
  inferable t = true.
Proof.
  intros Hp H. unfold infer_rules in H.
  break_rules H; try discriminate; injection H as <-; auto.
Qed.

Lemma infer_rules_nonempty link_vars vids prev variable col t :
  s_values col <> [] ->
  infer_rules link_vars vids prev variable col = Ok t ->
  t <> Unknown.
Proof.
  intros Hne H. unfold infer_rules in H.
  assert (Hlen : (s_len col =? 0)%nat = false).
  { apply Nat.eqb_neq. unfold s_len. intros E.
    apply length_zero_iff_nil in E. contradiction. }
  rewrite Hlen in H. cbn [negb] in H.
  break_rules H; try discriminate; injection H as <-; discriminate.
Qed.

Lemma sample_within col n :
  (n <= s_len col)%nat ->
  series_sample col n = Ok (mkSeries (s_dtype col) (sample_rows (s_values col) n)).
Proof.
  intros H. unfold series_sample. apply Nat.leb_le in H. now rewrite H.
Qed.

Lemma infer_rules_ok link_vars vids prev variable col :
  sampler_sized ->
  exists t, infer_rules link_vars vids prev variable col = Ok t.
Proof.
  intros Hsize. unfold infer_rules.
  destruct (vid_in variable vids).
  { destruct (col_is_datetime col); eauto. }
  destruct (name_in variable link_vars); [eauto|].
  destruct (String.eqb (dtype_name (s_dtype col)) "object").
  { destruct (s_len col =? 0)%nat; [eauto|].
    destruct (col_is_datetime col); [eauto|].
    rewrite sample_within by apply Nat.le_min_r. cbn [bind].
    destruct (str_accessor _); [|eauto].
    destruct (gt_bound _ _); eauto. }
  destruct (String.eqb (dtype_name (s_dtype col)) "bool"); [eauto|].
  destruct (is_categorical_dtype (s_dtype col)); [eauto|].
  destruct (is_numeric_dtype (s_dtype col)); [eauto|].
  destruct (col_is_datetime col); [eauto|].
  destruct (s_len col =? 0)%nat eqn:Hlen; cbn [negb]; [eauto|].
  assert (Hne : s_values col <> []).
  { apply Nat.eqb_neq in Hlen. unfold s_len in Hlen.
    intros E. rewrite E in Hlen. simpl in Hlen. congruence. }
  set (n := Nat.min 10000 (nunique_keepna col)).
  assert (Hn1 : (1 <= n)%nat).
  { apply Nat.min_glb; [apply Nat.leb_le; reflexivity|].
    apply (unique_nonempty col Hne). }
  assert (Hn2 : (n <= s_len col)%nat).
  { etransitivity; [apply Nat.le_min_r|apply unique_le_len]. }
  rewrite (sample_within _ _ Hn2). cbn [bind].
  set (sample := mkSeries (s_dtype col) (sample_rows (s_values col) n)).
  assert (Hsne : s_values sample <> []).
  { intros E. pose proof (Hsize (s_values col) n Hn2) as Hl.
    change (sample_rows (s_values col) n) with (s_values sample) in Hl.
    rewrite E in Hl. simpl in Hl. lia. }
  pose proof (unique_nonempty sample Hsne) as Hpos.
  destruct (List.length (unique sample) =? 0)%nat eqn:E.
  { apply Nat.eqb_eq in E. lia. }
  destruct (Qlt_bool _ _); eauto.
Qed.

Lemma has_key_app {A : Type} (k : string) (l l' : list (string * A)) :
  has_key k (l ++ l') = has_key k l || has_key k l'.
Proof.
  unfold has_key. induction l as [|[k' a] l IH]; simpl; [reflexivity|].
  destruct (String.eqb k k'); auto.
Qed.

Lemma infer_loop_keys link_vars variable_types vids cols acc prev res :
  NoDup (map fst cols) ->
  (forall c, In c (map fst cols) -> has_key c acc = false) ->
  infer_loop false link_vars variable_types vids cols acc prev = Ok res ->
  map fst res
  = map fst acc
    ++ filter (fun c => negb (has_key c variable_types)) (map fst cols).
Proof.
  revert acc prev. induction cols as [|[variable col] rest IH];
    intros acc prev Hnd Hfresh; simpl.
  - intros H. injection H as <-. now rewrite app_nil_r.
  - simpl in Hnd. inversion Hnd as [|? ? Hnotin Hnd']; subst.
    destruct (has_key variable variable_types); cbn [negb].
    + apply IH; auto. intros c Hc. apply Hfresh. now right.
    + destruct (infer_rules link_vars vids prev variable col) as [t|];
        simpl; [|discriminate].
      intros H. rewrite (IH _ _ Hnd') with (2 := H).
      * rewrite assoc_set_fresh by (apply Hfresh; now left).
        rewrite map_app. simpl. now rewrite <- app_assoc.
      * intros c Hc.
        rewrite assoc_set_fresh by (apply Hfresh; now left).
        rewrite has_key_app, (Hfresh c) by now right.
        unfold has_key. simpl.
        destruct (String.eqb c variable) eqn:E; [|reflexivity].
        apply String.eqb_eq in E. subst. contradiction.
Qed.

(** X4: on a frame held in memory, the assignment that inference returns
    has exactly the columns that have no explicit type as its keys, in the
    order of the frame. *)
Theorem infer_keys (df : DataFrame) (link_vars : list string)
    (variable_types : list (string * type_entry)) (time_index : option string)
    (secondary : list (string * list string)) (res : list (string * vtype)) :
  is_dask df = false ->
  NoDup (map fst (columns df)) ->
  infer_variable_types df link_vars variable_types time_index secondary = Ok res ->
  map fst res = untyped_columns df variable_types.
Proof.
  intros Hd Hnd. unfold infer_variable_types. rewrite Hd. intros H.
  assert (Hfresh : forall c, In c (map fst (columns df)) ->
                     has_key c (@nil (string * vtype)) = false)
    by reflexivity.
  now rewrite (infer_loop_keys _ _ _ _ _ _ _ Hnd Hfresh H).
Qed.

Lemma Forall_assoc_set {A : Type} (P : A -> Prop) k a (l : list (string * A)) :
  P a -> Forall (fun kv => P (snd kv)) l ->
  Forall (fun kv => P (snd kv)) (assoc_set k a l).
Proof.
  intros Ha. induction 1 as [|[k' a'] l Hx Hl IH]; simpl.
  - constructor; auto.
  - destruct (String.eqb k k'); constructor; auto.
Qed.

Lemma infer_loop_inferable link_vars variable_types vids cols acc prev res :
  inferable prev = true ->
  Forall (fun kt => inferable (snd kt) = true) acc ->
  infer_loop false link_vars variable_types vids cols acc prev = Ok res ->
  Forall (fun kt => inferable (snd kt) = true) res.
Proof.
  revert acc prev. induction cols as [|[variable col] rest IH];
    intros acc prev Hp Hacc; simpl.
  - intros H. now injection H as <-.
  - destruct (has_key variable variable_types); [now apply IH|].
    destruct (infer_rules link_vars vids prev variable col) as [t|] eqn:E;
      simpl; [|discriminate].
    pose proof (infer_rules_inferable _ _ _ _ _ _ Hp E) as Ht.
    apply IH; [exact Ht|].
    now apply (Forall_assoc_set (fun t => inferable t = true)).
Qed.

(** X5: inference never assigns [LatLong] or the bare [Discrete]: every type
    in the assignment it returns is [Unknown], [Boolean], [Numeric],
    [Datetime], [Categorical] or [Text]. *)
Theorem infer_never_latlong (df : DataFrame) (link_vars : list string)
    (variable_types : list (string * type_entry)) (time_index : option string)
    (secondary : list (string * list string)) (res : list (string * vtype)) :
  infer_variable_types df link_vars variable_types time_index secondary = Ok res ->
  Forall (fun kt => inferable (snd kt) = true) res.
Proof.
  unfold infer_variable_types. destruct (is_dask df) eqn:Hd.
  - assert (Hcases := infer_loop_dask link_vars variable_types
                        (vids_to_assume_datetime time_index secondary)
                        (columns df) [] Unknown).
    destruct Hcases as [Hex Hall].
    destruct (Forall_Exists_dec (fun c => has_key c variable_types = true)
                (fun c => bool_dec (has_key c variable_types) true)
                (map fst (columns df))) as [Hf|He].
    + rewrite (Hall Hf). intros H. injection H as <-. constructor.
    + destruct Hex as [msg Hmsg].
      * eapply Exists_impl; [|exact He]. intros c Hc.
        destruct (has_key c variable_types) eqn:E; [|reflexivity].
        exfalso. apply Hc. exact E.
      * rewrite Hmsg. discriminate.
  - now apply infer_loop_inferable.
Qed.

(** X6: a column that has at least one row and no explicit type is never
    left [Unknown]: some rule assigns it a type of its own. *)
Theorem infer_nonempty_known (df : DataFrame) (link_vars : list string)
    (variable_types : list (string * type_entry)) (time_index : option string)
    (secondary : list (string * list string))
    (res : list (string * vtype)) (c : string) (col : Series) :
  is_dask df = false ->
  NoDup (map fst (columns df)) ->
  In (c, col) (columns df) ->
  has_key c variable_types = false ->
  s_values col <> [] ->
  infer_variable_types df link_vars variable_types time_index secondary = Ok res ->
  exists t, assoc c res = Some t /\ t <> Unknown.
Proof.
  intros Hd Hnd Hin Hk Hne Hres.
  destruct (infer_entry _ _ _ _ _ _ _ _ Hd Hnd Hin Hk Hres) as (prev & t & Hr & Ha).
  exists t. split; [exact Ha|]. eapply infer_rules_nonempty; eauto.
Qed.

Lemma infer_loop_ok link_vars variable_types vids cols acc prev :
  sampler_sized ->
  exists res,
    infer_loop false link_vars variable_types vids cols acc prev = Ok res.
Proof.
  intros Hs. revert acc prev.
  induction cols as [|[variable col] rest IH]; intros acc prev; simpl; [eauto|].
  destruct (has_key variable variable_types); [apply IH|].
  destruct (infer_rules_ok link_vars vids prev variable col Hs) as [t ->].
  simpl. apply IH.
Qed.

(** X7: on a frame held in memory inference never raises, provided
    [Series.sample(n)] returns [n] rows: no sample is larger than its
    column and no division is by zero. *)
Theorem infer_never_raises (df : DataFrame) (link_vars : list string)
    (variable_types : list (string * type_entry)) (time_index : option string)
    (secondary : list (string * list string)) :
  sampler_sized ->
  is_dask df = false ->
  exists res,
    infer_variable_types df link_vars variable_types time_index secondary
    = Ok res.
Proof.
  intros Hs Hd. unfold infer_variable_types. rewrite Hd.
  now apply infer_loop_ok.
Qed.

Lemma digit_strings_not_datetime (col : Series) :
  parser_reads_digits ->
  str_contains "datetime" (dtype_name (s_dtype col)) = false ->
  digit_strings col ->
  col_is_datetime col = false.
Proof.
  intros Hp Hd Hdigits.
  destruct (col_is_datetime col) eqn:E; [|reflexivity].
  apply col_is_datetime_cases in E.
  destruct E as [[E|[v [Hv Hi]]]|[E _]].
  - congruence.
  - unfold digit_strings in Hdigits.
    destruct (s_values col) as [|v0 vs]; [discriminate|].
    simpl in Hv. injection Hv as ->.
    inversion Hdigits as [|? ? [s [-> _]] _]. discriminate.
  - rewrite (digit_strings_numeric col Hp Hdigits) in E. discriminate.
Qed.

(** X8: a column of digit strings, with at least one row and not stored as
    timestamps, is never assigned [Datetime] by inference, not even as the
    time index (where it becomes [Numeric]). *)
Theorem infer_digit_strings_not_datetime (df : DataFrame)
    (link_vars : list string) (variable_types : list (string * type_entry))
    (time_index : option string) (secondary : list (string * list string))
    (res : list (string * vtype)) (c : string) (col : Series) :
  parser_reads_digits ->
  is_dask df = false ->
  NoDup (map fst (columns df)) ->
  In (c, col) (columns df) ->
  has_key c variable_types = false ->
  s_values col <> [] ->
  str_contains "datetime" (dtype_name (s_dtype col)) = false ->
  digit_strings col ->
  infer_variable_types df link_vars variable_types time_index secondary = Ok res ->
  exists t, assoc c res = Some t /\ t <> Datetime
            /\ (vid_in c (vids_to_assume_datetime time_index secondary) = true ->
                t = Numeric).
Proof.
  intros Hp Hd Hnd Hin Hk Hne Hdt Hdigits Hres.
  destruct (infer_entry _ _ _ _ _ _ _ _ Hd Hnd Hin Hk Hres) as (prev & t & Hr & Ha).
  exists t. split; [exact Ha|].
  pose proof (digit_strings_not_datetime col Hp Hdt Hdigits) as Hnot.
  unfold infer_rules in Hr. rewrite Hnot in Hr.
  assert (Hlen : (s_len col =? 0)%nat = false).
  { apply Nat.eqb_neq. unfold s_len. intros E.
    apply length_zero_iff_nil in E. contradiction. }
  rewrite Hlen in Hr. cbn [negb] in Hr.
  destruct (vid_in c (vids_to_assume_datetime time_index secondary)).
  { injection Hr as <-. split; [discriminate|reflexivity]. }
  split; [|discriminate].
  break_rules Hr; try discriminate; injection Hr as <-; discriminate.
Qed.

End InferenceProperties.

(** ** Further properties of the datetime detector *)

Section DetectorProperties.

Context {pd : Pandas}.

Lemma map_result_error {A B : Type} (f : A -> result B) (l : list A) (a : A) e :
  In a l -> f a = Err e -> exists e', map_result f l = Err e'.
Proof.
  intros Hin Hf. induction l as [|x l IH]; [contradiction|]. simpl.
  destruct Hin as [->|Hin].
  - rewrite Hf. simpl. eauto.
  - destruct (f x); simpl; [|eauto].
    destruct (IH Hin) as [e' ->]. simpl. eauto.
Qed.

Lemma map_result_all {A B : Type} (f : A -> result B) (l : list A) :
  Forall (fun a => exists b, f a = Ok b) l ->
  exists bs, map_result f l = Ok bs.
Proof.
  induction 1 as [|a l [b Hb] _ [bs IH]]; simpl; [eauto|].
  rewrite Hb, IH. simpl. eauto.
Qed.

Lemma map_result_length {A B : Type} (f : A -> result B) (l : list A) bs :
  map_result f l = Ok bs -> List.length bs = List.length l.
Proof.
  revert bs. induction l as [|a l IH]; intros bs; simpl.
  - intros H. now injection H as <-.
  - destruct (f a); simpl; [|discriminate].
    destruct (map_result f l) as [bs'|]; simpl; [|discriminate].
    intros H. injection H as <-. simpl. now rewrite (IH bs').
Qed.

(** X9: on a column without rows the detector answers by the storage alone:
    true exactly when the storage name mentions a timestamp. *)
Theorem detector_on_empty_column (col : Series) :
  s_values col = [] ->
  col_is_datetime col = str_contains "datetime" (dtype_name (s_dtype col)).
Proof.
  intros He. unfold col_is_datetime, s_len, dropna, to_numeric_raise.
  rewrite He. simpl.
  destruct (str_contains "datetime" (dtype_name (s_dtype col))); [reflexivity|].
  simpl.
  destruct (is_numeric_dtype (s_dtype col)); [reflexivity|].
  destruct (is_datetime_or_timedelta_dtype (s_dtype col)); reflexivity.
Qed.

(** The detector reads a column only through its storage, its first
    value and its non-missing values: two columns that agree on these get
    the same answer, wherever their missing values are. *)
Lemma detector_ignores_missing (a b : Series) :
  s_dtype a = s_dtype b ->
  hd_error (s_values a) = hd_error (s_values b) ->
  filter notna (s_values a) = filter notna (s_values b) ->
  col_is_datetime a = col_is_datetime b.
Proof.
  intros Hd Hh Hf. unfold col_is_datetime, s_len, dropna.
  rewrite Hd, Hf.
  destruct (s_values a) as [|x xs], (s_values b) as [|y ys];
    simpl in Hh; try discriminate; [reflexivity|].
  injection Hh as ->. reflexivity.
Qed.

Lemma string_storage_not_numeric (d : dtype) :
  (str_contains "str" (dtype_name d) || str_contains "object" (dtype_name d))
  = true ->
  is_numeric_dtype d = false /\ is_datetime_or_timedelta_dtype d = false
  /\ str_contains "datetime" (dtype_name d) = false.
Proof. destruct d; simpl; intros H; try discriminate; auto. Qed.

(** X10: a column stored as strings or objects whose non-missing cells
    are all strings that parse as timestamps, one of which does not parse as
    a number, is detected as datetime. *)
Theorem detector_accepts_date_strings (col : Series) :
  (str_contains "str" (dtype_name (s_dtype col))
   || str_contains "object" (dtype_name (s_dtype col))) = true ->
  date_strings col ->
  has_non_numeric_string col ->
  col_is_datetime col = true.
Proof.
  intros Hs Hdates Hnon. apply col_is_datetime_cases. right.
  destruct (string_storage_not_numeric _ Hs) as (Hn & Hd & _).
  split; [|split; [exact Hs|]].
  - unfold to_numeric_raise, dropna. simpl. rewrite Hn, Hd.
    apply Exists_exists in Hnon. destruct Hnon as (v & Hin & s & -> & Hp).
    destruct (map_result_error numeric_of_raise
                (filter notna (s_values col)) (VStr s)
                (ValueError "Unable to parse string")) as [e ->].
    + apply filter_In. split; [exact Hin|reflexivity].
    + unfold numeric_of_raise. simpl. now rewrite Hp.
    + reflexivity.
  - unfold to_datetime, dropna. simpl.
    destruct (map_result_all (datetime_of None) (filter notna (s_values col)))
      as [bs ->]; [|reflexivity].
    apply Forall_forall. intros v Hv. apply filter_In in Hv.
    destruct Hv as [Hin Hna].
    unfold date_strings in Hdates. rewrite Forall_forall in Hdates.
    destruct (Hdates v Hin) as [Hmiss|(s & -> & Hp)].
    + unfold notna in Hna. rewrite Hmiss in Hna. discriminate.
    + simpl. destruct (parse_datetime None s) as [[t|]|]; [eauto|eauto|congruence].
Qed.

End DetectorProperties.

(** ** Further properties of the converter *)

Section ConverterProperties.

Context {pd : Pandas}.

Lemma nonempty_len (col : Series) :
  s_values col <> [] -> (s_len col =? 0)%nat = false.
Proof.
  intros Hne. apply Nat.eqb_neq. unfold s_len. intros E.
  apply length_zero_iff_nil in E. contradiction.
Qed.

(** X11: on a frame held in memory, converting a column without rows
    returns the frame as it is, for every target type and every keyword
    argument, also for the types that are refused on a column with rows. *)
Theorem convert_empty_column_noop (df : DataFrame) (column_id : string)
    (new_type : vtype) (kw : kwargs) (col : Series) :
  is_dask df = false ->
  get_column df column_id = Ok col ->
  s_values col = [] ->
  convert_variable_data df column_id new_type kw = Ok df.
Proof.
  intros Hd Hcol He. unfold convert_variable_data.
  rewrite Hd, Hcol. simpl. unfold s_len. rewrite He. reflexivity.
Qed.

(** X12: on a column with rows (or on a partitioned frame), a target
    type that is none of [Numeric], [Datetime] and [Boolean] is accepted
    exactly when it is a kind of [Discrete], and then the frame comes back
    unchanged; [Unknown] and [LatLong] raise. *)
Theorem convert_other_types (df : DataFrame) (column_id : string)
    (new_type : vtype) (kw : kwargs) (col : Series) :
  get_column df column_id = Ok col ->
  is_dask df = true \/ s_values col <> [] ->
  new_type <> Numeric -> new_type <> Datetime -> new_type <> Boolean ->
  convert_variable_data df column_id new_type kw
  = if issubclass new_type Discrete then Ok df
    else Err (PyException "Cannot convert column").
Proof.
  intros Hcol Hne Hn Hdt Hb. unfold convert_variable_data. rewrite Hcol.
  assert (Hempty : (if is_dask df then Ok false
                    else col0 <- Ok col ;; Ok (s_len col0 =? 0)%nat)
                   = @Ok bool false).
  { destruct (is_dask df); [reflexivity|]. simpl.
    destruct Hne as [Hne|Hne]; [discriminate|].
    now rewrite (nonempty_len col Hne). }
  rewrite Hempty. cbn [bind].
  destruct new_type; try contradiction; reflexivity.
Qed.

Lemma to_numeric_coerce_length (s : Series) :
  s_len (to_numeric_coerce s) = s_len s.
Proof.
  unfold to_numeric_coerce, s_len.
  destruct (is_numeric_dtype (s_dtype s)); [reflexivity|].
  destruct (is_datetime_or_timedelta_dtype (s_dtype s)); simpl.
  - apply length_map.
  - now rewrite !length_map.
Qed.

Lemma to_datetime_length format (s k : Series) :
  to_datetime format s = Ok k -> s_len k = s_len s.
Proof.
  unfold to_datetime, s_len.
  destruct (map_result (datetime_of format) (s_values s)) as [vs|] eqn:E;
    simpl; [|discriminate].
  intros H. injection H as <-. simpl. eapply map_result_length; eauto.
Qed.

Lemma convert_variable_data_length df c t kw df' col :
  get_column df c = Ok col ->
  convert_variable_data df c t kw = Ok df' ->
  exists col', get_column df' c = Ok col' /\ s_len col' = s_len col.
Proof.
  intros Hcol. unfold convert_variable_data. rewrite Hcol.
  assert (Hempty : exists b,
            (if is_dask df then Ok false
             else col0 <- Ok col ;; Ok (s_len col0 =? 0)%nat) = @Ok bool b)
    by (destruct (is_dask df); simpl; eauto).
  destruct Hempty as [b ->]. cbn [bind].
  destruct b; [intros H; injection H as <-; eauto|].
  destruct (vtype_eqb t Numeric).
  { assert (Hres : df' = set_column df c (to_numeric_coerce col) ->
                   exists col', get_column df' c = Ok col'
                                /\ s_len col' = s_len col).
    { intros ->. eexists. split; [apply get_set_same|].
      apply to_numeric_coerce_length. }
    destruct (is_dask df).
    - intros H. injection H as <-. now apply Hres.
    - destruct (_ && _); [discriminate|].
      intros H. injection H as <-. now apply Hres. }
  destruct (issubclass t Datetime).
  { destruct (to_datetime (kwargs_get kw "format") col) as [k|] eqn:E;
      simpl; [|discriminate].
    intros H. injection H as <-. exists k. split; [apply get_set_same|].
    eapply to_datetime_length; eauto. }
  destruct (vtype_eqb t Boolean).
  { intros H. injection H as <-. eexists. split; [apply get_set_same|].
    unfold s_len, astype_bool, series_map. simpl. now rewrite !length_map. }
  destruct (negb (issubclass t Discrete)); [discriminate|].
  intros H. injection H as <-. eauto.
Qed.

(** X13: a successful conversion touches one column only: the frame keeps
    its kind, its column names and their order, every other column is what
    it was, and the converted column has as many rows as before. *)
Theorem convert_touches_one_column (df : DataFrame) (column_id : string)
    (new_type : vtype) (kw : kwargs) (df' : DataFrame) :
  convert_variable_data df column_id new_type kw = Ok df' ->
  kind df' = kind df
  /\ map fst (columns df') = map fst (columns df)
  /\ (forall c, c <> column_id -> get_column df' c = get_column df c)
  /\ (forall col, get_column df column_id = Ok col ->
        exists col', get_column df' column_id = Ok col'
                     /\ s_len col' = s_len col).
Proof.
  intros H.
  destruct (convert_variable_data_frame _ _ _ _ _ H) as [->|(col & s & Hcol & ->)].
  - repeat split; auto. intros col Hcol.
    eapply convert_variable_data_length; eauto.
  - split; [reflexivity|]. split.
    { apply set_column_keys. eapply get_column_has_key; eauto. }
    split.
    { intros c Hc. now apply get_set_other. }
    intros col0 Hcol0. eapply convert_variable_data_length; eauto.
Qed.

(** X14: on a partitioned frame the conversion to [Numeric] has no guard:
    a column of strings that are all non-numeric is converted without error
    into a column that has no non-missing value left. *)
Theorem convert_numeric_dask_unguarded (df : DataFrame) (column_id : string)
    (kw : kwargs) (col : Series) :
  is_dask df = true ->
  get_column df column_id = Ok col ->
  convert_variable_data df column_id Numeric kw
  = Ok (set_column df column_id (to_numeric_coerce col))
  /\ (well_typed col = true -> s_values col <> [] -> non_numeric_strings col ->
      count_nonnull col = s_len col
      /\ count_nonnull (to_numeric_coerce col) = 0%nat).
Proof.
  intros Hd Hcol. split.
  - unfold convert_variable_data. rewrite Hd, Hcol. reflexivity.
  - intros Hwt Hne Hs.
    assert (Hstr : Forall (fun v => exists s, v = VStr s) (s_values col)).
    { eapply Forall_impl; [|exact Hs]. intros v [s [-> _]]. eauto. }
    destruct (strings_storage col Hwt Hne Hstr) as [Hn Hdt].
    destruct (non_numeric_coerced col Hn Hdt Hs) as [H0 H1]. auto.
Qed.

Lemma widen_numeric_cell d v : numeric_cell v = true -> numeric_cell (widen d v) = true.
Proof.
  destruct d, v as [[| |]| | | | | |]; simpl; try discriminate; auto;
    destruct b; auto.
Qed.

Lemma coerced_cells_numeric (col : Series) :
  well_typed col = true ->
  forallb numeric_cell (s_values (to_numeric_coerce col)) = true.
Proof.
  unfold well_typed, to_numeric_coerce. intros Hwt.
  destruct (is_numeric_dtype (s_dtype col)) eqn:Hn.
  - apply forallb_forall. intros v Hv.
    rewrite forallb_forall in Hwt. specialize (Hwt v Hv).
    destruct (s_dtype col); try discriminate;
      destruct v as [[| |]| | | | | |]; simpl in *; auto; discriminate.
  - destruct (is_datetime_or_timedelta_dtype (s_dtype col)) eqn:Hd; simpl.
    + apply forallb_forall. intros r Hr. apply in_map_iff in Hr.
      destruct Hr as (v & <- & Hv).
      rewrite forallb_forall in Hwt. specialize (Hwt v Hv).
      destruct (s_dtype col); try discriminate;
        destruct v as [[| |]| | | | | |]; simpl in *; auto; discriminate.
    + apply forallb_forall. intros r Hr. apply in_map_iff in Hr.
      destruct Hr as (w & <- & Hw). apply widen_numeric_cell.
      apply in_map_iff in Hw. destruct Hw as (v & <- & _).
      destruct v as [[| |]| | | | | |]; simpl; auto.
      destruct (parse_numeric s); reflexivity.
Qed.

(** X15: after a successful conversion to [Numeric] of a well-typed column
    with rows (or on a partitioned frame), the column is stored as numbers
    and every cell is a number, a boolean or nan: no string, timestamp or
    pair is left. *)
Theorem convert_numeric_cells (df : DataFrame) (column_id : string)
    (kw : kwargs) (col : Series) (df' : DataFrame) :
  get_column df column_id = Ok col ->
  is_dask df = true \/ s_values col <> [] ->
  well_typed col = true ->
  convert_variable_data df column_id Numeric kw = Ok df' ->
  exists col',
    get_column df' column_id = Ok col'
    /\ is_numeric_dtype (s_dtype col') = true
    /\ forallb numeric_cell (s_values col') = true.
Proof.
  intros Hcol Hne Hwt H.
  destruct (convert_numeric_result _ _ _ _ _ Hcol H) as [(Hd & He & _)| ->].
  - destruct Hne as [Hne|Hne]; [congruence|].
    rewrite (nonempty_len col Hne) in He. discriminate.
  - exists (to_numeric_coerce col). split; [apply get_set_same|].
    split; [apply to_numeric_coerce_numeric|now apply coerced_cells_numeric].
Qed.

(** X16: conversion to [Datetime] raises as soon as the column (with rows,
    or of a partitioned frame) holds a string that the timestamp parser
    rejects: the entry is not turned into a missing value. *)
Theorem convert_datetime_unparseable_raises (df : DataFrame)
    (column_id : string) (kw : kwargs) (col : Series) (s : string) :
  get_column df column_id = Ok col ->
  is_dask df = true \/ s_values col <> [] ->
  In (VStr s) (s_values col) ->
  parse_datetime (kwargs_get kw "format") s = None ->
  exists e, convert_variable_data df column_id Datetime kw = Err e.
Proof.
  intros Hcol Hne Hin Hp. unfold convert_variable_data. rewrite Hcol.
  assert (Hempty : (if is_dask df then Ok false
                    else col0 <- Ok col ;; Ok (s_len col0 =? 0)%nat)
                   = @Ok bool false).
  { destruct (is_dask df); [reflexivity|]. simpl.
    destruct Hne as [Hne|Hne]; [discriminate|].
    now rewrite (nonempty_len col Hne). }
  rewrite Hempty. cbn [bind vtype_eqb issubclass orb].
  unfold to_datetime.
  destruct (map_result_error (datetime_of (kwargs_get kw "format"))
              (s_values col) (VStr s) (ValueError "Unknown string format")
              Hin) as [e ->].
  - simpl. now rewrite Hp.
  - simpl. eauto.
Qed.




Lemma assoc_set_twice {A : Type} (k : string) (a b : A) (l : list (string * A)) :
  assoc_set k b (assoc_set k a l) = assoc_set k b l.
Proof.
  induction l as [|[k' a'] l IH]; simpl.
  - now rewrite String.eqb_refl.
  - destruct (String.eqb k k') eqn:E; simpl; rewrite E; [reflexivity|].
    now rewrite IH.
Qed.

Lemma boolean_cells_fixed (kw : kwargs) (vs : list value) :
  forallb is_number (map fst (map_dict kw)) = false ->
  let bs := map (fun v => VBool (truthy v)) vs in
  map (fun v => VBool (truthy v)) (map (map_cell (map_dict kw) bs) bs) = bs.
Proof.
  intros Hkeys bs. destruct vs as [|v0 vs]; [reflexivity|].
  assert (Hcmp : comparable (map fst (map_dict kw)) bs = true).
  { unfold comparable. rewrite Hkeys. subst bs. cbn [map forallb is_number].
    now rewrite !andb_false_r. }
  subst bs. rewrite !map_map. apply map_ext. intros v.
  unfold map_cell, index_lookup. rewrite Hcmp, map_dict_lookup.
  unfold boolean_lookup. destruct (truthy v); reflexivity.
Qed.

(** X18: conversion to [Boolean] is idempotent unless every key of the
    lookup is a number (as with the labels 1 and 0, which absorb the native
    booleans): converting the converted frame again, with the same keyword
    arguments, returns it unchanged, since the native booleans are then
    found and map to themselves. *)
Theorem convert_boolean_idempotent (df : DataFrame) (column_id : string)
    (kw : kwargs) (df1 : DataFrame) :
  forallb is_number (map fst (map_dict kw)) = false ->
  convert_variable_data df column_id Boolean kw = Ok df1 ->
  convert_variable_data df1 column_id Boolean kw = Ok df1.
Proof.
  intros Hkeys.
  assert (Hset : forall col,
    convert_variable_data
      (set_column df column_id (astype_bool (series_map (map_dict kw) col)))
      column_id Boolean kw
    = Ok (set_column df column_id (astype_bool (series_map (map_dict kw) col)))).
  { intros col. unfold convert_variable_data.
    change (is_dask (set_column df column_id
                       (astype_bool (series_map (map_dict kw) col))))
      with (is_dask df).
    rewrite get_set_same. cbn [bind].
    assert (Hagain :
      set_column
        (set_column df column_id (astype_bool (series_map (map_dict kw) col)))
        column_id
        (astype_bool (series_map (map_dict kw)
                        (astype_bool (series_map (map_dict kw) col))))
      = set_column df column_id (astype_bool (series_map (map_dict kw) col))).
    { unfold astype_bool, series_map, set_column. cbn [s_values columns kind].
      rewrite (boolean_cells_fixed kw
                 (map (map_cell (map_dict kw) (s_values col)) (s_values col))
                 Hkeys).
      now rewrite assoc_set_twice. }
    destruct (is_dask df); cbn [bind vtype_eqb issubclass orb].
    - now rewrite Hagain.
    - destruct (s_len _ =? 0)%nat; [reflexivity|].
      cbn [bind vtype_eqb issubclass orb]. now rewrite Hagain. }
  unfold convert_variable_data at 1.
  destruct (get_column df column_id) as [col|] eqn:Hcol.
  - destruct (is_dask df) eqn:Hd; cbn [bind vtype_eqb issubclass orb].
    + intros H. injection H as <-. apply Hset.
    + destruct (s_len col =? 0)%nat eqn:He.
      * intros H. injection H as <-.
        unfold convert_variable_data. rewrite Hd, Hcol. cbn [bind].
        now rewrite He.
      * cbn [bind vtype_eqb issubclass orb].
        intros H. injection H as <-. apply Hset.
  - destruct (is_dask df); cbn [bind vtype_eqb issubclass orb]; discriminate.
Qed.

End ConverterProperties.

(** ** Further properties of the driver and of [replace_latlong_nan] *)

Section DriverProperties.

Context {pd : Pandas} {pandas_types : PandasTypes}.

Lemma where_notnull_id (n : nat) (cells index : list value) :
  existsb isna cells = false -> where_notnull n index cells = cells.
Proof.
  revert index. induction cells as [|v vs IH]; intros index H; [reflexivity|].
  cbn [existsb] in H. apply orb_false_iff in H. destruct H as [Hv Hvs].
  cbn [where_notnull]. unfold notna at 1. rewrite Hv. cbn [negb]. f_equal.
  now apply IH.
Qed.

Lemma replace_latlong_nan_id (index : list value) (col : Series) :
  hasnans col = false -> replace_latlong_nan index col = col.
Proof.
  destruct col as [d vs]. unfold replace_latlong_nan, hasnans.
  cbn [s_values s_dtype]. intros H. rewrite H. f_equal.
  now apply where_notnull_id.
Qed.

Lemma where_notnull_nth (n : nat) (cells index : list value) (i : nat)
    (v : value) :
  nth_error cells i = Some v ->
  nth_error (where_notnull n index cells) i
  = Some (if notna v then v
          else match nth_error index i with
               | Some label =>
                   if in_fresh_index n label then VPair NNaN NNaN else VNaN
               | None => VNaN
               end).
Proof.
  revert index i. induction cells as [|c cs IH]; intros index i H.
  - destruct i; discriminate.
  - destruct i as [|i]; cbn [nth_error where_notnull] in *.
    + injection H as ->. destruct index; reflexivity.
    + rewrite (IH (tl index) i H). destruct index; [|reflexivity].
      simpl. now destruct i.
Qed.

Lemma where_notnull_again (n : nat) (cells index : list value) :
  where_notnull n index (where_notnull n index cells)
  = where_notnull n index cells.
Proof.
  revert index. induction cells as [|v vs IH]; intros index; [reflexivity|].
  cbn [where_notnull]. rewrite IH. f_equal.
  unfold notna. destruct (isna v) eqn:E; cbn [negb]; [|now rewrite E].
  destruct index as [|l ls]; [reflexivity|].
  destruct (in_fresh_index n l); reflexivity.
Qed.

(** X19: [replace_latlong_nan] keeps the number of rows and every
    non-missing cell.  A missing cell becomes the pair [(nan, nan)] where
    its row label is one of 0, ..., n-1, the labels of the fresh Series the
    source aligns with, and nan where it is not: under the default index no
    missing value is left behind, while a missing cell under any other
    label stays missing.  The function is idempotent. *)
Theorem replace_latlong_nan_fills (index : list value) (values : Series) :
  s_len (replace_latlong_nan index values) = s_len values
  /\ (forall i v, nth_error (s_values values) i = Some v ->
        nth_error (s_values (replace_latlong_nan index values)) i
        = Some (if notna v then v
                else match nth_error index i with
                     | Some label =>
                         if in_fresh_index (s_len values) label
                         then VPair NNaN NNaN else VNaN
                     | None => VNaN
                     end))
  /\ (index = default_index (s_len values) ->
      hasnans (replace_latlong_nan index values) = false)
  /\ (forall i v label,
        nth_error (s_values values) i = Some v -> isna v = true ->
        nth_error index i = Some label ->
        in_fresh_index (s_len values) label = false ->
        hasnans (replace_latlong_nan index values) = true)
  /\ replace_latlong_nan index (replace_latlong_nan index values)
     = replace_latlong_nan index values.
Proof.
  split; [|split; [|split; [|split]]].
  - unfold s_len, replace_latlong_nan. simpl. apply where_notnull_length.
  - intros i v Hv. unfold replace_latlong_nan. cbn [s_values].
    now apply where_notnull_nth.
  - intros ->. apply hasnans_replace.
  - intros i v label Hv Hna Hl Hout. unfold hasnans.
    apply existsb_exists. exists VNaN. split; [|reflexivity].
    apply (nth_error_In _ i). unfold replace_latlong_nan. cbn [s_values].
    rewrite (where_notnull_nth _ _ _ _ _ Hv), Hl, Hout.
    unfold notna. now rewrite Hna.
  - destruct (hasnans values) eqn:Hn.
    + unfold replace_latlong_nan at 1 3. unfold s_len.
      unfold replace_latlong_nan. rewrite Hn. cbn [s_values s_dtype].
      rewrite where_notnull_length, where_notnull_again.
      unfold s_len.
      match goal with |- context [if ?b then _ else _] => destruct b end;
        reflexivity.
    + now rewrite !(replace_latlong_nan_id index values Hn).
Qed.

Lemma about_app c evs evs' : about c (evs ++ evs') = about c evs ++ about c evs'.
Proof. apply filter_app. Qed.

Lemma about_others c c0 evs :
  c <> c0 -> Forall (fun e => event_column e = c0) evs -> about c evs = [].
Proof.
  intros Hne. induction 1 as [|ev evs Hev _ IH]; simpl; [reflexivity|].
  rewrite Hev. destruct (String.eqb c0 c) eqn:E; [|exact IH].
  apply String.eqb_eq in E. congruence.
Qed.

Lemma convert_item_about st c0 e0 st1 c :
  c <> c0 -> convert_item st (c0, e0) = Ok st1 ->
  is_dask (fst st1) = is_dask (fst st)
  /\ get_column (fst st1) c = get_column (fst st) c
  /\ about c (snd st1) = about c (snd st).
Proof.
  intros Hne H.
  destruct (convert_item_touches _ _ _ _ H) as [(D & _ & G & evs & E & F) _].
  split; [exact D|]. split; [now apply G|].
  rewrite E, about_app, (about_others c c0 evs Hne F). apply app_nil_r.
Qed.

Lemma convert_items_about items st st' c :
  convert_items st items = Ok st' ->
  ~ In c (map fst items) ->
  is_dask (fst st') = is_dask (fst st)
  /\ get_column (fst st') c = get_column (fst st) c
  /\ about c (snd st') = about c (snd st).
Proof.
  revert st. induction items as [|[c0 e0] rest IH]; intros st; simpl.
  - intros H _. injection H as <-. auto.
  - destruct (convert_item st (c0, e0)) as [st1|] eqn:E; simpl; [|discriminate].
    intros H Hnot.
    destruct (IH st1 H) as (D & G & A); [tauto|].
    destruct (convert_item_about st c0 e0 st1 c) as (D1 & G1 & A1); auto.
    repeat split; congruence.
Qed.

(** What the driver does to column [c] is what the step of its item does,
    on a state that holds the column as the frame given to the driver. *)
Lemma convert_items_at items st st' c e :
  NoDup (map fst items) ->
  In (c, e) items ->
  convert_items st items = Ok st' ->
  exists st0 st1,
    convert_item st0 (c, e) = Ok st1
    /\ is_dask (fst st0) = is_dask (fst st)
    /\ get_column (fst st0) c = get_column (fst st) c
    /\ about c (snd st0) = about c (snd st)
    /\ get_column (fst st') c = get_column (fst st1) c
    /\ about c (snd st') = about c (snd st1).
Proof.
  revert st. induction items as [|[c0 e0] rest IH]; intros st Hnd Hin;
    simpl; [contradiction|].
  simpl in Hnd. inversion Hnd as [|? ? Hnotin Hnd']; subst.
  destruct (convert_item st (c0, e0)) as [st1|] eqn:E; simpl; [|discriminate].
  intros H. destruct Hin as [Heq|Hin].
  - injection Heq as -> ->. exists st, st1.
    destruct (convert_items_about _ _ _ c H Hnotin) as (_ & G & A).
    repeat split; auto.
  - assert (Hne : c <> c0).
    { intros ->. apply Hnotin. apply (in_map fst) in Hin. exact Hin. }
    destruct (IH st1 Hnd' Hin H) as (st0 & st2 & Hs & D & G & A & G' & A').
    destruct (convert_item_about st c0 e0 st1 c Hne E) as (D1 & G1 & A1).
    exists st0, st2. repeat split; congruence.
Qed.

(** X20: the driver succeeds only if every identifier of the type
    assignment names a column of the frame; when the first one does not, the
    error is the LookupError. *)
Theorem driver_needs_columns (df : DataFrame)
    (variable_types : list (string * type_entry)) :
  (forall st', convert_all_variable_data df variable_types = Ok st' ->
     forall c, In c (map fst variable_types) -> has_key c (columns df) = true)
  /\ (forall c e rest,
        variable_types = (c, e) :: rest ->
        has_key c (columns df) = false ->
        convert_all_variable_data df variable_types
        = Err (LookupError "Variable ID not in DataFrame")).
Proof.
  split.
  - intros st' H c Hc. unfold convert_all_variable_data in H.
    destruct (convert_items_keys _ _ _ H) as [_ Hk]. now apply Hk.
  - intros c e rest -> Hk. unfold convert_all_variable_data. simpl.
    unfold convert_item. simpl. now rewrite Hk.
Qed.

Lemma convert_item_rows st c e st' c0 col0 :
  convert_item st (c, e) = Ok st' ->
  get_column (fst st) c0 = Ok col0 ->
  exists col1, get_column (fst st') c0 = Ok col1 /\ s_len col1 = s_len col0.
Proof.
  intros H Hcol0. destruct (String.eqb_spec c0 c) as [->|Hne].
  - rewrite convert_item_dispatch in H.
    rewrite (get_column_has_key _ _ _ Hcol0), Hcol0 in H. cbn [negb bind] in H.
    assert (Hconv : forall t kw,
              call_converter st c t kw = Ok st' ->
              exists col1, get_column (fst st') c = Ok col1
                           /\ s_len col1 = s_len col0).
    { intros t kw Hc. unfold call_converter in Hc.
      destruct (convert_variable_data (fst st) c t kw) as [df'|] eqn:E;
        simpl in Hc; [|discriminate].
      injection Hc as <-.
      exact (convert_variable_data_length _ _ _ _ _ _ Hcol0 E). }
    unfold item_body in H.
    destruct (entry_type e);
      try (injection H as <-; eauto; fail);
      try (destruct (negb _); [eapply Hconv; eauto|injection H as <-; eauto]).
    rewrite Hcol0 in H. cbn [bind] in H.
    destruct (negb (is_dask (fst st)) && hasnans col0); injection H as <-.
    + eexists. split; [apply get_set_same|].
      unfold s_len, replace_latlong_nan. simpl. apply where_notnull_length.
    + eauto.
  - destruct (convert_item_touches _ _ _ _ H) as [(_ & _ & G & _) _].
    exists col0. split; [|reflexivity]. now rewrite (G c0 Hne).
Qed.

Lemma convert_items_rows items st st' c0 col0 :
  convert_items st items = Ok st' ->
  get_column (fst st) c0 = Ok col0 ->
  exists col1, get_column (fst st') c0 = Ok col1 /\ s_len col1 = s_len col0.
Proof.
  revert st col0. induction items as [|[c e] rest IH]; intros st col0; simpl.
  - intros H. injection H as <-. eauto.
  - destruct (convert_item st (c, e)) as [st1|] eqn:E; simpl; [|discriminate].
    intros H Hcol0.
    destruct (convert_item_rows _ _ _ _ _ _ E Hcol0) as (col1 & H1 & L1).
    destruct (IH _ _ H H1) as (col2 & H2 & L2).
    exists col2. split; [exact H2|congruence].
Qed.

Lemma convert_items_events items st st' :
  convert_items st items = Ok st' ->
  exists evs, snd st' = snd st ++ evs
              /\ Forall (fun ev => In (event_column ev) (map fst items)) evs.
Proof.
  revert st. induction items as [|[c e] rest IH]; intros st; simpl.
  - intros H. injection H as <-. exists []. split; [now rewrite app_nil_r|constructor].
  - destruct (convert_item st (c, e)) as [st1|] eqn:E; simpl; [|discriminate].
    intros H. destruct (IH _ H) as (evs2 & E2 & F2).
    destruct (convert_item_touches _ _ _ _ E) as [(_ & _ & _ & evs1 & E1 & F1) _].
    exists (evs1 ++ evs2). split.
    + rewrite E2, E1. now rewrite app_assoc.
    + apply Forall_app. split.
      * eapply Forall_impl; [|exact F1]. intros ev Hev. now left.
      * eapply Forall_impl; [|exact F2]. intros ev Hev. now right.
Qed.

Lemma is_dask_kind df df' : is_dask df' = is_dask df -> kind df' = kind df.
Proof. unfold is_dask. destruct (kind df'), (kind df); congruence. Qed.

(** X21: a successful run of the driver keeps the kind of the frame, its
    column names and their order and the number of rows of every column; it
    leaves every column that the type assignment does not name as it was, and
    every call of the converter and every warning is about a column that the
    assignment names. *)
Theorem driver_frame (df : DataFrame)
    (variable_types : list (string * type_entry))
    (df1 : DataFrame) (events : list event) :
  convert_all_variable_data df variable_types = Ok (df1, events) ->
  kind df1 = kind df
  /\ map fst (columns df1) = map fst (columns df)
  /\ (forall c, ~ In c (map fst variable_types) ->
        get_column df1 c = get_column df c)
  /\ (forall c col, get_column df c = Ok col ->
        exists col1, get_column df1 c = Ok col1 /\ s_len col1 = s_len col)
  /\ Forall (fun ev => In (event_column ev) (map fst variable_types)) events.
Proof.
  unfold convert_all_variable_data. intros H.
  destruct (convert_items_keys _ _ _ H) as [K _].
  destruct (convert_items_events _ _ _ H) as (evs & E & F).
  simpl in E. subst events.
  split; [|split; [exact K|split; [|split; [|exact F]]]].
  - apply is_dask_kind.
    destruct variable_types as [|[c e] rest].
    + simpl in H. now injection H as <-.
    + clear K F. revert H. generalize ((c, e) :: rest). intros items.
      generalize (@nil event). revert df.
      induction items as [|[c0 e0] items IH]; intros df evs0; simpl.
      * intros H. now injection H as <-.
      * destruct (convert_item (df, evs0) (c0, e0)) as [[df2 evs2]|] eqn:E0;
          simpl; [|discriminate].
        intros H. rewrite (IH _ _ H).
        destruct (convert_item_touches _ _ _ _ E0) as [(D & _) _]. exact D.
  - intros c Hc. now destruct (convert_items_about _ _ _ c H Hc) as (_ & G & _).
  - intros c col Hcol. exact (convert_items_rows _ _ _ c col H Hcol).
Qed.

(** X22: on a frame held in memory whose rows carry the default labels
    0, ..., n-1, after the driver a column that the assignment types as
    [LatLong] holds [replace_latlong_nan] of what it held under these
    labels, so no missing value; and the warning about it is in the log
    exactly when it held a missing value.  (Under other row labels a missing
    cell can stay missing: see [replace_latlong_nan].) *)
Theorem driver_latlong_column (df : DataFrame)
    (variable_types : list (string * type_entry)) (c : string)
    (e : type_entry) (col : Series) (df1 : DataFrame) (events : list event) :
  is_dask df = false ->
  NoDup (map fst variable_types) ->
  In (c, e) variable_types ->
  entry_type e = LatLong ->
  get_column df c = Ok col ->
  convert_all_variable_data df variable_types = Ok (df1, events) ->
  let index := default_index (s_len col) in
  get_column df1 c = Ok (replace_latlong_nan index col)
  /\ hasnans (replace_latlong_nan index col) = false
  /\ (In (Warned c) events <-> hasnans col = true).
Proof.
  intros Hd Hnd Hin Ht Hcol H index. subst index.
  unfold convert_all_variable_data in H.
  destruct (convert_items_at _ _ _ _ _ Hnd Hin H)
    as (st0 & st1 & Hs & D & G & A & G' & A').
  simpl in D, G, A, G', A'.
  rewrite Hcol in G. rewrite Hd in D.
  rewrite convert_item_dispatch in Hs.
  rewrite (get_column_has_key _ _ _ G), G in Hs. cbn [negb bind] in Hs.
  rewrite Ht in Hs. unfold item_body in Hs. rewrite G, D in Hs.
  cbn [negb bind andb] in Hs.
  assert (Hin_about : forall evs, In (Warned c) evs <-> In (Warned c) (about c evs)).
  { intros evs. unfold about. rewrite filter_In. simpl.
    rewrite String.eqb_refl. tauto. }
  split; [|split; [apply hasnans_replace|]].
  - destruct (hasnans col) eqn:Hn; injection Hs as <-; simpl in G'.
    + rewrite G'. apply get_set_same.
    + rewrite G', G. now rewrite replace_latlong_nan_id.
  - rewrite Hin_about, A'.
    destruct (hasnans col) eqn:Hn; injection Hs as <-; simpl.
    + rewrite about_app, A. simpl. rewrite String.eqb_refl. simpl.
      split; auto.
    + rewrite A. simpl. split; [tauto|discriminate].
Qed.

Lemma convert_numeric_lossy (df : DataFrame) (c : string) (kw : kwargs)
    (col : Series) :
  is_dask df = false ->
  get_column df c = Ok col ->
  well_typed col = true -> s_values col <> [] -> non_numeric_strings col ->
  convert_variable_data df c Numeric kw
  = Err (TypeError "Attempted to convert all string column to numeric").
Proof.
  intros Hd Hcol Hwt Hne Hs.
  assert (Hstr : Forall (fun v => exists s, v = VStr s) (s_values col)).
  { eapply Forall_impl; [|exact Hs]. intros v [s [-> _]]. eauto. }
  destruct (strings_storage col Hwt Hne Hstr) as [Hn Hdt].
  destruct (non_numeric_coerced col Hn Hdt Hs) as [H0 H1].
  unfold convert_variable_data. rewrite Hd, Hcol. simpl.
  assert (Hlen : (s_len col =? 0)%nat = false).
  { apply Nat.eqb_neq. unfold s_len. intros E.
    apply length_zero_iff_nil in E. contradiction. }
  rewrite Hlen, H0, H1, Hlen. reflexivity.
Qed.

(** X23: on a frame held in memory the driver never returns a frame in
    which a column of non-numeric strings typed [Numeric] has been blanked:
    when the assignment types such a column (with rows, not in a numeric
    storage the driver skips) as [Numeric], the driver does not succeed. *)
Theorem driver_refuses_lossy_numeric (df : DataFrame)
    (variable_types : list (string * type_entry)) (c : string)
    (e : type_entry) (col : Series) :
  is_dask df = false ->
  NoDup (map fst variable_types) ->
  In (c, e) variable_types ->
  entry_type e = Numeric ->
  get_column df c = Ok col ->
  name_in (dtype_name (s_dtype col)) _pandas_numerics = false ->
  well_typed col = true -> s_values col <> [] -> non_numeric_strings col ->
  forall st', convert_all_variable_data df variable_types <> Ok st'.
Proof.
  intros Hd Hnd Hin Ht Hcol Hname Hwt Hne Hs st' H.
  unfold convert_all_variable_data in H.
  destruct (convert_items_at _ _ _ _ _ Hnd Hin H)
    as (st0 & st1 & Hst & D & G & _).
  simpl in D, G. rewrite Hcol in G. rewrite Hd in D.
  rewrite convert_item_dispatch in Hst.
  rewrite (get_column_has_key _ _ _ G), G in Hst. cbn [negb bind] in Hst.
  rewrite Ht in Hst. unfold item_body in Hst. rewrite Hname in Hst.
  cbn [negb] in Hst. unfold call_converter in Hst.
  rewrite (convert_numeric_lossy _ c (entry_args e) col D G Hwt Hne Hs) in Hst.
  discriminate.
Qed.

End DriverProperties.

(** ** Further properties of the statistics *)

Section StatisticsProperties.

Context {pd : Pandas}.

Ltac through_sets :=
  repeat (rewrite assoc_set_other by discriminate);
  try rewrite assoc_set_same.


(** The columns of a frame after [reset_index]: its own, kept as they
    are, and the row labels under a name that was free. *)
Lemma reset_index_column data reset c col :
  reset_index data = Ok reset ->
  get_column data c = Ok col -> get_column reset c = Ok col.
Proof.
  unfold reset_index.
  set (name := if has_key "index" (columns data) then "level_0" else "index").
  destruct (has_key name (columns data)) eqn:Hn; [discriminate|].
  intros H Hcol. injection H as <-. unfold get_column. cbn [columns assoc].
  destruct (String.eqb c name) eqn:E.
  - apply String.eqb_eq in E. subst c.
    rewrite (get_column_has_key _ _ _ Hcol) in Hn. discriminate.
  - exact Hcol.
Qed.




Lemma filter_notna_isna (l : list value) :
  (List.length (filter notna l) + List.length (filter isna l))%nat
  = List.length l.
Proof.
  induction l as [|v l IH]; simpl; [reflexivity|].
  unfold notna at 1. destruct (isna v); simpl; lia.
Qed.

Lemma astype_float_length (s k : Series) :
  astype_float s = Ok k -> s_len k = s_len s.
Proof.
  unfold astype_float, s_len.
  destruct (map_result float_of (s_values s)) as [vs|] eqn:E;
    simpl; [|discriminate].
  intros H. injection H as <-. simpl. eapply map_result_length; eauto.
Qed.

Lemma prepared_length t col column :
  prepared t col column -> s_len column = s_len col.
Proof.
  destruct t; simpl; intros H; subst; try reflexivity.
  - unfold s_len, astype_bool. simpl. apply length_map.
  - now apply astype_float_length.
  - eapply to_datetime_length; eauto.
Qed.

(** The common part of the statistics of one column. *)
Lemma column_statistics_common_part data c t values common' col :
  column_statistics data ["count"; "nunique"] c t = Ok (values, common') ->
  get_column data c = Ok col ->
  exists column,
    prepared t col column
    /\ assoc "count" values = Some (count_of column)
    /\ assoc "nunique" values
       = Some (SNumber (NInt (Z.of_nat (nunique column))))
    /\ assoc "nan_count" values
       = Some (SNumber (NInt (Z.of_nat
                 (List.length (filter isna (s_values column))))))
    /\ assoc "variable_type" values = Some (SString (type_string t)).
Proof.
  unfold column_statistics. intros H Hcol.
  destruct (reset_index data) as [reset|] eqn:Hreset; [|discriminate].
  cbn [bind] in H.
  rewrite (reset_index_column _ _ _ _ Hreset Hcol) in H. cbn [bind] in H.
  destruct t; cbn [vtype_eqb issubclass orb bind] in H;
    [ exists col
    | exists (astype_bool col)
    | destruct (astype_float col) as [column|] eqn:E; cbn [bind] in H;
      [exists column|discriminate]
    | destruct (to_datetime None col) as [column|] eqn:E; cbn [bind] in H;
      [exists column|discriminate]
    | exists (astype_category col)
    | exists (astype_category col)
    | exists (astype_category col)
    | exists col ];
    (split; [first [reflexivity|exact E]|]);
    unfold isinstance_of_class in H; cbn [bind fst snd] in H;
    injection H as <- _;
    match goal with
    | |- context [mode ?vs] => destruct (mode vs)
    end;
    repeat split; through_sets;
    unfold update, agg; cbn [map fold_left fst snd]; through_sets;
    reflexivity.
Qed.

(** X25: in the statistics of a column, of whatever type, [count] and
    [nan_count] add up to the number of rows of the column, and [nunique] is
    at most [count]. *)
Theorem statistics_counts (data : stats_input)
    (variable_types : list (string * vtype))
    (statistics : list (string * list (string * stat)))
    (c : string) (t : vtype) (df : DataFrame) (col : Series) :
  NoDup (map fst variable_types) ->
  In (c, t) variable_types ->
  generate_statistics data variable_types = Ok statistics ->
  frame_of data = Some df ->
  get_column df c = Ok col ->
  exists values n m u,
    assoc c statistics = Some values
    /\ assoc "count" values = Some (SNumber (NInt (Z.of_nat n)))
    /\ assoc "nan_count" values = Some (SNumber (NInt (Z.of_nat m)))
    /\ assoc "nunique" values = Some (SNumber (NInt (Z.of_nat u)))
    /\ (n + m)%nat = s_len col
    /\ (u <= n)%nat.
Proof.
  intros Hnd Hin Hgen Hdf Hcol.
  destruct (generate_statistics_entry _ _ _ _ _ Hnd Hin Hgen)
    as (df' & values & Hdf' & Hstat & Hassoc).
  rewrite Hdf in Hdf'. injection Hdf' as <-.
  destruct (column_statistics_common_part _ _ _ _ _ _ Hstat Hcol)
    as (column & Hprep & Hcount & Hnunique & Hnan & _).
  exists values, (count_nonnull column),
         (List.length (filter isna (s_values column))), (nunique column).
  repeat (split; [assumption|]). split.
  - rewrite <- (prepared_length _ _ _ Hprep). unfold count_nonnull, s_len.
    apply filter_notna_isna.
  - unfold nunique. apply (unique_le_len (dropna column)).
Qed.



Lemma Qmin_lower (x y : Q) : Qmin x y <= x /\ Qmin x y <= y.
Proof.
  unfold Qmin. destruct (Qle_bool x y) eqn:E.
  - apply Qle_bool_iff in E. split; [apply Qle_refl|exact E].
  - split; [|apply Qle_refl].
    apply Qlt_le_weak, Qnot_le_lt. intros H.
    apply Qle_bool_iff in H. congruence.
Qed.

Lemma Qmax_upper (x y : Q) : x <= Qmax x y /\ y <= Qmax x y.
Proof.
  unfold Qmax. destruct (Qle_bool x y) eqn:E.
  - apply Qle_bool_iff in E. split; [exact E|apply Qle_refl].
  - split; [apply Qle_refl|].
    apply Qlt_le_weak, Qnot_le_lt. intros H.
    apply Qle_bool_iff in H. congruence.
Qed.

Lemma fold_min_lower (xs : list Q) (x y : Q) :
  In y (x :: xs) -> fold_left Qmin xs x <= y.
Proof.
  revert x y. induction xs as [|a xs IH]; intros x y; simpl.
  - intros [->|[]]. apply Qle_refl.
  - intros [->|[->|Hin]].
    + apply Qle_trans with (Qmin y a);
        [apply IH; now left|apply Qmin_lower].
    + apply Qle_trans with (Qmin x y);
        [apply IH; now left|apply Qmin_lower].
    + apply IH. now right.
Qed.

Lemma fold_max_upper (xs : list Q) (x y : Q) :
  In y (x :: xs) -> y <= fold_left Qmax xs x.
Proof.
  revert x y. induction xs as [|a xs IH]; intros x y; simpl.
  - intros [->|[]]. apply Qle_refl.
  - intros [->|[->|Hin]].
    + apply Qle_trans with (Qmax y a);
        [apply Qmax_upper|apply IH; now left].
    + apply Qle_trans with (Qmax x y);
        [apply Qmax_upper|apply IH; now left].
    + apply IH. now right.
Qed.

Lemma fold_min_in (xs : list Q) (x : Q) : In (fold_left Qmin xs x) (x :: xs).
Proof.
  revert x. induction xs as [|a xs IH]; intros x; simpl; [now left|].
  destruct (IH (Qmin x a)) as [H|H]; [|now right; right].
  rewrite <- H. unfold Qmin. destruct (Qle_bool x a); auto.
Qed.

Lemma fold_max_in (xs : list Q) (x : Q) : In (fold_left Qmax xs x) (x :: xs).
Proof.
  revert x. induction xs as [|a xs IH]; intros x; simpl; [now left|].
  destruct (IH (Qmax x a)) as [H|H]; [|now right; right].
  rewrite <- H. unfold Qmax. destruct (Qle_bool x a); auto.
Qed.

Lemma column_statistics_numeric data c values common' col :
  column_statistics data ["count"; "nunique"] c Numeric = Ok (values, common') ->
  get_column data c = Ok col ->
  exists floats,
    astype_float col = Ok floats
    /\ assoc "max" values = Some (numeric_agg "max" floats)
    /\ assoc "min" values = Some (numeric_agg "min" floats)
    /\ assoc "mean" values = Some (numeric_agg "mean" floats).
Proof.
  unfold column_statistics. intros H Hcol.
  destruct (reset_index data) as [reset|] eqn:Hreset; [|discriminate].
  cbn [bind] in H.
  rewrite (reset_index_column _ _ _ _ Hreset Hcol) in H.
  cbn [bind vtype_eqb] in H.
  destruct (astype_float col) as [floats|] eqn:E; cbn [bind] in H;
    [|discriminate].
  exists floats. split; [reflexivity|].
  unfold isinstance_of_class in H. cbn [bind fst snd] in H.
  injection H as <- _.
  destruct (mode (s_values floats));
    repeat split; through_sets;
    unfold update, agg, NUMERIC_STATISTICS; cbn [map fold_left fst snd];
    through_sets; reflexivity.
Qed.

(** X27: in the statistics of a column typed [Numeric] that holds at
    least one number, [min] and [max] are numbers of the column read as
    floats, and every number of the column lies between them. *)
Theorem statistics_numeric_order (data : stats_input)
    (variable_types : list (string * vtype))
    (statistics : list (string * list (string * stat)))
    (c : string) (df : DataFrame) (col floats : Series) :
  NoDup (map fst variable_types) ->
  In (c, Numeric) variable_types ->
  generate_statistics data variable_types = Ok statistics ->
  frame_of data = Some df ->
  get_column df c = Ok col ->
  astype_float col = Ok floats ->
  numbers_of floats <> [] ->
  exists values lo hi,
    assoc c statistics = Some values
    /\ assoc "min" values = Some (SNumber (NFloat lo))
    /\ assoc "max" values = Some (SNumber (NFloat hi))
    /\ (exists a b, In a (numbers_of floats) /\ In b (numbers_of floats)
                    /\ lo == a /\ hi == b)
    /\ forall x, In x (numbers_of floats) -> lo <= x /\ x <= hi.
Proof.
  intros Hnd Hin Hgen Hdf Hcol Hfl Hne.
  destruct (generate_statistics_entry _ _ _ _ _ Hnd Hin Hgen)
    as (df' & values & Hdf' & Hstat & Hassoc).
  rewrite Hdf in Hdf'. injection Hdf' as <-.
  destruct (column_statistics_numeric _ _ _ _ _ Hstat Hcol)
    as (floats' & Hfl' & Hmax & Hmin & _).
  rewrite Hfl in Hfl'. injection Hfl' as <-.
  unfold numeric_agg in Hmax, Hmin.
  cbn [String.eqb Ascii.eqb Bool.eqb] in Hmax, Hmin.
  destruct (numbers_of floats) as [|x xs] eqn:Exs; [congruence|].
  cbn [reduce float_or_nan] in Hmax, Hmin.
  exists values. do 2 eexists.
  split; [exact Hassoc|]. split; [exact Hmin|]. split; [exact Hmax|].
  split.
  - exists (fold_left Qmin xs x), (fold_left Qmax xs x).
    split; [apply fold_min_in|]. split; [apply fold_max_in|].
    split; apply Qred_correct.
  - intros y Hy. rewrite !Qred_correct. split.
    + now apply fold_min_lower.
    + now apply fold_max_upper.
Qed.

Lemma map_result_each {A B : Type} (f : A -> result B) (l : list A) bs a :
  map_result f l = Ok bs -> In a l -> exists b, f a = Ok b.
Proof.
  revert bs. induction l as [|x l IH]; intros bs; simpl; [tauto|].
  destruct (f x) as [b|] eqn:E; simpl; [|discriminate].
  destruct (map_result f l) as [bs'|]; simpl; [|discriminate].
  intros _ [<-|Hin]; [eauto|]. now apply (IH bs').
Qed.

(** X28: [generate_statistics] succeeds on a column typed [Numeric] only
    if every string in it is one that the cast to float accepts: one string
    that is not makes the whole call raise. *)
Theorem statistics_numeric_needs_numbers (data : stats_input)
    (variable_types : list (string * vtype))
    (statistics : list (string * list (string * stat)))
    (c : string) (df : DataFrame) (col : Series) :
  NoDup (map fst variable_types) ->
  In (c, Numeric) variable_types ->
  generate_statistics data variable_types = Ok statistics ->
  frame_of data = Some df ->
  get_column df c = Ok col ->
  forall s, In (VStr s) (s_values col) -> parse_float s <> None.
Proof.
  intros Hnd Hin Hgen Hdf Hcol s Hs.
  destruct (generate_statistics_entry _ _ _ _ _ Hnd Hin Hgen)
    as (df' & values & Hdf' & Hstat & Hassoc).
  rewrite Hdf in Hdf'. injection Hdf' as <-.
  destruct (column_statistics_numeric _ _ _ _ _ Hstat Hcol)
    as (floats & Hfl & _).
  unfold astype_float in Hfl.
  destruct (map_result float_of (s_values col)) as [vs|] eqn:E;
    simpl in Hfl; [|discriminate].
  destruct (map_result_each _ _ _ _ E Hs) as [b Hb].
  simpl in Hb. destruct (parse_float s); [discriminate|discriminate Hb].
Qed.

(** The statistics of a column depend on that column and its type
    only: they are what [generate_statistics] returns when the type
    assignment names that column alone. *)
Lemma statistics_independent (data : stats_input)
    (variable_types : list (string * vtype))
    (statistics : list (string * list (string * stat)))
    (c : string) (t : vtype) :
  NoDup (map fst variable_types) ->
  In (c, t) variable_types ->
  generate_statistics data variable_types = Ok statistics ->
  exists values,
    assoc c statistics = Some values
    /\ generate_statistics data [(c, t)] = Ok [(c, values)].
Proof.
  intros Hnd Hin Hgen.
  destruct (generate_statistics_entry _ _ _ _ _ Hnd Hin Hgen)
    as (df & values & Hdf & Hstat & Hassoc).
  exists values. split; [exact Hassoc|].
  unfold generate_statistics.
  destruct data as [|df0|df0]; simpl in Hdf; [discriminate| |];
    injection Hdf as <-; simpl; rewrite Hstat; reflexivity.
Qed.

End StatisticsProperties.

(** ** Properties of [get_linked_vars] *)

Section LinkedProperties.

Context {pd : Pandas}.

Lemma linked_vars_member (entity : Entity) (rel : Relationship)
    (v : variable_ref) :
  In rel (entityset_relationships entity) ->
  parent_entity_id rel = e_id entity \/ child_entity_id rel = e_id entity ->
  v = parent_variable rel \/ v = child_variable rel ->
  v_entity_id v = e_id entity ->
  In (v_id v) (get_linked_vars entity).
Proof.
  intros Hin Hrel Hv He. unfold get_linked_vars.
  apply in_flat_map. exists rel. split.
  - apply filter_In. split; [exact Hin|].
    apply orb_true_iff.
    destruct Hrel as [H|H]; rewrite H, String.eqb_refl; auto.
  - apply in_map. apply filter_In. split.
    + simpl. destruct Hv as [->| ->]; auto.
    + rewrite He. apply String.eqb_refl.
Qed.

(** X29: when every relationship names the entities of its own variables,
    [get_linked_vars] returns the identifiers of all the variables of the
    entity that the relationships mention, in order and with repetitions:
    selecting the relationships of the entity first changes nothing, and no
    variable of another entity is returned. *)
Theorem linked_vars_are_the_entity_variables (entity : Entity) :
  consistent_relationships entity ->
  get_linked_vars entity
  = map v_id (filter (fun v => String.eqb (v_entity_id v) (e_id entity))
                     (related_variables entity)).
Proof.
  unfold consistent_relationships, get_linked_vars, related_variables.
  induction 1 as [|r rels [Hp Hc] _ IH]; [reflexivity|].
  cbn [filter flat_map]. rewrite filter_app, map_app, <- IH.
  rewrite <- Hp, <- Hc.
  destruct (String.eqb (v_entity_id (parent_variable r)) (e_id entity)) eqn:E1;
    destruct (String.eqb (v_entity_id (child_variable r)) (e_id entity)) eqn:E2;
    cbn [orb flat_map filter map app]; rewrite ?E1, ?E2; reflexivity.
Qed.

(** X30: a column named after a variable of the entity that takes part in
    one of its relationships, when [get_linked_vars] supplies the linked
    columns, is inferred as [Categorical] unless it has an explicit type or
    is assumed to be a time index. *)
Theorem linked_variable_inferred_categorical (entity : Entity)
    (rel : Relationship) (v : variable_ref) (df : DataFrame)
    (variable_types : list (string * type_entry)) (time_index : option string)
    (secondary : list (string * list string))
    (res : list (string * vtype)) (col : Series) :
  In rel (entityset_relationships entity) ->
  parent_entity_id rel = e_id entity \/ child_entity_id rel = e_id entity ->
  v = parent_variable rel \/ v = child_variable rel ->
  v_entity_id v = e_id entity ->
  is_dask df = false ->
  NoDup (map fst (columns df)) ->
  In (v_id v, col) (columns df) ->
  has_key (v_id v) variable_types = false ->
  vid_in (v_id v) (vids_to_assume_datetime time_index secondary) = false ->
  infer_variable_types df (get_linked_vars entity) variable_types time_index
                       secondary = Ok res ->
  assoc (v_id v) res = Some Categorical.
Proof.
  intros Hin Hrel Hv He Hd Hnd Hcol Hk Hvid Hres.
  destruct (infer_entry _ _ _ _ _ _ _ _ Hd Hnd Hcol Hk Hres)
    as (prev & t & Hr & Ha).
  assert (Hl : name_in (v_id v) (get_linked_vars entity) = true).
  { unfold name_in. apply existsb_exists. exists (v_id v).
    split; [now apply linked_vars_member with rel|apply String.eqb_refl]. }
  unfold infer_rules in Hr. rewrite Hvid, Hl in Hr.
  rewrite Ha. now injection Hr as <-.
Qed.

End LinkedProperties.

(** ** The further properties at concrete inputs *)

Lemma toy_events_nodup : NoDup (map fst (columns Toy.events_frame)).
Proof. repeat constructor; simpl; intuition discriminate. Defined.

Lemma toy_events_inferred :
  infer_variable_types (pd := Toy.pandas) Toy.events_frame ["user_id"]
    [("amount", Bare Numeric)] (Some "when") [] = Ok Toy.events_types.
Proof. reflexivity. Defined.

Lemma infer_time_index_first_witness :
  vid_in "when" (vids_to_assume_datetime (Some "when") []) = true
  /\ assoc "when" Toy.events_types = Some Datetime.
Proof.
  split; [reflexivity|].
  exact (infer_time_index_first (pd := Toy.pandas) Toy.events_frame ["user_id"]
           [("amount", Bare Numeric)] (Some "when") [] Toy.events_types
           "when" Toy.dates eq_refl toy_events_nodup (or_introl eq_refl)
           eq_refl eq_refl toy_events_inferred).
Defined.

Lemma infer_linked_categorical_witness :
  name_in "user_id" ["user_id"] = true
  /\ assoc "user_id" Toy.events_types = Some Categorical.
Proof.
  split; [reflexivity|].
  apply (infer_linked_categorical (pd := Toy.pandas) Toy.events_frame
           ["user_id"] [("amount", Bare Numeric)] (Some "when") []
           Toy.events_types "user_id"
           (mkSeries DInt64 [VNum (NInt 1); VNum (NInt 2); VNum (NInt 1)]));
    try reflexivity.
  - exact toy_events_nodup.
  - simpl. tauto.
Defined.

Lemma infer_by_storage_witness :
  storage_type DBool = Some Boolean
  /\ assoc "flag" Toy.events_types = Some Boolean.
Proof.
  split; [reflexivity|].
  apply (infer_by_storage (pd := Toy.pandas) Toy.events_frame
           ["user_id"] [("amount", Bare Numeric)] (Some "when") []
           Toy.events_types "flag"
           (mkSeries DBool [VBool true; VBool false; VBool true]));
    try reflexivity.
  - exact toy_events_nodup.
  - simpl. tauto.
Defined.

Lemma infer_keys_witness :
  map fst Toy.events_types = ["when"; "user_id"; "zip"; "flag"].
Proof.
  exact (infer_keys (pd := Toy.pandas) Toy.events_frame ["user_id"]
           [("amount", Bare Numeric)] (Some "when") [] Toy.events_types
           eq_refl toy_events_nodup toy_events_inferred).
Defined.

Lemma infer_never_latlong_witness :
  Forall (fun kt => inferable (snd kt) = true) Toy.events_types.
Proof.
  exact (infer_never_latlong (pd := Toy.pandas) Toy.events_frame ["user_id"]
           [("amount", Bare Numeric)] (Some "when") [] Toy.events_types
           toy_events_inferred).
Defined.

Lemma infer_nonempty_known_witness :
  exists t, assoc "zip" Toy.events_types = Some t /\ t <> Unknown.
Proof.
  apply (infer_nonempty_known (pd := Toy.pandas) Toy.events_frame
           ["user_id"] [("amount", Bare Numeric)] (Some "when") []
           Toy.events_types "zip"
           (mkSeries DObject [VStr "90210"; VStr "10001"; VStr "90210"]));
    try reflexivity.
  - exact toy_events_nodup.
  - simpl. tauto.
  - discriminate.
Defined.

Lemma infer_never_raises_witness :
  exists res,
    infer_variable_types (pd := Toy.pandas) Toy.events_frame ["user_id"]
      [("amount", Bare Numeric)] (Some "when") [] = Ok res.
Proof.
  exact (infer_never_raises (pd := Toy.pandas) Toy.events_frame ["user_id"]
           [("amount", Bare Numeric)] (Some "when") []
           toy_sampler_sized eq_refl).
Defined.

Lemma infer_digit_strings_not_datetime_witness :
  exists t, assoc "zip" Toy.events_types = Some t /\ t <> Datetime
            /\ (vid_in "zip" (vids_to_assume_datetime (Some "when") []) = true ->
                t = Numeric).
Proof.
  apply (infer_digit_strings_not_datetime (pd := Toy.pandas) Toy.events_frame
           ["user_id"] [("amount", Bare Numeric)] (Some "when") []
           Toy.events_types "zip"
           (mkSeries DObject [VStr "90210"; VStr "10001"; VStr "90210"]));
    try reflexivity.
  - exact toy_parser_reads_digits.
  - exact toy_events_nodup.
  - simpl. tauto.
  - discriminate.
  - unfold digit_strings. simpl.
    repeat constructor; eexists; split; reflexivity.
Defined.

Lemma detector_on_empty_column_witness :
  s_values Toy.no_rows = []
  /\ col_is_datetime (pd := Toy.pandas) Toy.no_rows = false.
Proof.
  split; [reflexivity|].
  exact (detector_on_empty_column (pd := Toy.pandas) Toy.no_rows eq_refl).
Defined.

Lemma detector_accepts_date_strings_witness :
  col_is_datetime (pd := Toy.pandas) Toy.dates = true.
Proof.
  apply (detector_accepts_date_strings (pd := Toy.pandas) Toy.dates).
  - reflexivity.
  - unfold date_strings. simpl.
    apply Forall_cons; [|apply Forall_cons; [|apply Forall_cons; [|apply Forall_nil]]].
    + right. eexists. split; [reflexivity|discriminate].
    + left. reflexivity.
    + right. eexists. split; [reflexivity|discriminate].
  - unfold has_non_numeric_string. simpl.
    apply Exists_cons_hd. eexists. split; reflexivity.
Defined.

Lemma convert_empty_column_noop_witness :
  s_values Toy.no_rows = []
  /\ convert_variable_data (pd := Toy.pandas) Toy.no_rows_frame "x" LatLong []
     = Ok Toy.no_rows_frame.
Proof.
  split; [reflexivity|].
  exact (convert_empty_column_noop (pd := Toy.pandas) Toy.no_rows_frame "x"
           LatLong [] Toy.no_rows eq_refl eq_refl eq_refl).
Defined.

Lemma convert_other_types_witness :
  convert_variable_data (pd := Toy.pandas) Toy.words_frame "x" LatLong []
  = Err (PyException "Cannot convert column").
Proof.
  apply (convert_other_types (pd := Toy.pandas) Toy.words_frame "x" LatLong []
           Toy.words); try discriminate.
  - reflexivity.
  - right. discriminate.
Defined.

Lemma convert_touches_one_column_witness :
  convert_variable_data (pd := Toy.pandas) Toy.typed_frame "n" Numeric []
  = Ok Toy.typed_frame_converted
  /\ map fst (columns Toy.typed_frame_converted)
     = map fst (columns Toy.typed_frame)
  /\ get_column Toy.typed_frame_converted "c" = get_column Toy.typed_frame "c".
Proof.
  split; [reflexivity|].
  destruct (convert_touches_one_column (pd := Toy.pandas) Toy.typed_frame "n"
              Numeric [] Toy.typed_frame_converted eq_refl)
    as (_ & Hk & Hother & _).
  split; [exact Hk|]. apply Hother. discriminate.
Defined.

Lemma convert_numeric_dask_unguarded_witness :
  is_dask Toy.lazy_words_frame = true
  /\ convert_variable_data (pd := Toy.pandas) Toy.lazy_words_frame "x" Numeric []
     = Ok (set_column Toy.lazy_words_frame "x"
                      (to_numeric_coerce (pd := Toy.pandas) Toy.words))
  /\ count_nonnull (to_numeric_coerce (pd := Toy.pandas) Toy.words) = 0%nat.
Proof.
  split; [reflexivity|].
  destruct (convert_numeric_dask_unguarded (pd := Toy.pandas)
              Toy.lazy_words_frame "x" [] Toy.words eq_refl eq_refl)
    as [Hok Hblank].
  split; [exact Hok|].
  apply Hblank; [reflexivity|discriminate|].
  unfold non_numeric_strings. simpl.
  repeat constructor; eexists; split; reflexivity.
Defined.

Lemma convert_numeric_cells_witness :
  exists col',
    get_column (set_column Toy.mixed_frame "x"
                  (to_numeric_coerce (pd := Toy.pandas) Toy.mixed)) "x"
    = Ok col'
    /\ is_numeric_dtype (s_dtype col') = true
    /\ forallb numeric_cell (s_values col') = true.
Proof.
  apply (convert_numeric_cells (pd := Toy.pandas) Toy.mixed_frame "x" []
           Toy.mixed); try reflexivity.
  right. discriminate.
Defined.

Lemma convert_datetime_unparseable_raises_witness :
  In (VStr "abc") (s_values Toy.words)
  /\ exists e,
       convert_variable_data (pd := Toy.pandas) Toy.words_frame "x" Datetime []
       = Err e.
Proof.
  assert (Hin : In (VStr "abc") (s_values Toy.words)) by (simpl; tauto).
  split; [exact Hin|].
  apply (convert_datetime_unparseable_raises (pd := Toy.pandas)
           Toy.words_frame "x" [] Toy.words "abc");
    [reflexivity|right; discriminate|exact Hin|reflexivity].
Defined.


Lemma convert_boolean_idempotent_witness :
  (forallb is_number (map fst (map_dict Toy.flags_labels)) = false
   /\ convert_variable_data (pd := Toy.pandas) Toy.flags_frame "flag" Boolean
                            Toy.flags_labels
      = Ok (mkFrame PandasFrame
              [("flag", mkSeries DBool [VBool true; VBool false; VBool true])]))
  /\ convert_variable_data (pd := Toy.pandas)
       (mkFrame PandasFrame
          [("flag", mkSeries DBool [VBool true; VBool false; VBool true])])
       "flag" Boolean Toy.flags_labels
     = Ok (mkFrame PandasFrame
             [("flag", mkSeries DBool [VBool true; VBool false; VBool true])]).
Proof.
  split; [split; reflexivity|].
  exact (convert_boolean_idempotent (pd := Toy.pandas) Toy.flags_frame "flag"
           Toy.flags_labels _ eq_refl eq_refl).
Defined.

Lemma toy_typed_nodup : NoDup (map fst Toy.typed_assignment).
Proof. repeat constructor; simpl; intuition discriminate. Defined.

Lemma toy_typed_converted :
  convert_all_variable_data (pd := Toy.pandas)
    (pandas_types := Toy.pandas_types) Toy.typed_frame Toy.typed_assignment
  = Ok (Toy.typed_frame_converted,
        [Converted "n" Numeric; Converted "c" Categorical]).
Proof. reflexivity. Defined.

Lemma driver_needs_columns_witness :
  has_key "ok" (columns Toy.typed_frame) = true
  /\ convert_all_variable_data (pd := Toy.pandas)
       (pandas_types := Toy.pandas_types) Toy.typed_frame
       [("zz", Bare Numeric); ("n", Bare Numeric)]
     = Err (LookupError "Variable ID not in DataFrame").
Proof.
  split.
  - destruct (driver_needs_columns (pd := Toy.pandas)
                (pandas_types := Toy.pandas_types) Toy.typed_frame
                Toy.typed_assignment) as [Hall _].
    apply (Hall _ toy_typed_converted). simpl. tauto.
  - destruct (driver_needs_columns (pd := Toy.pandas)
                (pandas_types := Toy.pandas_types) Toy.typed_frame
                [("zz", Bare Numeric); ("n", Bare Numeric)]) as [_ Hfirst].
    apply (Hfirst "zz" (Bare Numeric) [("n", Bare Numeric)]); reflexivity.
Defined.

Lemma driver_frame_witness :
  kind Toy.typed_frame_converted = kind Toy.typed_frame
  /\ map fst (columns Toy.typed_frame_converted)
     = map fst (columns Toy.typed_frame)
  /\ Forall (fun ev => In (event_column ev) (map fst Toy.typed_assignment))
            [Converted "n" Numeric; Converted "c" Categorical].
Proof.
  destruct (driver_frame (pd := Toy.pandas) (pandas_types := Toy.pandas_types)
              Toy.typed_frame Toy.typed_assignment Toy.typed_frame_converted
              [Converted "n" Numeric; Converted "c" Categorical]
              toy_typed_converted) as (Hk & Hn & _ & _ & Hev).
  split; [exact Hk|]. split; [exact Hn|exact Hev].
Defined.

Lemma replace_latlong_nan_fills_witness :
  hasnans (replace_latlong_nan (default_index 2) Toy.places) = false
  /\ nth_error (s_values (replace_latlong_nan [VStr "a"; VStr "b"] Toy.places)) 1
     = Some VNaN.
Proof.
  destruct (replace_latlong_nan_fills (default_index 2) Toy.places)
    as (_ & _ & Hdefault & _).
  destruct (replace_latlong_nan_fills [VStr "a"; VStr "b"] Toy.places)
    as (_ & Hcell & _).
  split; [apply Hdefault; reflexivity|exact (Hcell 1%nat VNaN eq_refl)].
Defined.

Lemma driver_latlong_column_witness :
  hasnans Toy.places = true
  /\ get_column
       (mkFrame PandasFrame
          [("loc", mkSeries DObject [VPair (NInt 1) (NInt 2); VPair NNaN NNaN])])
       "loc"
     = Ok (replace_latlong_nan (default_index 2) Toy.places)
  /\ In (Warned "loc") [Warned "loc"].
Proof.
  split; [reflexivity|].
  destruct (driver_latlong_column (pd := Toy.pandas)
              (pandas_types := Toy.pandas_types) Toy.places_frame
              [("loc", Bare LatLong)] "loc" (Bare LatLong) Toy.places
              (mkFrame PandasFrame
                 [("loc", mkSeries DObject
                            [VPair (NInt 1) (NInt 2); VPair NNaN NNaN])])
              [Warned "loc"]) as (Hcol & _ & Hwarn);
    try reflexivity.
  - repeat constructor. simpl. tauto.
  - simpl. tauto.
  - split; [exact Hcol|]. apply Hwarn. reflexivity.
Defined.

Lemma driver_refuses_lossy_numeric_witness :
  non_numeric_strings (pd := Toy.pandas) Toy.words
  /\ forall st',
       convert_all_variable_data (pd := Toy.pandas)
         (pandas_types := Toy.pandas_types) Toy.words_frame
         [("x", Bare Numeric)] <> Ok st'.
Proof.
  assert (Hs : non_numeric_strings (pd := Toy.pandas) Toy.words).
  { unfold non_numeric_strings. simpl.
    repeat constructor; eexists; split; reflexivity. }
  split; [exact Hs|].
  apply (driver_refuses_lossy_numeric (pd := Toy.pandas)
           (pandas_types := Toy.pandas_types) Toy.words_frame
           [("x", Bare Numeric)] "x" (Bare Numeric) Toy.words);
    try reflexivity.
  - repeat constructor. simpl. tauto.
  - simpl. tauto.
  - discriminate.
  - exact Hs.
Defined.

Lemma toy_quarters_nodup : NoDup (map fst [("x", Numeric)]).
Proof. repeat constructor. simpl. tauto. Defined.



Lemma statistics_counts_witness :
  exists values n m u,
    (exists statistics,
       generate_statistics (pd := Toy.pandas) (AFrame Toy.quarters_frame)
                           [("x", Numeric)] = Ok statistics
       /\ assoc "x" statistics = Some values)
    /\ assoc "count" values = Some (SNumber (NInt (Z.of_nat n)))
    /\ assoc "nan_count" values = Some (SNumber (NInt (Z.of_nat m)))
    /\ assoc "nunique" values = Some (SNumber (NInt (Z.of_nat u)))
    /\ (n + m)%nat = 4%nat /\ (u <= n)%nat.
Proof.
  destruct (statistics_counts (pd := Toy.pandas) (AFrame Toy.quarters_frame)
              [("x", Numeric)] _ "x" Numeric Toy.quarters_frame Toy.quarters
              toy_quarters_nodup (or_introl eq_refl) eq_refl eq_refl eq_refl)
    as (values & n & m & u & Ha & Hc & Hn & Hu & Hsum & Hle).
  exists values, n, m, u.
  split; [eexists; split; [reflexivity|exact Ha]|].
  repeat (split; [assumption|]). exact Hle.
Defined.


Lemma statistics_numeric_order_witness :
  exists values lo hi,
    (exists statistics,
       generate_statistics (pd := Toy.pandas) (AFrame Toy.quarters_frame)
                           [("x", Numeric)] = Ok statistics
       /\ assoc "x" statistics = Some values)
    /\ assoc "min" values = Some (SNumber (NFloat lo))
    /\ assoc "max" values = Some (SNumber (NFloat hi))
    /\ lo <= 3 /\ 3 <= hi.
Proof.
  assert (Hne : numbers_of Toy.quarters <> []) by discriminate.
  destruct (statistics_numeric_order (pd := Toy.pandas)
              (AFrame Toy.quarters_frame) [("x", Numeric)] _ "x"
              Toy.quarters_frame Toy.quarters Toy.quarters
              toy_quarters_nodup (or_introl eq_refl) eq_refl eq_refl eq_refl
              eq_refl Hne)
    as (values & lo & hi & Ha & H1 & H2 & _ & H3).
  exists values, lo, hi.
  split; [eexists; split; [reflexivity|exact Ha]|].
  split; [exact H1|]. split; [exact H2|].
  apply (H3 3). simpl. tauto.
Defined.

Lemma statistics_numeric_needs_numbers_witness :
  exists statistics,
    generate_statistics (pd := Toy.pandas) (AFrame Toy.events_frame)
                        [("zip", Numeric)] = Ok statistics
    /\ In (VStr "90210")
          [VStr "90210"; VStr "10001"; VStr "90210"]
    /\ parse_float (Pandas := Toy.pandas) "90210" <> None.
Proof.
  assert (Hnd : NoDup (map fst [("zip", Numeric)]))
    by (repeat constructor; simpl; tauto).
  assert (Hin : In (VStr "90210") [VStr "90210"; VStr "10001"; VStr "90210"])
    by (left; reflexivity).
  eexists. split; [reflexivity|]. split; [exact Hin|].
  exact (statistics_numeric_needs_numbers (pd := Toy.pandas)
           (AFrame Toy.events_frame) [("zip", Numeric)] _ "zip"
           Toy.events_frame
           (mkSeries DObject [VStr "90210"; VStr "10001"; VStr "90210"])
           Hnd (or_introl eq_refl) eq_refl eq_refl eq_refl "90210" Hin).
Defined.

Lemma linked_vars_are_the_entity_variables_witness :
  consistent_relationships Toy.users
  /\ get_linked_vars Toy.users = ["user_id"].
Proof.
  assert (Hc : consistent_relationships Toy.users).
  { unfold consistent_relationships. simpl.
    repeat constructor. }
  split; [exact Hc|].
  exact (linked_vars_are_the_entity_variables Toy.users Hc).
Defined.

Lemma linked_variable_inferred_categorical_witness :
  exists res,
    infer_variable_types (pd := Toy.pandas) Toy.users_frame
      (get_linked_vars Toy.users) [] None [] = Ok res
    /\ assoc "user_id" res = Some Categorical.
Proof.
  eexists. split; [reflexivity|].
  apply (linked_variable_inferred_categorical (pd := Toy.pandas) Toy.users
           (mkRelationship "users" "events"
              (mkVariable "user_id" "users") (mkVariable "user" "events"))
           (mkVariable "user_id" "users") Toy.users_frame [] None [] _
           (mkSeries DInt64 [VNum (NInt 1); VNum (NInt 2)]));
    try reflexivity.
  - simpl. tauto.
  - left. reflexivity.
  - left. reflexivity.
  - repeat constructor; simpl; intuition discriminate.
  - simpl. tauto.
Defined.
